(** * Scoring and re-ranking pipeline of the food recommendation backend

    A shallow embedding of
      - [app/services/scoring_service.py]      (weights, factor scorers, composer),
      - [app/services/scoring_pipeline.py]     (filtering, grouping, fallback flags),
      - [app/services/review_boost_service.py] (review re-ranker),
    followed by the properties established about them.

    Conventions of the embedding.
      - A Python [float] is a real number ([R]); the decimal literals of the
        source are the same decimal literals here.  Rounding, NaN and the
        infinities of IEEE doubles are outside the model.
      - A Python [str] is a [string] of 8-bit characters; [str.lower] folds the
        ASCII letters only.
      - A dictionary with a fixed set of keys ([attrs], [place], the weight
        table) is a record; a key that may be absent or [None] is an [option].
      - [x or y], [if x:] follow Python truthiness: [None], [""], [[]], [0.0]
        and [False] are false. *)

From Stdlib Require Import Reals Lra Lia String Ascii List Bool Arith PeanoNat Permutation.
Import ListNotations.

Open Scope string_scope.
Open Scope R_scope.

(* ================================================================== *)
(** ** Python strings *)

Module PyStr.

(** [c.lower()] on one ASCII character. *)
Definition lower_ascii (c : ascii) : ascii :=
  let n := nat_of_ascii c in
  if (65 <=? n)%nat && (n <=? 90)%nat then ascii_of_nat (n + 32) else c.

(** [s.lower()]. *)
Fixpoint lower (s : string) : string :=
  match s with
  | EmptyString => EmptyString
  | String c s' => String (lower_ascii c) (lower s')
  end.

(** [needle in hay] for strings: [needle] occurs as a contiguous substring. *)
Fixpoint contains (needle hay : string) : bool :=
  String.prefix needle hay
  || match hay with
     | EmptyString => false
     | String _ hay' => contains needle hay'
     end.

(** Truthiness of a string: non-empty. *)
Definition truthy (s : string) : bool :=
  match s with EmptyString => false | _ => true end.

(** [d.get(k) or ""] for an optional string. *)
Definition or_empty (o : option string) : string :=
  match o with Some s => s | None => "" end.

(** Truthiness of an optional string: present and non-empty. *)
Definition otruthy (o : option string) : bool := truthy (or_empty o).

(** [a or b] on optional strings. *)
Definition por (a b : option string) : option string :=
  if otruthy a then a else b.

(** [c.isspace()] on the ASCII range: tab, LF, VT, FF, CR, FS, GS, RS, US, space. *)
Definition is_space (c : ascii) : bool :=
  let n := nat_of_ascii c in
  ((9 <=? n)%nat && (n <=? 13)%nat) || ((28 <=? n)%nat && (n <=? 32)%nat).

Fixpoint lstrip (s : string) : string :=
  match s with
  | String c s' => if is_space c then lstrip s' else s
  | EmptyString => EmptyString
  end.

(** [s.rstrip()]: the result is empty exactly when only spaces remain. *)
Fixpoint rstrip (s : string) : string :=
  match s with
  | EmptyString => EmptyString
  | String c s' =>
      match rstrip s' with
      | EmptyString => if is_space c then EmptyString else String c EmptyString
      | r => String c r
      end
  end.

Definition strip (s : string) : string := rstrip (lstrip s).

(** [sep.join(parts)]. *)
Fixpoint join (sep : string) (parts : list string) : string :=
  match parts with
  | [] => ""
  | [x] => x
  | x :: rest => x ++ sep ++ join sep rest
  end.

End PyStr.

(** A preference value that upstream delivers either as one string or as a
    list of strings (or not at all). *)
Inductive str_or_list : Type :=
| SLNone
| SLStr (s : string)
| SLList (l : list string).

(** [v or []] followed by [if isinstance(v, str): v = [v]]. *)
Definition as_list (v : str_or_list) : list string :=
  match v with
  | SLNone => []
  | SLStr s => if PyStr.truthy s then [s] else []
  | SLList l => l
  end.

(** Truthiness of such a value. *)
Definition sl_truthy (v : str_or_list) : bool :=
  match v with
  | SLNone => false
  | SLStr s => PyStr.truthy s
  | SLList l => match l with [] => false | _ => true end
  end.

(** A raw numeric field of a record: absent, something [float()] accepts
    (with its value), or something [float()] rejects. *)
Inductive pynum : Type :=
| PyNone
| PyNum (x : R)
| PyBad.

(* ================================================================== *)
(** ** Data model *)

(** The attribute dictionary [attrs] produced by attribute extraction. *)
Record UserPreferences : Type := mkPrefs {
  a_cuisine : option string;
  a_inferred_cuisine_from_dish : option string;
  a_dish : str_or_list;
  a_food_style : str_or_list;
  a_avoid_food_style : str_or_list;
  a_avoid_cuisine : str_or_list;
  a_budget : option R;
  a_mood : option string;
  a_veg_only : bool;
  a_max_distance_m : option R;
  a_ranking_preferences : str_or_list;
  a_raw_query : string;
  a_distance_preference : option string;
  a_category_hint : option string;
  a_fallback_type : option string;
  a_dish_fallback : bool
}.

(** The review field of a place: absent, a list of strings, or one string. *)
Inductive review_field : Type :=
| RvNone
| RvList (l : list string)
| RvStr (s : string).

(** A canonical place dictionary, with the three annotations the pipeline
    attaches ([score], [reason], [score_with_reviews]). *)
Record Candidate : Type := mkPlace {
  p_place_id : option string;
  p_name : option string;
  p_category : option string;
  p_cuisine : option string;
  p_popularity : pynum;
  p_distance_m : pynum;
  p_price_level : pynum;
  p_tags : option string;
  p_reviews_list : review_field;
  p_reviews : review_field;
  p_reviews_text : review_field;
  p_score : option R;
  p_reason : option string;
  p_score_with_reviews : option R
}.

(** The weight table: one real per factor key. *)
Record Weights : Type := mkWeights {
  cuisine_match : R;
  style_match : R;
  popularity : R;
  distance : R;
  budget : R
}.

(* ================================================================== *)
(** ** scoring_service.py: weights *)

Definition WEIGHTS : Weights :=
  {| cuisine_match := 0.35; style_match := 0.15; popularity := 0.20;
     distance := 0.15; budget := 0.10 |}.

(** [sum(w.values())]. *)
Definition wsum (w : Weights) : R :=
  cuisine_match w + style_match w + popularity w + distance w + budget w.

(** The normalised token list of [ranking_preferences]: lower-cased, empty
    strings dropped. *)
Definition norm_prefs (attrs : UserPreferences) : list string :=
  filter PyStr.truthy (map PyStr.lower (as_list (a_ranking_preferences attrs))).

(** [w = {k: 0.02 for k in keys}]. *)
Definition baseline : Weights :=
  {| cuisine_match := 0.02; style_match := 0.02; popularity := 0.02;
     distance := 0.02; budget := 0.02 |}.

Definition set_budget (v : R) (w : Weights) : Weights :=
  {| cuisine_match := cuisine_match w; style_match := style_match w;
     popularity := popularity w; distance := distance w; budget := v |}.
Definition set_distance (v : R) (w : Weights) : Weights :=
  {| cuisine_match := cuisine_match w; style_match := style_match w;
     popularity := popularity w; distance := v; budget := budget w |}.
Definition set_popularity (v : R) (w : Weights) : Weights :=
  {| cuisine_match := cuisine_match w; style_match := style_match w;
     popularity := v; distance := distance w; budget := budget w |}.
Definition set_cuisine_match (v : R) (w : Weights) : Weights :=
  {| cuisine_match := v; style_match := style_match w;
     popularity := popularity w; distance := distance w; budget := budget w |}.
Definition set_style_match (v : R) (w : Weights) : Weights :=
  {| cuisine_match := cuisine_match w; style_match := v;
     popularity := popularity w; distance := distance w; budget := budget w |}.

(** The single-primary-factor assignment ([len(prefs) == 1]). *)
Definition set_primary (p0 : string) (w : Weights) : Weights :=
  if p0 =? "budget" then set_budget 0.9 w
  else if p0 =? "distance" then set_distance 0.9 w
  else if (p0 =? "popularity") || (p0 =? "rating") then set_popularity 0.9 w
  else if p0 =? "cuisine" then set_cuisine_match 0.9 w
  else if p0 =? "style" then set_style_match 0.9 w
  else w.

(** One iteration of the multi-factor loop: [w[key] += 0.4]. *)
Definition bump (w : Weights) (p : string) : Weights :=
  if p =? "budget" then set_budget (budget w + 0.4) w
  else if p =? "distance" then set_distance (distance w + 0.4) w
  else if (p =? "popularity") || (p =? "rating") then set_popularity (popularity w + 0.4) w
  else if p =? "cuisine" then set_cuisine_match (cuisine_match w + 0.4) w
  else if p =? "style" then set_style_match (style_match w + 0.4) w
  else w.

(** The weights before normalisation, for a non-empty token list. *)
Definition raw_pref_weights (prefs : list string) : Weights :=
  match prefs with
  | [p0] => set_primary p0 baseline
  | _ => fold_left bump prefs baseline
  end.

(** [total = sum(w.values()) or 1.0; for k in w: w[k] /= total]. *)
Definition normalize (w : Weights) : Weights :=
  let total := if Req_dec_T (wsum w) 0 then 1.0 else wsum w in
  {| cuisine_match := cuisine_match w / total;
     style_match := style_match w / total;
     popularity := popularity w / total;
     distance := distance w / total;
     budget := budget w / total |}.

Definition preset_distance : Weights :=
  {| distance := 0.60; popularity := 0.15; cuisine_match := 0.10;
     style_match := 0.05; budget := 0.10 |}.
Definition preset_popularity : Weights :=
  {| popularity := 0.50; distance := 0.20; cuisine_match := 0.15;
     style_match := 0.05; budget := 0.10 |}.
Definition preset_budget : Weights :=
  {| budget := 0.50; distance := 0.20; cuisine_match := 0.15;
     style_match := 0.05; popularity := 0.10 |}.
Definition preset_cuisine : Weights :=
  {| cuisine_match := 0.50; distance := 0.20; popularity := 0.15;
     style_match := 0.10; budget := 0.05 |}.
Definition preset_style : Weights :=
  {| style_match := 0.40; cuisine_match := 0.25; distance := 0.15;
     popularity := 0.10; budget := 0.10 |}.

(** Truthiness of an optional number: present and non-zero. *)
Definition num_truthy (o : option R) : bool :=
  match o with
  | None => false
  | Some b => if Req_dec_T b 0 then false else true
  end.

(** The conditions of the five fallback branches, in source order. *)
Definition wants_near (attrs : UserPreferences) : bool :=
  match a_distance_preference attrs with
  | Some dp => PyStr.truthy dp && (PyStr.contains "near" dp || PyStr.contains "nearby" dp)
  | None => false
  end.

Definition wants_popular (attrs : UserPreferences) : bool :=
  let query_text := PyStr.lower (a_raw_query attrs) in
  PyStr.contains "popular" query_text
  || PyStr.contains "high rating" query_text
  || PyStr.contains "top rated" query_text.

Definition has_budget (attrs : UserPreferences) : bool := num_truthy (a_budget attrs).

Definition has_cuisine (attrs : UserPreferences) : bool :=
  PyStr.otruthy (a_cuisine attrs) || PyStr.otruthy (a_inferred_cuisine_from_dish attrs).

Definition has_style (attrs : UserPreferences) : bool := sl_truthy (a_food_style attrs).

Definition adjust_dynamic_weights (attrs : UserPreferences) (base : Weights) : Weights :=
  match norm_prefs attrs with
  | (_ :: _) as prefs => normalize (raw_pref_weights prefs)
  | [] =>
      if wants_near attrs then preset_distance
      else if wants_popular attrs then preset_popularity
      else if has_budget attrs then preset_budget
      else if has_cuisine attrs then preset_cuisine
      else if has_style attrs then preset_style
      else base
  end.

(* ================================================================== *)
(** ** scoring_service.py: lookup tables *)

(** [tbl.get(k)] on a dictionary literal kept as its list of items. *)
Fixpoint lookup {V : Type} (k : string) (tbl : list (string * V)) : option V :=
  match tbl with
  | [] => None
  | (k', v) :: rest => if k =? k' then Some v else lookup k rest
  end.

(** A dish hint: the optional ["cuisine"] and ["category"] keys. *)
Record dish_hint : Type := mkHint {
  h_cuisine : option string;
  h_category : option string
}.

Definition by_cuisine (c : string) : dish_hint := mkHint (Some c) None.
Definition by_category (c : string) : dish_hint := mkHint None (Some c).

Definition DISH_HINTS : list (string * dish_hint) :=
  [ ("dosa", by_cuisine "south indian");
    ("idli", by_cuisine "south indian");
    ("vada", by_cuisine "south indian");
    ("pongal", by_cuisine "south indian");
    ("biryani", by_cuisine "indian");
    ("naan", by_cuisine "north indian");
    ("butter naan", by_cuisine "north indian");
    ("butter chicken", by_cuisine "north indian");
    ("fried rice", by_cuisine "chinese");
    ("manchurian", by_cuisine "chinese");
    ("noodles", by_cuisine "chinese");
    ("pizza", by_cuisine "italian");
    ("pasta", by_cuisine "italian");
    ("burger", by_category "fast food");
    ("ice cream", by_category "dessert");
    ("brownie", by_category "dessert");
    ("litti", by_cuisine "bihari");
    ("litti chokha", by_cuisine "bihari");
    ("dal bati", by_cuisine "rajasthani");
    ("misal pav", by_cuisine "maharashtrian") ].

(** Iterated in insertion order by [_get_family]. *)
Definition CUISINE_FAMILIES : list (string * list string) :=
  [ ("south indian", ["south indian"; "andhra"; "telangana"; "tamil"; "kerala";
                      "karnataka"; "udupi"; "chettinad"]);
    ("north indian", ["north indian"; "punjabi"; "mughlai"; "awadhi"; "bihari"]);
    ("east indian", ["bengali"; "odia"; "oriya"; "assamese"]);
    ("west indian", ["rajasthani"; "gujarati"; "maharashtrian"; "goan"]);
    ("coastal", ["mangalorean"; "konkan"; "seafood"]);
    ("generic_indian", ["indian"]) ].

Definition STATE_FAMILY : list (string * string) :=
  [ ("andhra", "south indian");
    ("telangana", "south indian");
    ("tamil nadu", "south indian");
    ("kerala", "south indian");
    ("karnataka", "south indian");
    ("punjab", "north indian");
    ("uttar pradesh", "north indian");
    ("bihar", "north indian");
    ("delhi", "north indian");
    ("haryana", "north indian");
    ("rajasthan", "west indian");
    ("gujarat", "west indian");
    ("maharashtra", "west indian");
    ("goa", "west indian");
    ("west bengal", "east indian");
    ("odisha", "east indian");
    ("orissa", "east indian");
    ("assam", "east indian") ].

(** A style hint: the ["cuisines"] and ["categories"] lists. *)
Record style_hint : Type := mkStyleHint {
  sh_cuisines : list string;
  sh_categories : list string
}.

Definition STYLE_HINTS : list (string * style_hint) :=
  [ ("soft", mkStyleHint ["south indian"] []);
    ("light", mkStyleHint ["south indian"; "healthy"] []);
    ("comfort", mkStyleHint ["south indian"; "indian"] []);
    ("crunchy", mkStyleHint [] ["fast food"]);
    ("crispy", mkStyleHint [] ["fast food"; "chinese"]);
    ("cheesy", mkStyleHint ["italian"] ["fast food"]);
    ("spicy", mkStyleHint ["andhra"; "chettinad"; "indo-chinese"; "north indian"] []);
    ("sweet", mkStyleHint [] ["dessert"; "bakery"]);
    ("healthy", mkStyleHint [] ["salad"; "healthy food"]) ].

(* ================================================================== *)
(** ** scoring_service.py: factor scorers *)

(** [max(0.0, min(x, 1.0))]. *)
Definition clamp01 (x : R) : R := Rmax 0.0 (Rmin x 1.0).

(** [max(-0.25, min(x, 0.25))]. *)
Definition clamp_boost (x : R) : R := Rmax (-0.25) (Rmin x 0.25).

Definition normalize_popularity (raw : pynum) : R :=
  match raw with
  | PyNone => 0.0
  | PyBad => 0.0
  | PyNum val =>
      if Rle_dec val 5 then clamp01 (val / 5.0) else clamp01 (val / 10.0)
  end.

Definition distance_score (dist_m : pynum) : R :=
  match dist_m with
  | PyNone => 0.5
  | PyBad => 0.5
  | PyNum d => if Rle_dec d 0 then 1.0 else exp (- d / 4000.0)
  end.

Definition budget_similarity (user_budget : option R) (place_price : pynum) : R :=
  match user_budget, place_price with
  | None, _ => 0.5
  | _, PyNone => 0.5
  | _, PyBad => 0.5
  | Some b, PyNum p =>
      if Rle_dec p b then 1.0
      else if Rle_dec p (1.3 * b) then 0.7
      else if Rle_dec p (1.6 * b) then 0.4
      else 0.1
  end.

(** The first family of [CUISINE_FAMILIES] one of whose keywords occurs in [txt]. *)
Fixpoint family_scan (txt : string) (fams : list (string * list string)) : option string :=
  match fams with
  | [] => None
  | (fam, vals) :: rest =>
      if existsb (fun v => PyStr.contains v txt) vals then Some fam
      else family_scan txt rest
  end.

Definition _get_family (label : string) : string :=
  if negb (PyStr.truthy label) then ""
  else
    let txt := PyStr.lower label in
    match lookup txt STATE_FAMILY with
    | Some fam => fam
    | None =>
        match family_scan txt CUISINE_FAMILIES with
        | Some fam => fam
        | None => if PyStr.contains "indian" txt then "generic_indian" else ""
        end
    end.

(** The result of [classify_cuisine_relation]: ["strong"], ["weak"], ["none"]. *)
Inductive relation : Type := Strong | Weak | NoRelation.

Definition relation_eqb (a b : relation) : bool :=
  match a, b with
  | Strong, Strong | Weak, Weak | NoRelation, NoRelation => true
  | _, _ => false
  end.

(** [attrs.get("cuisine") or attrs.get("inferred_cuisine_from_dish")]. *)
Definition user_cuisine (attrs : UserPreferences) : option string :=
  PyStr.por (a_cuisine attrs) (a_inferred_cuisine_from_dish attrs).

Definition classify_cuisine_relation (attrs : UserPreferences) (place : Candidate) : relation :=
  if negb (PyStr.otruthy (user_cuisine attrs)) then NoRelation
  else
    let uc := PyStr.lower (PyStr.or_empty (user_cuisine attrs)) in
    let cat := PyStr.lower (PyStr.or_empty (p_category place)) in
    let cuisine_text :=
      PyStr.lower (PyStr.or_empty (PyStr.por (p_category place) (p_cuisine place))) in
    if negb (PyStr.truthy cuisine_text) && negb (PyStr.truthy cat) then NoRelation
    else if PyStr.contains uc cuisine_text then Strong
    else
      let user_family := _get_family uc in
      let place_family := _get_family cuisine_text in
      if PyStr.truthy user_family && PyStr.truthy place_family then
        if user_family =? place_family then Strong
        else if ((user_family =? "south indian") && (place_family =? "generic_indian"))
                || ((user_family =? "generic_indian")
                    && ((place_family =? "south indian") || (place_family =? "north indian")))
        then Weak
        else NoRelation
      else NoRelation.

Definition cuisine_match_score (attrs : UserPreferences) (place : Candidate) : R :=
  if negb (PyStr.otruthy (user_cuisine attrs)) then 0.5
  else
    match classify_cuisine_relation attrs place with
    | Strong => 1.0
    | Weak => 0.6
    | NoRelation => 0.0
    end.

Definition style_score_fn (attrs : UserPreferences) (place : Candidate) : R :=
  let desired := as_list (a_food_style attrs) in
  let tags := PyStr.lower (PyStr.or_empty (p_tags place)) in
  match desired with
  | [] => 0.0
  | _ =>
      if negb (PyStr.truthy tags) then 0.0
      else
        let matches :=
          length (filter (fun s => PyStr.contains (PyStr.lower s) tags) desired) in
        INR matches / INR (length desired)
  end.

Definition avoid_penalty (attrs : UserPreferences) (place : Candidate) : R :=
  let avoid_styles := as_list (a_avoid_food_style attrs) in
  let avoid_cuisines := as_list (a_avoid_cuisine attrs) in
  let tags := PyStr.lower (PyStr.or_empty (p_tags place)) in
  let cat := PyStr.lower (PyStr.or_empty (p_category place)) in
  let score :=
    fold_left (fun score s => if PyStr.contains (PyStr.lower s) tags then score - 0.4 else score)
              avoid_styles 0.0 in
  fold_left (fun score c => if PyStr.contains (PyStr.lower c) cat then score - 0.4 else score)
            avoid_cuisines score.

(** The list of lower-cased dish tokens, or [None] where the source returns
    0.0 before looking at the place ([if not dish]). *)
Definition dish_tokens (attrs : UserPreferences) : option (list string) :=
  match a_dish attrs with
  | SLNone => None
  | SLStr s => if PyStr.truthy s then Some [PyStr.lower s] else None
  | SLList [] => None
  | SLList l => Some (map PyStr.lower l)
  end.

(** The value the loop body assigns for a matched hint. *)
Definition relation_bump (rel : relation) (boost : R) : R :=
  match rel with
  | Strong => Rmax boost 0.25
  | Weak => Rmax boost 0.15
  | NoRelation => boost
  end.

(** Whether the ["cuisine"] part of a hint occurs in the place category. *)
Definition hint_cuisine_hit (hint : dish_hint) (place_cat : string) : bool :=
  match h_cuisine hint with
  | Some c => PyStr.contains c place_cat
  | None => false
  end.

(** Whether the ["category"] part of a hint occurs in the place category. *)
Definition hint_category_hit (hint : dish_hint) (place_cat : string) : bool :=
  match h_category hint with
  | Some c => PyStr.contains c place_cat
  | None => false
  end.

(** One iteration of the loop over [dishes]. *)
Definition dish_step (rel : relation) (place_cat : string) (boost : R) (d : string) : R :=
  match lookup d DISH_HINTS with
  | None => boost
  | Some hint =>
      let boost1 := if hint_cuisine_hit hint place_cat then relation_bump rel boost else boost in
      if hint_category_hit hint place_cat then relation_bump rel boost1 else boost1
  end.

Definition dish_boost (attrs : UserPreferences) (place : Candidate) : R :=
  match dish_tokens attrs with
  | None => 0.0
  | Some dishes =>
      let place_cat := PyStr.lower (PyStr.or_empty (p_category place)) in
      let rel := classify_cuisine_relation attrs place in
      let boost := fold_left (dish_step rel place_cat) dishes 0.0 in
      match rel with
      | NoRelation => 0.0
      | _ => boost
      end
  end.

(** [+0.08] for every implied cuisine or category found in [cat] or [tags]. *)
Definition hint_hits (cat tags : string) (boost : R) (cs : list string) : R :=
  fold_left (fun b c => if PyStr.contains c cat || PyStr.contains c tags then b + 0.08 else b)
            cs boost.

Definition _style_inference_boost (attrs : UserPreferences) (place : Candidate) : R :=
  let desired := as_list (a_food_style attrs) in
  match desired with
  | [] => 0.0
  | _ =>
      let cat := PyStr.lower (PyStr.or_empty (p_category place)) in
      let tags := PyStr.lower (PyStr.or_empty (p_tags place)) in
      let boost :=
        fold_left
          (fun boost s =>
             match lookup (PyStr.lower s) STYLE_HINTS with
             | None => boost
             | Some hint =>
                 hint_hits cat tags (hint_hits cat tags boost (sh_cuisines hint))
                           (sh_categories hint)
             end)
          desired 0.0 in
      clamp_boost boost
  end.

Definition mood_boost (attrs : UserPreferences) (place : Candidate) : R :=
  if negb (PyStr.otruthy (a_mood attrs)) then 0.0
  else
    let mood_text := PyStr.lower (PyStr.or_empty (a_mood attrs)) in
    let cat := PyStr.lower (PyStr.or_empty (p_category place)) in
    let tags := PyStr.lower (PyStr.or_empty (p_tags place)) in
    let has := PyStr.contains in
    let boost := 0.0 in
    let boost :=
      if has "comfort" mood_text || has "rough" mood_text || has "bad day" mood_text
         || has "sad" mood_text || has "tired" mood_text
      then
        let boost :=
          if has "vegetarian" cat || has "veg" cat then boost + 0.18
          else if has "south indian" cat then boost + 0.15
          else if has "indian" cat then boost + 0.08
          else boost in
        let boost :=
          if has "light" tags || has "home-style" tags || has "healthy" tags || has "soft" tags
          then boost + 0.10 else boost in
        let boost :=
          if has "fast food" cat || has "chinese" cat then boost - 0.08 else boost in
        if has "fried" tags || has "biryani" tags || has "tandoori" tags || has "oily" tags
        then boost - 0.10 else boost
      else boost in
    let boost :=
      if has "celebration" mood_text || has "party" mood_text || has "birthday" mood_text
      then
        let boost :=
          if has "mughlai" cat || has "north indian" cat || has "biryani" tags
          then boost + 0.12 else boost in
        if has "dessert" cat || has "bakery" cat || has "sweet" tags
        then boost + 0.08 else boost
      else boost in
    clamp_boost boost.

Definition compute_score (attrs : UserPreferences) (place : Candidate) : R :=
  let c := cuisine_match_score attrs place in
  let s := style_score_fn attrs place in
  let p := normalize_popularity (p_popularity place) in
  let d := distance_score (p_distance_m place) in
  let b := budget_similarity (a_budget attrs) (p_price_level place) in
  let penalty := avoid_penalty attrs place in
  let dish_extra := dish_boost attrs place in
  let mood_extra := mood_boost attrs place in
  let style_inferred_extra := _style_inference_boost attrs place in
  let w := adjust_dynamic_weights attrs WEIGHTS in
  let base :=
    cuisine_match w * c + style_match w * s + popularity w * p
    + distance w * d + budget w * b in
  let final := base + dish_extra + mood_extra + style_inferred_extra + penalty in
  clamp01 final.

(* ================================================================== *)
(** ** Sorting as [list.sort(key=..., reverse=True)] *)

(** Python's sort is stable, also with [reverse=True]: elements with equal
    keys keep their input order.  [insert_desc] puts [x], which preceded all
    of [l] in the input, before the first element whose key is not greater. *)
Fixpoint insert_desc {A : Type} (key : A -> R) (x : A) (l : list A) : list A :=
  match l with
  | [] => [x]
  | y :: l' =>
      if Rlt_dec (key x) (key y) then y :: insert_desc key x l' else x :: l
  end.

Definition sort_desc {A : Type} (key : A -> R) (l : list A) : list A :=
  fold_right (insert_desc key) [] l.

(* ================================================================== *)
(** ** scoring_pipeline.py *)

Definition _is_veg_place (place : Candidate) : bool :=
  let cuisine_text := PyStr.lower (PyStr.or_empty (p_cuisine place)) in
  let category_text := PyStr.lower (PyStr.or_empty (p_category place)) in
  let combined := cuisine_text ++ " " ++ category_text in
  PyStr.contains "vegetarian" combined.

(** The dictionary [contributions] handed to the explanation builder. *)
Record contributions : Type := mkContrib {
  c_cuisine : R;
  c_style : R;
  c_popularity : R;
  c_distance : R;
  c_budget : R;
  c_dish : R;
  c_mood : R;
  c_penalty : R;
  c_cuisine_relation : relation
}.

(** [bool(cuisine or inferred_cuisine_from_dish or dish)]. *)
Definition user_has_specific_preference (attrs : UserPreferences) : bool :=
  PyStr.otruthy (a_cuisine attrs)
  || PyStr.otruthy (a_inferred_cuisine_from_dish attrs)
  || sl_truthy (a_dish attrs).

(** The distance test of the hard filter.  [dist > max_dist] on a value that
    is not a number raises [TypeError]: the result is [None] then. *)
Definition too_far (max_dist : option R) (p : Candidate) : option bool :=
  match max_dist with
  | None => Some false
  | Some m =>
      match p_distance_m p with
      | PyNone => Some false
      | PyNum d => Some (if Rlt_dec m d then true else false)
      | PyBad => None
      end
  end.

(** Strict vegetarian and distance filtering; [None] when it raises. *)
Fixpoint hard_filter (attrs : UserPreferences) (places : list Candidate)
  : option (list Candidate) :=
  match places with
  | [] => Some []
  | p :: rest =>
      if a_veg_only attrs && negb (_is_veg_place p) then hard_filter attrs rest
      else
        match too_far (a_max_distance_m attrs) p with
        | None => None
        | Some far =>
            match hard_filter attrs rest with
            | None => None
            | Some kept => if far then Some kept else Some (p :: kept)
            end
        end
  end.

(** [any(ac.lower() in category for ac in avoid_cuisines)]. *)
Definition avoided (attrs : UserPreferences) (p : Candidate) : bool :=
  let category := PyStr.lower (PyStr.or_empty (p_category p)) in
  existsb (fun ac => PyStr.contains (PyStr.lower ac) category)
          (as_list (a_avoid_cuisine attrs)).

(** The three buckets of the grouping loop. *)
Record groups : Type := mkGroups {
  strong_matches : list Candidate;
  weak_matches : list Candidate;
  neutral : list Candidate
}.

Definition group_step (attrs : UserPreferences) (g : groups) (p : Candidate) : groups :=
  if avoided attrs p then g
  else if user_has_specific_preference attrs then
    match classify_cuisine_relation attrs p with
    | Strong => mkGroups (strong_matches g ++ [p]) (weak_matches g) (neutral g)
    | Weak => mkGroups (strong_matches g) (weak_matches g ++ [p]) (neutral g)
    | NoRelation => mkGroups (strong_matches g) (weak_matches g) (neutral g ++ [p])
    end
  else mkGroups (strong_matches g) (weak_matches g) (neutral g ++ [p]).

Definition grouping (attrs : UserPreferences) (places : list Candidate) : groups :=
  fold_left (group_step attrs) places (mkGroups [] [] []).

Definition select_candidates (attrs : UserPreferences) (g : groups) : list Candidate :=
  if user_has_specific_preference attrs then
    match strong_matches g, weak_matches g with
    | _ :: _, _ => strong_matches g
    | [], _ :: _ => weak_matches g
    | [], [] => neutral g
    end
  else neutral g.

(** Whether the requested cuisine occurs in the category or the cuisine of
    some selected candidate (the [found] flag of the cuisine fallback). *)
Definition cuisine_found (token : string) (candidates : list Candidate) : bool :=
  existsb (fun p => PyStr.contains token (PyStr.lower (PyStr.or_empty (p_category p)))
                    || PyStr.contains token (PyStr.lower (PyStr.or_empty (p_cuisine p))))
          candidates.

Definition cuisine_fallback (attrs : UserPreferences) (candidates : list Candidate)
  : option string :=
  match candidates with
  | [] => None
  | _ :: _ =>
      if PyStr.otruthy (user_cuisine attrs) then
        let token := PyStr.lower (PyStr.or_empty (user_cuisine attrs)) in
        if cuisine_found token candidates then None
        else Some "cuisine_family_fallback"
      else None
  end.

Definition dish_found (dish_tokens : list string) (candidates : list Candidate) : bool :=
  existsb (fun p =>
             let text :=
               PyStr.lower (PyStr.join " " [PyStr.or_empty (p_name p);
                                            PyStr.or_empty (p_category p);
                                            PyStr.or_empty (p_tags p)]) in
             existsb (fun d => PyStr.contains d text) dish_tokens)
          candidates.

Definition dish_fallback (attrs : UserPreferences) (candidates : list Candidate) : bool :=
  match candidates with
  | [] => false
  | _ :: _ =>
      match a_dish attrs with
      | SLNone => false
      | SLStr s => PyStr.truthy s && negb (dish_found [PyStr.lower s] candidates)
      | SLList [] => false
      | SLList l => negb (dish_found (map PyStr.lower l) candidates)
      end
  end.

(** [attrs["_fallback_type"] = ...; attrs["_dish_fallback"] = ...]. *)
Definition set_flags (attrs : UserPreferences) (ft : option string) (df : bool)
  : UserPreferences :=
  {| a_cuisine := a_cuisine attrs;
     a_inferred_cuisine_from_dish := a_inferred_cuisine_from_dish attrs;
     a_dish := a_dish attrs;
     a_food_style := a_food_style attrs;
     a_avoid_food_style := a_avoid_food_style attrs;
     a_avoid_cuisine := a_avoid_cuisine attrs;
     a_budget := a_budget attrs;
     a_mood := a_mood attrs;
     a_veg_only := a_veg_only attrs;
     a_max_distance_m := a_max_distance_m attrs;
     a_ranking_preferences := a_ranking_preferences attrs;
     a_raw_query := a_raw_query attrs;
     a_distance_preference := a_distance_preference attrs;
     a_category_hint := a_category_hint attrs;
     a_fallback_type := ft;
     a_dish_fallback := df |}.

(** The candidate set the scoring loop runs over; [None] when filtering raises. *)
Definition selected (attrs : UserPreferences) (places : list Candidate)
  : option (list Candidate) :=
  match hard_filter attrs places with
  | None => None
  | Some kept => Some (select_candidates attrs (grouping attrs kept))
  end.

(** [attrs] as [rank_places] leaves it once the two flags are written. *)
Definition flagged (attrs : UserPreferences) (candidates : list Candidate)
  : UserPreferences :=
  set_flags attrs (cuisine_fallback attrs candidates) (dish_fallback attrs candidates).

(** [p["score"] = score; p["reason"] = reason]. *)
Definition annotate (p : Candidate) (score : R) (reason : string) : Candidate :=
  {| p_place_id := p_place_id p; p_name := p_name p; p_category := p_category p;
     p_cuisine := p_cuisine p; p_popularity := p_popularity p;
     p_distance_m := p_distance_m p; p_price_level := p_price_level p;
     p_tags := p_tags p; p_reviews_list := p_reviews_list p;
     p_reviews := p_reviews p; p_reviews_text := p_reviews_text p;
     p_score := Some score; p_reason := Some reason;
     p_score_with_reviews := p_score_with_reviews p |}.

(** [x["score"]] as a sort key. *)
Definition score_key (p : Candidate) : R :=
  match p_score p with Some v => v | None => 0.0 end.

Section Ranking.

(** The explanation builder [_describe_top_factors] produces display text
    only (with formatted numbers); it is kept uninterpreted, [None] standing
    for a raised exception. *)
Variable _describe_top_factors :
  UserPreferences -> Candidate -> contributions -> option string.

Definition contributions_of (attrs : UserPreferences) (w : Weights) (p : Candidate)
  : contributions :=
  {| c_cuisine := cuisine_match w * cuisine_match_score attrs p;
     c_style := style_match w * style_score_fn attrs p;
     c_popularity := popularity w * normalize_popularity (p_popularity p);
     c_distance := distance w * distance_score (p_distance_m p);
     c_budget := budget w * budget_similarity (a_budget attrs) (p_price_level p);
     c_dish := dish_boost attrs p;
     c_mood := mood_boost attrs p;
     c_penalty := avoid_penalty attrs p;
     c_cuisine_relation := classify_cuisine_relation attrs p |}.

(** The scoring loop. *)
Fixpoint score_all (attrs : UserPreferences) (w : Weights) (candidates : list Candidate)
  : option (list Candidate) :=
  match candidates with
  | [] => Some []
  | p :: rest =>
      let score := compute_score attrs p in
      match _describe_top_factors attrs p (contributions_of attrs w p) with
      | None => None
      | Some reason =>
          match score_all attrs w rest with
          | None => None
          | Some ranked => Some (annotate p score reason :: ranked)
          end
      end
  end.

(** [rank_places]: the mutated [attrs] and the returned list. *)
Definition rank_places (attrs : UserPreferences) (places : list Candidate)
  : option (UserPreferences * list Candidate) :=
  match selected attrs places with
  | None => None
  | Some candidates =>
      let attrs' := flagged attrs candidates in
      let w := adjust_dynamic_weights attrs' WEIGHTS in
      match score_all attrs' w candidates with
      | None => None
      | Some ranked => Some (attrs', sort_desc score_key ranked)
      end
  end.

End Ranking.

(* ================================================================== *)
(** ** review_boost_service.py *)

(** Truthiness of a review field. *)
Definition rv_truthy (r : review_field) : bool :=
  match r with
  | RvNone => false
  | RvList l => match l with [] => false | _ => true end
  | RvStr s => PyStr.truthy s
  end.

Definition _flatten_reviews (place : Candidate) : string :=
  let reviews :=
    if rv_truthy (p_reviews_list place) then p_reviews_list place
    else if rv_truthy (p_reviews place) then p_reviews place
    else p_reviews_text place in
  match reviews with
  | RvList l => PyStr.join " " (filter PyStr.truthy l)
  | RvStr s => s
  | RvNone => ""
  end.

(** [_flatten_reviews(p).strip()] is non-empty. *)
Definition has_review_text (p : Candidate) : bool :=
  PyStr.truthy (PyStr.strip (_flatten_reviews p)).

Definition _STOPWORDS : list string :=
  [ "i"; "me"; "my"; "we"; "you"; "he"; "she"; "they";
    "want"; "need"; "some"; "something"; "food"; "place"; "restaurant";
    "near"; "nearby"; "around"; "very"; "really"; "just";
    "give"; "get"; "for"; "to"; "a"; "an"; "the"; "in"; "at"; "of";
    "on"; "with"; "and"; "or"; "but"; "too"; "also"; "like" ].

(** Membership in a list of strings. *)
Definition mem (s : string) (l : list string) : bool := existsb (String.eqb s) l.

(** A character of the class [[a-z0-9]]. *)
Definition is_token_char (c : ascii) : bool :=
  let n := nat_of_ascii c in
  ((97 <=? n)%nat && (n <=? 122)%nat) || ((48 <=? n)%nat && (n <=? 57)%nat).

(** [re.split(r"[^a-z0-9]+", text)] without the empty pieces: [cur] is the
    piece being read. *)
Fixpoint split_tokens (cur : string) (text : string) : list string :=
  match text with
  | EmptyString => if PyStr.truthy cur then [cur] else []
  | String c rest =>
      if is_token_char c then split_tokens (cur ++ String c EmptyString) rest
      else if PyStr.truthy cur then cur :: split_tokens EmptyString rest
      else split_tokens EmptyString rest
  end.

Definition _tokenize (text : string) : list string :=
  filter (fun t => negb (mem t _STOPWORDS)) (split_tokens "" (PyStr.lower text)).

(** [set(l)]: the distinct elements. *)
Definition to_set (l : list string) : list string := nodup string_dec l.

(** [terms.update(_tokenize(val))] for an optional string. *)
Definition tokens_of_opt (o : option string) : list string :=
  match o with Some s => _tokenize s | None => [] end.

Definition _build_query_terms (user_query : string) (attrs : UserPreferences)
  : list string :=
  let terms := _tokenize user_query in
  let terms :=
    (terms ++ tokens_of_opt (a_cuisine attrs)
           ++ tokens_of_opt (a_inferred_cuisine_from_dish attrs)
           ++ tokens_of_opt (a_mood attrs)
           ++ tokens_of_opt (a_category_hint attrs))%list in
  let terms :=
    match a_dish attrs with
    | SLStr s => (terms ++ _tokenize s)%list
    | SLList l => (terms ++ flat_map _tokenize l)%list
    | SLNone => terms
    end in
  let terms := (terms ++ flat_map _tokenize (as_list (a_food_style attrs)))%list in
  to_set terms.

Definition _review_match_score (user_query : string) (attrs : UserPreferences)
           (reviews_text : string) : R :=
  if negb (PyStr.truthy reviews_text) then 0.5
  else
    let query_terms := _build_query_terms user_query attrs in
    match query_terms with
    | [] => 0.5
    | _ =>
        let review_tokens := to_set (_tokenize reviews_text) in
        match review_tokens with
        | [] => 0.5
        | _ =>
            let common := filter (fun t => mem t review_tokens) query_terms in
            let overlap := INR (length common) / INR (Nat.max (length query_terms) 1) in
            0.3 + 0.7 * clamp01 overlap
        end
    end.

(** The first separator of [seps] found at a position [0 < idx < max_len]
    gives the cut [text[:idx+1]]. *)
Fixpoint first_sentence (text : string) (max_len : nat) (seps : list string)
  : option string :=
  match seps with
  | [] => None
  | sep :: rest =>
      match String.index 0 sep text with
      | Some idx =>
          if (0 <? idx)%nat && (idx <? max_len)%nat
          then Some (PyStr.strip (String.substring 0 (idx + 1) text))
          else first_sentence text max_len rest
      | None => first_sentence text max_len rest
      end
  end.

Definition _short_review_summary (reviews_text : string) (max_len : nat) : string :=
  let text := PyStr.strip reviews_text in
  if negb (PyStr.truthy text) then ""
  else
    match first_sentence text max_len [". "; "!"; "? "] with
    | Some s => s
    | None =>
        if (max_len <? String.length text)%nat
        then PyStr.rstrip (String.substring 0 max_len text) ++ "..."
        else text
    end.

(** One entry of [review_scores]. *)
Record review_entry : Type := mkEntry {
  review_match_score : R;
  review_summary : string
}.

(** [str(p.get("place_id"))]. *)
Definition pid_of (p : Candidate) : string :=
  match p_place_id p with Some s => s | None => "None" end.

(** [float(p.get("score") or 0.0)]. *)
Definition base_score (p : Candidate) : R :=
  match p_score p with Some v => v | None => 0.0 end.

(** One iteration of the loop that fills [review_scores]; an assignment to an
    existing key replaces its entry, which [lookup] sees as the first match. *)
Definition collect_step (user_query : string) (attrs : UserPreferences)
           (review_scores : list (string * review_entry)) (p : Candidate)
  : list (string * review_entry) :=
  let reviews_text := _flatten_reviews p in
  if negb (PyStr.truthy (PyStr.strip reviews_text)) then review_scores
  else
    (pid_of p,
     mkEntry (_review_match_score user_query attrs reviews_text)
             (_short_review_summary reviews_text 140))
    :: review_scores.

Definition collect_reviews (user_query : string) (attrs : UserPreferences)
           (candidates : list Candidate) : list (string * review_entry) :=
  fold_left (collect_step user_query attrs) candidates [].

Definition set_review_fields (p : Candidate) (reason : option string) (swr : R)
  : Candidate :=
  {| p_place_id := p_place_id p; p_name := p_name p; p_category := p_category p;
     p_cuisine := p_cuisine p; p_popularity := p_popularity p;
     p_distance_m := p_distance_m p; p_price_level := p_price_level p;
     p_tags := p_tags p; p_reviews_list := p_reviews_list p;
     p_reviews := p_reviews p; p_reviews_text := p_reviews_text p;
     p_score := p_score p; p_reason := reason;
     p_score_with_reviews := Some swr |}.

(** The body of the re-scoring loop for one place. *)
Definition rescore (blend_weight : R) (review_scores : list (string * review_entry))
           (p : Candidate) : Candidate :=
  match lookup (pid_of p) review_scores with
  | Some entry =>
      let r := review_match_score entry in
      let new_score := (1.0 - blend_weight) * base_score p + blend_weight * r in
      let reason :=
        if PyStr.truthy (review_summary entry) then
          let existing_reason := PyStr.or_empty (p_reason p) in
          if PyStr.truthy existing_reason
          then Some (existing_reason ++ ". Reviews highlight: " ++ review_summary entry)
          else Some ("Reviews highlight: " ++ review_summary entry)
        else p_reason p in
      set_review_fields p reason new_score
  | None => set_review_fields p (p_reason p) (base_score p)
  end.

(** [x.get("score_with_reviews", x.get("score", 0.0))]. *)
Definition review_key (p : Candidate) : R :=
  match p_score_with_reviews p with
  | Some v => v
  | None => score_key p
  end.

Definition re_rank_with_reviews_k (top_k_for_reviews : nat) (blend_weight : R)
           (user_query : string) (attrs : UserPreferences)
           (ranked_places : list Candidate) : list Candidate :=
  match ranked_places with
  | [] => ranked_places
  | _ =>
      if negb (existsb has_review_text ranked_places) then ranked_places
      else
        let candidates := firstn top_k_for_reviews ranked_places in
        match collect_reviews user_query attrs candidates with
        | [] => ranked_places
        | review_scores =>
            sort_desc review_key (map (rescore blend_weight review_scores) ranked_places)
        end
  end.

(** The call with the default arguments [top_k_for_reviews=15],
    [blend_weight=0.25], as the endpoint makes it. *)
Definition re_rank_with_reviews : string -> UserPreferences -> list Candidate -> list Candidate :=
  re_rank_with_reviews_k 15 0.25.

(* ================================================================== *)
(** * Properties *)

(** Case analysis on the conditions of an [if] chain, outermost first. *)
Ltac break_ifs :=
  repeat match goal with
         | |- context [if ?b then _ else _] => destruct b
         end.

(** ** Real-number helpers *)

Lemma clamp01_bounds (x : R) : 0 <= clamp01 x <= 1.
Proof.
  unfold clamp01, Rmax, Rmin.
  destruct (Rle_dec x 1.0); destruct (Rle_dec 0.0 _); lra.
Qed.

Lemma clamp_boost_bounds (x : R) : -0.25 <= clamp_boost x <= 0.25.
Proof.
  unfold clamp_boost, Rmax, Rmin.
  destruct (Rle_dec x 0.25); destruct (Rle_dec (-0.25) _); lra.
Qed.

Lemma Rabs_zero_small (x : R) : x = 0 -> Rabs x <= 1e-6.
Proof. intros ->. rewrite Rabs_R0. lra. Qed.

(** ** The weight adjuster *)

(** Every weight of the vector is at least the 0.02 baseline. *)
Definition above_baseline (w : Weights) : Prop :=
  0.02 <= cuisine_match w /\ 0.02 <= style_match w /\ 0.02 <= popularity w
  /\ 0.02 <= distance w /\ 0.02 <= budget w.

Lemma baseline_above : above_baseline baseline.
Proof. unfold above_baseline; simpl; lra. Qed.

Lemma set_primary_above (p0 : string) (w : Weights) :
  above_baseline w -> above_baseline (set_primary p0 w).
Proof.
  unfold above_baseline, set_primary; intros H.
  break_ifs; simpl; lra.
Qed.

Lemma bump_above (w : Weights) (p : string) :
  above_baseline w -> above_baseline (bump w p).
Proof.
  unfold above_baseline, bump; intros H.
  break_ifs; simpl; lra.
Qed.

Lemma fold_bump_above (prefs : list string) (w : Weights) :
  above_baseline w -> above_baseline (fold_left bump prefs w).
Proof.
  revert w; induction prefs as [|p prefs IH]; intros w H; simpl.
  - exact H.
  - apply IH, bump_above, H.
Qed.

Lemma raw_pref_weights_above (prefs : list string) :
  above_baseline (raw_pref_weights prefs).
Proof.
  destruct prefs as [|p0 [|p1 rest]].
  - exact baseline_above.
  - apply set_primary_above, baseline_above.
  - apply fold_bump_above, baseline_above.
Qed.

Lemma above_baseline_sum (w : Weights) : above_baseline w -> 0.1 <= wsum w.
Proof. unfold above_baseline, wsum; lra. Qed.

(** Dividing by a non-zero total makes the weights sum to one. *)
Lemma normalize_sum (w : Weights) : 0 < wsum w -> wsum (normalize w) = 1.
Proof.
  intros Hpos. unfold normalize.
  destruct (Req_dec_T (wsum w) 0) as [E|NE]; [lra|].
  unfold wsum in *; simpl. field. exact NE.
Qed.

Lemma normalize_pos_total (w : Weights) :
  0 < wsum w ->
  normalize w =
  {| cuisine_match := cuisine_match w / wsum w;
     style_match := style_match w / wsum w;
     popularity := popularity w / wsum w;
     distance := distance w / wsum w;
     budget := budget w / wsum w |}.
Proof.
  intros Hpos. unfold normalize.
  destruct (Req_dec_T (wsum w) 0) as [E|NE]; [lra|reflexivity].
Qed.

(** Whether some branch other than the last one of [adjust_dynamic_weights]
    is taken. *)
Definition has_signal (attrs : UserPreferences) : bool :=
  match norm_prefs attrs with
  | _ :: _ => true
  | [] =>
      wants_near attrs || wants_popular attrs || has_budget attrs
      || has_cuisine attrs || has_style attrs
  end.

(** A preference object carrying nothing. *)
Definition no_signal : UserPreferences :=
  {| a_cuisine := None; a_inferred_cuisine_from_dish := None; a_dish := SLNone;
     a_food_style := SLNone; a_avoid_food_style := SLNone; a_avoid_cuisine := SLNone;
     a_budget := None; a_mood := None; a_veg_only := false; a_max_distance_m := None;
     a_ranking_preferences := SLNone; a_raw_query := "";
     a_distance_preference := None; a_category_hint := None;
     a_fallback_type := None; a_dish_fallback := false |}.

(** [attrs] with [ranking_preferences] replaced. *)
Definition with_ranking (rp : str_or_list) (attrs : UserPreferences) : UserPreferences :=
  {| a_cuisine := a_cuisine attrs;
     a_inferred_cuisine_from_dish := a_inferred_cuisine_from_dish attrs;
     a_dish := a_dish attrs; a_food_style := a_food_style attrs;
     a_avoid_food_style := a_avoid_food_style attrs;
     a_avoid_cuisine := a_avoid_cuisine attrs; a_budget := a_budget attrs;
     a_mood := a_mood attrs; a_veg_only := a_veg_only attrs;
     a_max_distance_m := a_max_distance_m attrs;
     a_ranking_preferences := rp; a_raw_query := a_raw_query attrs;
     a_distance_preference := a_distance_preference attrs;
     a_category_hint := a_category_hint attrs;
     a_fallback_type := a_fallback_type attrs;
     a_dish_fallback := a_dish_fallback attrs |}.

(** C1, as stated, fails: with no signal at all the adjuster returns the base
    table [WEIGHTS], whose five entries sum to 0.95. *)
Lemma no_signal_weights_sum_off :
  adjust_dynamic_weights no_signal WEIGHTS = WEIGHTS
  /\ wsum (adjust_dynamic_weights no_signal WEIGHTS) = 0.95
  /\ Rabs (wsum (adjust_dynamic_weights no_signal WEIGHTS) - 1.0) > 1e-6.
Proof.
  assert (E : adjust_dynamic_weights no_signal WEIGHTS = WEIGHTS) by reflexivity.
  rewrite E. split; [reflexivity|].
  assert (S : wsum WEIGHTS = 0.95) by (unfold wsum; simpl; lra).
  split; [exact S|].
  rewrite S. unfold Rabs. destruct (Rcase_abs _); lra.
Qed.

(** C1 (amended): whenever [ranking_preferences] is non-empty or one of the
    five fallback conditions holds, the five adjusted weights sum to 1.0
    within 1e-6 (they sum to 1 exactly); with no signal the adjuster returns
    its [base] argument unchanged, and the base table [WEIGHTS] sums to 0.95. *)
Theorem adjusted_weights_sum (attrs : UserPreferences) (base : Weights) :
  (has_signal attrs = true ->
   Rabs (wsum (adjust_dynamic_weights attrs base) - 1.0) <= 1e-6)
  /\ (has_signal attrs = false -> adjust_dynamic_weights attrs base = base)
  /\ wsum WEIGHTS = 0.95.
Proof.
  unfold has_signal, adjust_dynamic_weights.
  split; [|split].
  - destruct (norm_prefs attrs) as [|p prefs] eqn:E.
    + intros H. apply Rabs_zero_small.
      destruct (wants_near attrs); [unfold wsum; simpl; lra|].
      destruct (wants_popular attrs); [unfold wsum; simpl; lra|].
      destruct (has_budget attrs); [unfold wsum; simpl; lra|].
      destruct (has_cuisine attrs); [unfold wsum; simpl; lra|].
      destruct (has_style attrs); [unfold wsum; simpl; lra|].
      discriminate H.
    + intros _. apply Rabs_zero_small.
      rewrite normalize_sum; [lra|].
      pose proof (above_baseline_sum _ (raw_pref_weights_above (p :: prefs))). lra.
  - destruct (norm_prefs attrs) as [|p prefs]; [|discriminate].
    intros H.
    destruct (wants_near attrs); [discriminate|].
    destruct (wants_popular attrs); [discriminate|].
    destruct (has_budget attrs); [discriminate|].
    destruct (has_cuisine attrs); [discriminate|].
    destruct (has_style attrs); [discriminate|].
    reflexivity.
  - unfold wsum; simpl; lra.
Qed.

(** The amended C1 at [ranking_preferences = ["distance", "budget"]]. *)
Lemma adjusted_weights_sum_witness :
  Rabs (wsum (adjust_dynamic_weights
                (with_ranking (SLList ["distance"; "budget"]) no_signal) WEIGHTS) - 1.0)
  <= 1e-6.
Proof.
  apply (proj1 (adjusted_weights_sum
                  (with_ranking (SLList ["distance"; "budget"]) no_signal) WEIGHTS)).
  reflexivity.
Defined.

(** ** A single ranking preference *)

(** The five keys of the weight table. *)
Inductive factor : Type := FCuisine | FStyle | FPopularity | FDistance | FBudget.

Definition weight_of (k : factor) (w : Weights) : R :=
  match k with
  | FCuisine => cuisine_match w
  | FStyle => style_match w
  | FPopularity => popularity w
  | FDistance => distance w
  | FBudget => budget w
  end.

(** The key a preference token stands for, read off the [if]/[elif] chain of
    the single-factor case. *)
Definition mapped_key (p0 : string) : option factor :=
  if p0 =? "budget" then Some FBudget
  else if p0 =? "distance" then Some FDistance
  else if (p0 =? "popularity") || (p0 =? "rating") then Some FPopularity
  else if p0 =? "cuisine" then Some FCuisine
  else if p0 =? "style" then Some FStyle
  else None.

Lemma div_lt_pos (a b t : R) : 0 < t -> a < b -> a / t < b / t.
Proof.
  intros Ht Hab. unfold Rdiv.
  apply Rmult_lt_compat_r; [apply Rinv_0_lt_compat; exact Ht | exact Hab].
Qed.

Lemma weight_of_normalize (k : factor) (w : Weights) :
  0 < wsum w -> weight_of k (normalize w) = weight_of k w / wsum w.
Proof.
  intros H. rewrite (normalize_pos_total w H). destruct k; reflexivity.
Qed.

(** The raw vector of a recognised single token: 0.9 at its key, 0.02 elsewhere. *)
Lemma set_primary_mapped (p0 : string) (k : factor) :
  mapped_key p0 = Some k ->
  weight_of k (set_primary p0 baseline) = 0.9
  /\ forall k', k' <> k -> weight_of k' (set_primary p0 baseline) = 0.02.
Proof.
  unfold mapped_key, set_primary.
  destruct (p0 =? "budget");
    [|destruct (p0 =? "distance");
      [|destruct ((p0 =? "popularity") || (p0 =? "rating"));
        [|destruct (p0 =? "cuisine"); [|destruct (p0 =? "style")]]]];
    intros E; try discriminate E; injection E as <-;
    (split; [reflexivity | intros k' Hk'; destruct k'; try reflexivity; congruence]).
Qed.

(** C6: when the normalised [ranking_preferences] is a single recognised
    token, its mapped key is 0.9 and the other four keys are 0.02 before
    normalisation, the adjuster returns that vector normalised, and the
    mapped key is then strictly the largest of the five. *)
Theorem single_preference_dominates
        (attrs : UserPreferences) (base : Weights) (p0 : string) (k : factor) :
  norm_prefs attrs = [p0] ->
  mapped_key p0 = Some k ->
  weight_of k (raw_pref_weights [p0]) = 0.9
  /\ (forall k', k' <> k -> weight_of k' (raw_pref_weights [p0]) = 0.02)
  /\ adjust_dynamic_weights attrs base = normalize (raw_pref_weights [p0])
  /\ (forall k', k' <> k ->
        weight_of k' (adjust_dynamic_weights attrs base)
        < weight_of k (adjust_dynamic_weights attrs base)).
Proof.
  intros Hp Hk.
  destruct (set_primary_mapped p0 k Hk) as [Hmain Hrest].
  assert (Hadj : adjust_dynamic_weights attrs base = normalize (raw_pref_weights [p0])).
  { unfold adjust_dynamic_weights. rewrite Hp. reflexivity. }
  assert (Hpos : 0 < wsum (raw_pref_weights [p0])).
  { pose proof (above_baseline_sum _ (raw_pref_weights_above [p0])). lra. }
  repeat split.
  - exact Hmain.
  - exact Hrest.
  - exact Hadj.
  - intros k' Hk'. rewrite Hadj, !weight_of_normalize by exact Hpos.
    apply div_lt_pos; [exact Hpos|].
    change (raw_pref_weights [p0]) with (set_primary p0 baseline).
    rewrite Hmain, (Hrest k' Hk'). lra.
Qed.

(** C6 at [ranking_preferences = ["budget"]]: budget outweighs each other key. *)
Lemma single_preference_dominates_witness :
  weight_of FCuisine (adjust_dynamic_weights (with_ranking (SLList ["budget"]) no_signal) WEIGHTS)
  < weight_of FBudget
      (adjust_dynamic_weights (with_ranking (SLList ["budget"]) no_signal) WEIGHTS)
  /\ weight_of FDistance
       (adjust_dynamic_weights (with_ranking (SLList ["budget"]) no_signal) WEIGHTS)
     < weight_of FBudget
         (adjust_dynamic_weights (with_ranking (SLList ["budget"]) no_signal) WEIGHTS).
Proof.
  split;
    apply (proj2 (proj2 (proj2
      (single_preference_dominates (with_ranking (SLList ["budget"]) no_signal) WEIGHTS
         "budget" FBudget eq_refl eq_refl))));
    discriminate.
Defined.

(** ** Distance and popularity scorers *)



(** C9: a popularity that is absent or not a number scores 0.0, the least
    value [normalize_popularity] takes, whereas the distance and budget
    scorers answer 0.5 on missing data. *)
Theorem unrated_popularity_is_minimum :
  normalize_popularity PyNone = 0.0
  /\ normalize_popularity PyBad = 0.0
  /\ (forall raw : pynum, 0.0 <= normalize_popularity raw <= 1.0)
  /\ distance_score PyNone = 0.5
  /\ distance_score PyBad = 0.5
  /\ (forall price : pynum, budget_similarity None price = 0.5)
  /\ (forall b : R, budget_similarity (Some b) PyNone = 0.5)
  /\ (forall b : R, budget_similarity (Some b) PyBad = 0.5).
Proof.
  split; [reflexivity|]. split; [reflexivity|]. split.
  - intros raw. destruct raw as [|val|]; simpl; try lra.
    destruct (Rle_dec val 5);
      match goal with |- _ <= clamp01 ?x <= _ => pose proof (clamp01_bounds x) end; lra.
  - repeat split; try reflexivity.
Qed.

(** ** Dish boost *)

(** The boost a relation grants to a matched hint. *)
Definition relation_level (rel : relation) : R :=
  match rel with
  | Strong => 0.25
  | Weak => 0.15
  | NoRelation => 0.0
  end.

(** Whether the hint of dish token [d] (if any) occurs in the place category. *)
Definition hint_hit (place_cat : string) (d : string) : bool :=
  match lookup d DISH_HINTS with
  | Some hint => hint_cuisine_hit hint place_cat || hint_category_hit hint place_cat
  | None => false
  end.

(** Whether some requested dish has a hint that occurs in the place category. *)
Definition dish_hint_matches (attrs : UserPreferences) (place : Candidate) : bool :=
  match dish_tokens attrs with
  | Some dishes =>
      existsb (hint_hit (PyStr.lower (PyStr.or_empty (p_category place)))) dishes
  | None => false
  end.

Lemma relation_bump_level (rel : relation) (b : R) :
  rel <> NoRelation -> b = 0.0 \/ b = relation_level rel ->
  relation_bump rel b = relation_level rel.
Proof.
  intros Hrel Hb. destruct rel; [| |congruence]; simpl in *; unfold Rmax;
    match goal with |- context [Rle_dec ?x ?y] => destruct (Rle_dec x y) end;
    destruct Hb; lra.
Qed.

(** One loop iteration keeps the boost in {0, level} and raises it to the
    level on a hit. *)
Lemma dish_step_level (rel : relation) (cat : string) (b : R) (d : string) :
  rel <> NoRelation -> b = 0.0 \/ b = relation_level rel ->
  dish_step rel cat b d = if hint_hit cat d then relation_level rel else b.
Proof.
  intros Hrel Hb. unfold dish_step, hint_hit.
  destruct (lookup d DISH_HINTS) as [hint|]; [|reflexivity].
  assert (H1 : relation_bump rel b = relation_level rel)
    by (apply relation_bump_level; assumption).
  assert (H2 : relation_bump rel (relation_level rel) = relation_level rel)
    by (apply relation_bump_level; [assumption | right; reflexivity]).
  destruct (hint_cuisine_hit hint cat), (hint_category_hit hint cat); simpl;
    rewrite ?H1, ?H2; reflexivity.
Qed.

Lemma fold_dish_step_level (rel : relation) (cat : string) (ds : list string) (b : R) :
  rel <> NoRelation -> b = 0.0 \/ b = relation_level rel ->
  fold_left (dish_step rel cat) ds b
  = if existsb (hint_hit cat) ds then relation_level rel
    else b.
Proof.
  intros Hrel. revert b. induction ds as [|d ds IH]; intros b Hb; simpl.
  - reflexivity.
  - rewrite (dish_step_level rel cat b d Hrel Hb).
    destruct (hint_hit cat d); simpl.
    + rewrite IH by (right; reflexivity).
      destruct (existsb (hint_hit cat) ds); reflexivity.
    + apply IH, Hb.
Qed.

Lemma dish_boost_matched (attrs : UserPreferences) (place : Candidate) :
  dish_hint_matches attrs place = true ->
  dish_boost attrs place = relation_level (classify_cuisine_relation attrs place).
Proof.
  unfold dish_hint_matches, dish_boost.
  destruct (dish_tokens attrs) as [dishes|]; [|discriminate].
  intros Hm.
  destruct (classify_cuisine_relation attrs place) eqn:Hrel; simpl; try reflexivity;
    rewrite fold_dish_step_level by (try discriminate; left; reflexivity);
    rewrite Hm; reflexivity.
Qed.

Lemma dish_boost_unrelated (attrs : UserPreferences) (place : Candidate) :
  classify_cuisine_relation attrs place = NoRelation -> dish_boost attrs place = 0.0.
Proof.
  intros Hrel. unfold dish_boost. rewrite Hrel.
  destruct (dish_tokens attrs); reflexivity.
Qed.

(** C5: when the hint of a requested dish occurs in the place category,
    [dish_boost] is 0.25 under a strong cuisine relation and 0.15 under a weak
    one; it is 0 whenever the relation is none, matched hint or not; and for
    the dish "dosa", a category reading "south indian" and a strong relation
    it is 0.25. *)
Theorem dish_boost_by_relation (attrs : UserPreferences) (place : Candidate) :
  (dish_hint_matches attrs place = true ->
   classify_cuisine_relation attrs place = Strong -> dish_boost attrs place = 0.25)
  /\ (dish_hint_matches attrs place = true ->
      classify_cuisine_relation attrs place = Weak -> dish_boost attrs place = 0.15)
  /\ (classify_cuisine_relation attrs place = NoRelation -> dish_boost attrs place = 0.0)
  /\ (a_dish attrs = SLStr "dosa" ->
      PyStr.lower (PyStr.or_empty (p_category place)) = "south indian" ->
      classify_cuisine_relation attrs place = Strong -> dish_boost attrs place = 0.25).
Proof.
  split; [|split; [|split]].
  - intros Hm Hrel. rewrite (dish_boost_matched attrs place Hm), Hrel. reflexivity.
  - intros Hm Hrel. rewrite (dish_boost_matched attrs place Hm), Hrel. reflexivity.
  - apply dish_boost_unrelated.
  - intros Hd Hcat Hrel.
    assert (Hm : dish_hint_matches attrs place = true).
    { unfold dish_hint_matches, dish_tokens. rewrite Hd, Hcat. reflexivity. }
    rewrite (dish_boost_matched attrs place Hm), Hrel. reflexivity.
Qed.

(** A request for "dosa" whose cuisine was inferred as south indian. *)
Definition dosa_request : UserPreferences :=
  {| a_cuisine := None; a_inferred_cuisine_from_dish := Some "south indian";
     a_dish := SLStr "dosa";
     a_food_style := SLNone; a_avoid_food_style := SLNone; a_avoid_cuisine := SLNone;
     a_budget := None; a_mood := None; a_veg_only := false; a_max_distance_m := None;
     a_ranking_preferences := SLNone; a_raw_query := "dosa";
     a_distance_preference := None; a_category_hint := None;
     a_fallback_type := None; a_dish_fallback := false |}.

(** A place known by its id and category only. *)
Definition bare_place (pid category : string) : Candidate :=
  {| p_place_id := Some pid; p_name := None; p_category := Some category;
     p_cuisine := None; p_popularity := PyNone; p_distance_m := PyNone;
     p_price_level := PyNone; p_tags := None; p_reviews_list := RvNone;
     p_reviews := RvNone; p_reviews_text := RvNone; p_score := None;
     p_reason := None; p_score_with_reviews := None |}.

(** C5 at the dish "dosa" and a place of category "South Indian". *)
Lemma dish_boost_by_relation_witness :
  dish_boost dosa_request (bare_place "rest_1" "South Indian") = 0.25.
Proof.
  apply (proj2 (proj2 (proj2
    (dish_boost_by_relation dosa_request (bare_place "rest_1" "South Indian")))));
    reflexivity.
Defined.

(** ** Score composer *)

Lemma compute_score_bounds (attrs : UserPreferences) (place : Candidate) :
  0.0 <= compute_score attrs place <= 1.0.
Proof.
  unfold compute_score.
  match goal with |- _ <= clamp01 ?x <= _ => pose proof (clamp01_bounds x) end. lra.
Qed.

(** ** Sorting *)

Lemma insert_desc_perm {A : Type} (key : A -> R) (x : A) (l : list A) :
  Permutation (insert_desc key x l) (x :: l).
Proof.
  induction l as [|y l IH]; simpl.
  - apply Permutation_refl.
  - destruct (Rlt_dec (key x) (key y)).
    + apply perm_trans with (y :: x :: l); [apply perm_skip, IH | apply perm_swap].
    + apply Permutation_refl.
Qed.

(** The sort neither drops nor duplicates an element. *)
Lemma sort_desc_perm {A : Type} (key : A -> R) (l : list A) :
  Permutation (sort_desc key l) l.
Proof.
  induction l as [|x l IH]; simpl.
  - apply perm_nil.
  - apply perm_trans with (x :: sort_desc key l);
      [apply insert_desc_perm | apply perm_skip, IH].
Qed.

Lemma sort_desc_In {A : Type} (key : A -> R) (l : list A) (x : A) :
  In x (sort_desc key l) <-> In x l.
Proof.
  split; apply Permutation_in;
    [apply sort_desc_perm | apply Permutation_sym, sort_desc_perm].
Qed.

(** ** The review table *)

Lemma lookup_In {V : Type} (k : string) (tbl : list (string * V)) (v : V) :
  lookup k tbl = Some v -> In (k, v) tbl.
Proof.
  induction tbl as [|[k' v'] tbl IH]; simpl; [discriminate|].
  destruct (k =? k') eqn:E.
  - apply String.eqb_eq in E. intros [= <-]. left. subst. reflexivity.
  - intros H. right. apply IH, H.
Qed.

(** The entry the loop writes for a place with review text. *)
Definition entry_of (user_query : string) (attrs : UserPreferences) (p : Candidate)
  : review_entry :=
  mkEntry (_review_match_score user_query attrs (_flatten_reviews p))
          (_short_review_summary (_flatten_reviews p) 140).

Lemma collect_step_cases (q : string) (attrs : UserPreferences)
      (acc : list (string * review_entry)) (p : Candidate) :
  (has_review_text p = false /\ collect_step q attrs acc p = acc)
  \/ (has_review_text p = true
      /\ collect_step q attrs acc p = (pid_of p, entry_of q attrs p) :: acc).
Proof.
  unfold collect_step, has_review_text, entry_of.
  destruct (PyStr.truthy (PyStr.strip (_flatten_reviews p))); simpl; auto.
Qed.

(** Places without review text leave the table as it was. *)
Lemma collect_fold_quiet (q : string) (attrs : UserPreferences) (cs : list Candidate)
      (acc : list (string * review_entry)) :
  existsb has_review_text cs = false ->
  fold_left (collect_step q attrs) cs acc = acc.
Proof.
  revert acc. induction cs as [|c cs IH]; intros acc H; simpl in *.
  - reflexivity.
  - apply orb_false_iff in H as [Hc Hcs].
    destruct (collect_step_cases q attrs acc c) as [[_ E]|[T _]]; [|congruence].
    rewrite E. apply IH, Hcs.
Qed.

Lemma collect_fold_grows (q : string) (attrs : UserPreferences) (cs : list Candidate)
      (acc : list (string * review_entry)) :
  acc <> [] -> fold_left (collect_step q attrs) cs acc <> [].
Proof.
  revert acc. induction cs as [|c cs IH]; intros acc H; simpl.
  - exact H.
  - apply IH.
    destruct (collect_step_cases q attrs acc c) as [[_ E]|[_ E]]; rewrite E;
      [exact H | discriminate].
Qed.

(** A place with review text makes the table non-empty. *)
Lemma collect_fold_active (q : string) (attrs : UserPreferences) (cs : list Candidate)
      (acc : list (string * review_entry)) :
  existsb has_review_text cs = true ->
  fold_left (collect_step q attrs) cs acc <> [].
Proof.
  revert acc. induction cs as [|c cs IH]; intros acc H; simpl in *.
  - discriminate.
  - destruct (collect_step_cases q attrs acc c) as [[F E]|[_ E]]; rewrite E.
    + rewrite F in H. apply IH, H.
    + apply collect_fold_grows. discriminate.
Qed.

(** Every entry of the table was written for a place with review text. *)
Lemma collect_fold_entries (q : string) (attrs : UserPreferences) (cs : list Candidate)
      (acc : list (string * review_entry)) (k : string) (e : review_entry) :
  In (k, e) (fold_left (collect_step q attrs) cs acc) ->
  In (k, e) acc
  \/ exists c, In c cs /\ pid_of c = k /\ has_review_text c = true
               /\ e = entry_of q attrs c.
Proof.
  revert acc. induction cs as [|c cs IH]; intros acc H; simpl in *.
  - left. exact H.
  - destruct (IH _ H) as [Hacc|[c' [Hin Hrest]]].
    + destruct (collect_step_cases q attrs acc c) as [[_ E]|[T E]];
        rewrite E in Hacc.
      * left. exact Hacc.
      * destruct Hacc as [Heq|Hacc]; [|left; exact Hacc].
        injection Heq as Hk He. right. exists c. auto.
    + right. exists c'. tauto.
Qed.

Lemma collect_reviews_entries (q : string) (attrs : UserPreferences)
      (cs : list Candidate) (k : string) (e : review_entry) :
  lookup k (collect_reviews q attrs cs) = Some e ->
  exists c, In c cs /\ pid_of c = k /\ has_review_text c = true /\ e = entry_of q attrs c.
Proof.
  intros H. apply lookup_In in H.
  destruct (collect_fold_entries q attrs cs [] k e H) as [[]|Hc]. exact Hc.
Qed.

Lemma review_match_score_bounds (q : string) (attrs : UserPreferences) (t : string) :
  0.3 <= _review_match_score q attrs t <= 1.0.
Proof.
  unfold _review_match_score.
  destruct (negb (PyStr.truthy t)); [lra|].
  destruct (_build_query_terms q attrs); [lra|].
  destruct (to_set (_tokenize t)); [lra|].
  match goal with |- _ <= _ + _ * clamp01 ?x <= _ => pose proof (clamp01_bounds x) end.
  lra.
Qed.

(** ** The two ways out of the re-ranker *)

Lemma existsb_firstn {A : Type} (f : A -> bool) (k : nat) (l : list A) :
  existsb f (firstn k l) = true -> existsb f l = true.
Proof.
  revert k. induction l as [|x l IH]; intros [|k]; simpl; try discriminate.
  intros H. apply orb_true_iff in H as [H|H]; apply orb_true_iff; eauto.
Qed.

Lemma In_firstn {A : Type} (k : nat) (l : list A) (x : A) :
  In x (firstn k l) -> In x l.
Proof.
  revert k. induction l as [|y l IH]; intros [|k]; simpl; try tauto.
  intros [H|H]; eauto.
Qed.

(** No review text among the first [k] places: the input list is returned. *)
Lemma re_rank_quiet (k : nat) (bw : R) (q : string) (attrs : UserPreferences)
      (l : list Candidate) :
  existsb has_review_text (firstn k l) = false ->
  re_rank_with_reviews_k k bw q attrs l = l.
Proof.
  intros H. unfold re_rank_with_reviews_k.
  destruct l as [|p l]; [reflexivity|].
  destruct (negb (existsb has_review_text (p :: l))); [reflexivity|].
  unfold collect_reviews. rewrite collect_fold_quiet by exact H. reflexivity.
Qed.

(** Review text among the first [k] places: every place is re-scored against
    the table built from those [k], and the list is sorted again. *)
Lemma re_rank_active (k : nat) (bw : R) (q : string) (attrs : UserPreferences)
      (l : list Candidate) :
  existsb has_review_text (firstn k l) = true ->
  re_rank_with_reviews_k k bw q attrs l
  = sort_desc review_key (map (rescore bw (collect_reviews q attrs (firstn k l))) l).
Proof.
  intros H. unfold re_rank_with_reviews_k.
  destruct l as [|p l]; [destruct k; discriminate H|].
  rewrite (existsb_firstn _ _ _ H). simpl negb. cbv iota.
  destruct (collect_reviews q attrs (firstn k (p :: l))) as [|e rs] eqn:E.
  - exfalso. revert E. apply collect_fold_active, H.
  - reflexivity.
Qed.

(** ** Re-scoring one place *)

Lemma rescore_pid (bw : R) (rs : list (string * review_entry)) (p : Candidate) :
  pid_of (rescore bw rs p) = pid_of p.
Proof. unfold rescore. destruct (lookup (pid_of p) rs); reflexivity. Qed.

Lemma rescore_miss (bw : R) (rs : list (string * review_entry)) (p : Candidate) :
  lookup (pid_of p) rs = None ->
  rescore bw rs p = set_review_fields p (p_reason p) (base_score p).
Proof. intros H. unfold rescore. rewrite H. reflexivity. Qed.

Lemma rescore_attaches (bw : R) (rs : list (string * review_entry)) (p : Candidate) :
  exists v, p_score_with_reviews (rescore bw rs p) = Some v.
Proof. unfold rescore. destruct (lookup (pid_of p) rs); simpl; eauto. Qed.

(** A blend of a score in [0,1] with a table entry stays in [0,1]. *)
Lemma rescore_in_range (q : string) (attrs : UserPreferences) (cs : list Candidate)
      (p : Candidate) (v : R) :
  0 <= base_score p <= 1 ->
  p_score_with_reviews (rescore 0.25 (collect_reviews q attrs cs) p) = Some v ->
  0 <= v <= 1.
Proof.
  intros Hb. unfold rescore.
  destruct (lookup (pid_of p) (collect_reviews q attrs cs)) as [e|] eqn:E; simpl;
    intros [= <-]; [|exact Hb].
  destruct (collect_reviews_entries q attrs cs _ _ E) as [c [_ [_ [_ ->]]]]. simpl.
  pose proof (review_match_score_bounds q attrs (_flatten_reviews c)). lra.
Qed.

(** ** Distinct place ids *)

Lemma pid_injective (l : list Candidate) (a b : Candidate) :
  NoDup (map pid_of l) -> In a l -> In b l -> pid_of a = pid_of b -> a = b.
Proof.
  induction l as [|x l IH]; simpl; [tauto|].
  intros Hnd Ha Hb E. apply NoDup_cons_iff in Hnd as [Hx Hnd].
  destruct Ha as [->|Ha], Hb as [->|Hb].
  - reflexivity.
  - exfalso. apply Hx. rewrite E. apply in_map, Hb.
  - exfalso. apply Hx. rewrite <- E. apply in_map, Ha.
  - apply IH; assumption.
Qed.

(** A place at position [k] or later shares its id with none of the first [k]. *)
Lemma beyond_top_distinct (k : nat) (l : list Candidate) (i : nat) (p c : Candidate) :
  NoDup (map pid_of l) -> nth_error l i = Some p -> (k <= i)%nat ->
  In c (firstn k l) -> pid_of c <> pid_of p.
Proof.
  revert k i. induction l as [|x l IH]; intros k i Hnd Hi Hk Hc.
  - destruct k; simpl in Hc; contradiction.
  - destruct k as [|k]; [simpl in Hc; contradiction|].
    destruct i as [|i]; [lia|]. simpl in *.
    apply NoDup_cons_iff in Hnd as [Hx Hnd].
    destruct Hc as [->|Hc].
    + intros E. apply Hx. rewrite E. apply in_map. eapply nth_error_In, Hi.
    + apply (IH k i); auto. lia.
Qed.

(** With distinct ids, a place beyond the first [k], or one without review
    text, has no entry in the review table. *)
Lemma no_entry_outside (q : string) (attrs : UserPreferences) (k : nat)
      (l : list Candidate) (i : nat) (p : Candidate) :
  NoDup (map pid_of l) -> nth_error l i = Some p ->
  (k <= i)%nat \/ has_review_text p = false ->
  lookup (pid_of p) (collect_reviews q attrs (firstn k l)) = None.
Proof.
  intros Hnd Hi Hout.
  destruct (lookup (pid_of p) (collect_reviews q attrs (firstn k l))) as [e|] eqn:E;
    [exfalso|reflexivity].
  destruct (collect_reviews_entries q attrs _ _ _ E) as [c [Hc [Hpid [Hrev _]]]].
  destruct Hout as [Hk|Hnone].
  - exact (beyond_top_distinct k l i p c Hnd Hi Hk Hc Hpid).
  - assert (c = p).
    { apply (pid_injective l); auto.
      - eapply In_firstn, Hc.
      - eapply nth_error_In, Hi. }
    congruence.
Qed.

(** The places of the output that carry the id of an input place [p] which
    has no table entry: [p] itself, untouched or with the plain score copied. *)
Lemma output_of_unmatched (q : string) (attrs : UserPreferences)
      (l : list Candidate) (i : nat) (p p' : Candidate) :
  NoDup (map pid_of l) -> nth_error l i = Some p ->
  (15 <= i)%nat \/ has_review_text p = false ->
  In p' (re_rank_with_reviews q attrs l) -> pid_of p' = pid_of p ->
  (existsb has_review_text (firstn 15 l) = false /\ p' = p)
  \/ (existsb has_review_text (firstn 15 l) = true
      /\ p' = set_review_fields p (p_reason p) (base_score p)).
Proof.
  intros Hnd Hi Hout Hin Hpid. unfold re_rank_with_reviews in Hin.
  assert (Hp : In p l) by (eapply nth_error_In, Hi).
  destruct (existsb has_review_text (firstn 15 l)) eqn:Htop.
  - right. split; [reflexivity|].
    rewrite (re_rank_active 15 0.25 q attrs l Htop) in Hin.
    apply sort_desc_In, in_map_iff in Hin as [x [<- Hx]].
    rewrite rescore_pid in Hpid.
    assert (x = p) by (apply (pid_injective l); auto). subst x.
    apply rescore_miss. eapply no_entry_outside; eauto.
  - left. split; [reflexivity|].
    rewrite (re_rank_quiet 15 0.25 q attrs l Htop) in Hin.
    apply (pid_injective l); auto.
Qed.


(** ** Sample ranked lists *)

(** A place as [rank_places] hands it over: id, category, reviews, score. *)
Definition ranked_place (pid category : string) (reviews : list string) (score : R)
  : Candidate :=
  {| p_place_id := Some pid; p_name := None; p_category := Some category;
     p_cuisine := None; p_popularity := PyNone; p_distance_m := PyNone;
     p_price_level := PyNone; p_tags := None; p_reviews_list := RvList reviews;
     p_reviews := RvNone; p_reviews_text := RvNone; p_score := Some score;
     p_reason := Some "Good overall match based on your preferences";
     p_score_with_reviews := None |}.

Definition fifteen_ids : list string :=
  [ "rest_0"; "rest_1"; "rest_2"; "rest_3"; "rest_4"; "rest_5"; "rest_6"; "rest_7";
    "rest_8"; "rest_9"; "rest_10"; "rest_11"; "rest_12"; "rest_13"; "rest_14" ].

(** The sixteenth place, the only one here that has review text. *)
Definition late_reviewed : Candidate :=
  ranked_place "rest_15" "south indian" ["Crisp dosa and great chutney."] 0.4.

(** Fifteen places without reviews, then one with a review. *)
Definition quiet_top : list Candidate :=
  (map (fun id => ranked_place id "cafe" [] 0.5) fifteen_ids ++ [late_reviewed])%list.

(** A reviewed place in front of [quiet_top]: [late_reviewed] is at index 16. *)
Definition active_top : list Candidate :=
  ranked_place "rest_16" "south indian" ["Soft idli. Friendly staff."] 0.9 :: quiet_top.

Lemma active_top_ids_distinct : NoDup (map pid_of active_top).
Proof. exact (NoDup_nodup string_dec (map pid_of active_top)). Qed.

(** ** Review re-ranker: the claims *)

(** C10: when none of the first 15 places has non-empty review text, the
    re-ranker returns its input list as it is (same places, same order,
    nothing attached), whatever the places after the fifteenth carry. *)
Theorem no_top_reviews_unchanged (q : string) (attrs : UserPreferences)
        (l : list Candidate) :
  existsb has_review_text (firstn 15 l) = false ->
  re_rank_with_reviews q attrs l = l.
Proof. apply re_rank_quiet. Qed.

(** C10 on a list whose only reviewed place is the sixteenth. *)
Lemma no_top_reviews_unchanged_witness :
  has_review_text late_reviewed = true
  /\ re_rank_with_reviews "crisp dosa" dosa_request quiet_top = quiet_top.
Proof.
  split; [reflexivity|].
  apply (no_top_reviews_unchanged "crisp dosa" dosa_request quiet_top). reflexivity.
Defined.



(** Why the ids must be distinct: the review table is keyed by id, so a
    sixteenth place that repeats the id of a reviewed place among the first
    fifteen is blended with that place's review score. *)
Definition shared_id_tail : Candidate := ranked_place "rest_0" "cafe" [] 0.1.

Definition shared_id_list : list Candidate :=
  (ranked_place "rest_0" "south indian" ["Crisp dosa."] 0.9
   :: map (fun id => ranked_place id "cafe" [] 0.5) (tl fifteen_ids)
   ++ [shared_id_tail])%list.

Example shared_id_is_blended :
  nth_error shared_id_list 15 = Some shared_id_tail
  /\ exists v,
       p_score_with_reviews
         (rescore 0.25 (collect_reviews "crisp dosa" dosa_request (firstn 15 shared_id_list))
                  shared_id_tail)
       = Some v
       /\ base_score shared_id_tail < v.
Proof.
  split; [reflexivity|].
  eexists. split; [reflexivity|].
  cbv [base_score shared_id_tail ranked_place p_score review_match_score].
  match goal with
  | |- context [_review_match_score ?q ?a ?t] =>
      pose proof (review_match_score_bounds q a t)
  end.
  lra.
Qed.

(** C3, as stated, fails: a list without any review text comes back as it
    went in, and its place carries no [score_with_reviews]. *)
Lemma unreviewed_list_not_augmented :
  map p_score_with_reviews
      (re_rank_with_reviews "dosa" dosa_request [ranked_place "rest_1" "south indian" [] 0.5])
  = [None].
Proof. reflexivity. Qed.

(** C3 (amended): when one of the first 15 places has non-empty review text,
    every place of the returned list carries [score_with_reviews]; and, the
    place ids being distinct, a place beyond the first 15 or without review
    text carries there the score it already had. *)
Theorem review_scores_attached (q : string) (attrs : UserPreferences)
        (l : list Candidate) :
  existsb has_review_text (firstn 15 l) = true ->
  (forall p', In p' (re_rank_with_reviews q attrs l) ->
     exists v, p_score_with_reviews p' = Some v)
  /\ (forall i p p',
        NoDup (map pid_of l) -> nth_error l i = Some p ->
        (15 <= i)%nat \/ has_review_text p = false ->
        In p' (re_rank_with_reviews q attrs l) -> pid_of p' = pid_of p ->
        p_score_with_reviews p' = Some (base_score p)).
Proof.
  intros Htop. split.
  - intros p' Hin. unfold re_rank_with_reviews in Hin.
    rewrite (re_rank_active 15 0.25 q attrs l Htop) in Hin.
    apply sort_desc_In, in_map_iff in Hin as [x [<- _]].
    apply rescore_attaches.
  - intros i p p' Hnd Hi Hout Hin Hpid.
    destruct (output_of_unmatched q attrs l i p p' Hnd Hi Hout Hin Hpid)
      as [[F _]|[_ E]]; [congruence|].
    rewrite E. reflexivity.
Qed.

(** The amended C3 on [active_top]. *)
Lemma review_scores_attached_witness :
  (forall p', In p' (re_rank_with_reviews "crisp dosa" dosa_request active_top) ->
     exists v, p_score_with_reviews p' = Some v)
  /\ (forall i p p',
        NoDup (map pid_of active_top) -> nth_error active_top i = Some p ->
        (15 <= i)%nat \/ has_review_text p = false ->
        In p' (re_rank_with_reviews "crisp dosa" dosa_request active_top) ->
        pid_of p' = pid_of p ->
        p_score_with_reviews p' = Some (base_score p)).
Proof.
  apply (review_scores_attached "crisp dosa" dosa_request active_top). reflexivity.
Defined.

(** ** The ranker: what reaches the scoring loop *)

Lemma hard_filter_In (attrs : UserPreferences) (places kept : list Candidate) :
  hard_filter attrs places = Some kept -> forall x, In x kept -> In x places.
Proof.
  revert kept. induction places as [|p places IH]; intros kept H x Hx; simpl in H.
  - injection H as <-. contradiction.
  - destruct (a_veg_only attrs && negb (_is_veg_place p)).
    + right. eapply IH; eauto.
    + destruct (too_far (a_max_distance_m attrs) p) as [far|]; [|discriminate].
      destruct (hard_filter attrs places) as [kept'|]; [|discriminate].
      destruct far; injection H as <-.
      * right. eapply IH; eauto.
      * destruct Hx as [->|Hx]; [left; reflexivity | right; eapply IH; eauto].
Qed.

(** Membership in one of the three buckets. *)
Definition in_groups (x : Candidate) (g : groups) : Prop :=
  In x (strong_matches g) \/ In x (weak_matches g) \/ In x (neutral g).

Lemma group_step_In (attrs : UserPreferences) (g : groups) (p x : Candidate) :
  in_groups x (group_step attrs g p) -> x = p \/ in_groups x g.
Proof.
  unfold in_groups, group_step.
  destruct (avoided attrs p); [tauto|].
  destruct (user_has_specific_preference attrs);
    [destruct (classify_cuisine_relation attrs p)|]; simpl;
    rewrite ?in_app_iff; simpl; intuition auto.
Qed.

Lemma grouping_fold_In (attrs : UserPreferences) (places : list Candidate)
      (g : groups) (x : Candidate) :
  in_groups x (fold_left (group_step attrs) places g) -> In x places \/ in_groups x g.
Proof.
  revert g. induction places as [|p places IH]; intros g H; simpl in *.
  - right. exact H.
  - destruct (IH _ H) as [Hin|Hg]; [left; right; exact Hin|].
    destruct (group_step_In attrs g p x Hg) as [->|Hg']; auto.
Qed.

Lemma select_candidates_In (attrs : UserPreferences) (g : groups) (x : Candidate) :
  In x (select_candidates attrs g) -> in_groups x g.
Proof.
  unfold select_candidates, in_groups.
  destruct (user_has_specific_preference attrs); [|tauto].
  destruct (strong_matches g) as [|s ss] eqn:Es; [|tauto].
  destruct (weak_matches g) as [|w ws] eqn:Ew; tauto.
Qed.

(** The selected set only holds places of the input. *)
Lemma selected_In (attrs : UserPreferences) (places candidates : list Candidate) :
  selected attrs places = Some candidates ->
  forall x, In x candidates -> In x places.
Proof.
  unfold selected. destruct (hard_filter attrs places) as [kept|] eqn:Hf; [|discriminate].
  intros [= <-] x Hx.
  apply select_candidates_In in Hx.
  destruct (grouping_fold_In attrs kept _ x Hx) as [Hin|Hg].
  - eapply hard_filter_In; eauto.
  - unfold in_groups in Hg; simpl in Hg; tauto.
Qed.

Section RankingFacts.

Variable describe : UserPreferences -> Candidate -> contributions -> option string.

(** Every place the scoring loop returns is a selected place annotated
    with its composed score. *)
Lemma score_all_In (attrs : UserPreferences) (w : Weights)
      (candidates ranked : list Candidate) :
  score_all describe attrs w candidates = Some ranked ->
  forall r, In r ranked ->
    exists c reason, In c candidates /\ r = annotate c (compute_score attrs c) reason.
Proof.
  revert ranked. induction candidates as [|c cs IH]; intros ranked H r Hr; simpl in H.
  - injection H as <-. contradiction.
  - destruct (describe attrs c (contributions_of attrs w c)) as [reason|]; [|discriminate].
    destruct (score_all describe attrs w cs) as [ranked'|]; [|discriminate].
    injection H as <-. destruct Hr as [<-|Hr].
    + exists c, reason. split; [left|]; reflexivity.
    + destruct (IH _ eq_refl r Hr) as [c' [reason' [Hin E]]].
      exists c', reason'. split; [right|]; assumption.
Qed.

Lemma rank_places_In (attrs attrs' : UserPreferences) (places ranked : list Candidate) :
  rank_places describe attrs places = Some (attrs', ranked) ->
  forall r, In r ranked ->
    exists c reason, In c places /\ r = annotate c (compute_score attrs' c) reason.
Proof.
  unfold rank_places.
  destruct (selected attrs places) as [candidates|] eqn:Hs; [|discriminate].
  destruct (score_all describe (flagged attrs candidates)
                      (adjust_dynamic_weights (flagged attrs candidates) WEIGHTS)
                      candidates) as [scored|] eqn:Hsc; [|discriminate].
  intros [= <- <-] r Hr. apply sort_desc_In in Hr.
  destruct (score_all_In _ _ _ _ Hsc r Hr) as [c [reason [Hc E]]].
  exists c, reason. split; [|exact E]. eapply selected_In; eauto.
Qed.

(** What [rank_places] leaves in [attrs]. *)
Lemma rank_places_flags (attrs attrs' : UserPreferences) (places ranked : list Candidate) :
  rank_places describe attrs places = Some (attrs', ranked) ->
  exists candidates,
    selected attrs places = Some candidates /\ attrs' = flagged attrs candidates.
Proof.
  unfold rank_places.
  destruct (selected attrs places) as [candidates|]; [|discriminate].
  destruct (score_all _ _ _ _); [|discriminate].
  intros [= <- _]. exists candidates. auto.
Qed.

End RankingFacts.

(** Re-ranking keeps [score_with_reviews] in [0,1] when the scores are. *)
Lemma re_rank_in_range (q : string) (attrs : UserPreferences) (l : list Candidate) :
  (forall p, In p l -> 0 <= base_score p <= 1) ->
  (forall p v, In p l -> p_score_with_reviews p = Some v -> 0 <= v <= 1) ->
  forall p' v, In p' (re_rank_with_reviews q attrs l) ->
               p_score_with_reviews p' = Some v -> 0 <= v <= 1.
Proof.
  intros Hs Hold p' v Hin Hv. unfold re_rank_with_reviews in Hin.
  destruct (existsb has_review_text (firstn 15 l)) eqn:Htop.
  - rewrite (re_rank_active 15 0.25 q attrs l Htop) in Hin.
    apply sort_desc_In, in_map_iff in Hin as [x [<- Hx]].
    eapply rescore_in_range; [apply Hs, Hx | exact Hv].
  - rewrite (re_rank_quiet 15 0.25 q attrs l Htop) in Hin. eapply Hold; eauto.
Qed.

(** C2: the composed score lies in [0,1] for every preference object and
    place; and after [rank_places] followed by the review re-ranker, every
    [score_with_reviews] a returned place carries lies in [0,1], provided any
    such value already on an input place did. *)
Theorem scores_in_unit_interval :
  (forall (attrs : UserPreferences) (place : Candidate),
     0.0 <= compute_score attrs place <= 1.0)
  /\ (forall (describe : UserPreferences -> Candidate -> contributions -> option string)
             (q : string) (attrs attrs' : UserPreferences)
             (places ranked : list Candidate),
        rank_places describe attrs places = Some (attrs', ranked) ->
        (forall p v, In p places -> p_score_with_reviews p = Some v -> 0.0 <= v <= 1.0) ->
        forall p' v, In p' (re_rank_with_reviews q attrs' ranked) ->
                     p_score_with_reviews p' = Some v -> 0.0 <= v <= 1.0).
Proof.
  split; [exact compute_score_bounds|].
  intros describe q attrs attrs' places ranked Hr Hold p' v Hin Hv.
  assert (G : 0 <= v <= 1); [|lra].
  apply (re_rank_in_range q attrs' ranked) with (p' := p'); auto.
  - intros p Hp.
    destruct (rank_places_In describe _ _ _ _ Hr p Hp) as [c [reason [_ ->]]].
    unfold base_score; simpl. pose proof (compute_score_bounds attrs' c). lra.
  - intros p w Hp Hw.
    destruct (rank_places_In describe _ _ _ _ Hr p Hp) as [c [reason [Hc ->]]].
    simpl in Hw. pose proof (Hold c w Hc Hw). lra.
Qed.

(** An explanation builder that always answers with the generic sentence. *)
Definition plain_reason (_ : UserPreferences) (_ : Candidate) (_ : contributions)
  : option string :=
  Some "Good overall match based on your preferences".

(** A fresh place with one review. *)
Definition idli_place : Candidate :=
  {| p_place_id := Some "rest_7"; p_name := Some "Udupi Bhavan";
     p_category := Some "South Indian"; p_cuisine := Some "south indian";
     p_popularity := PyNone; p_distance_m := PyNone; p_price_level := PyNone;
     p_tags := Some "south indian soft";
     p_reviews_list := RvList ["Soft idli and crisp dosa."];
     p_reviews := RvNone; p_reviews_text := RvNone;
     p_score := None; p_reason := None; p_score_with_reviews := None |}.

(** C2 on the request for "dosa" and one fresh, reviewed place. *)
Lemma scores_in_unit_interval_witness :
  0.0 <= compute_score dosa_request idli_place <= 1.0
  /\ Forall (fun p' => forall v, p_score_with_reviews p' = Some v -> 0.0 <= v <= 1.0)
            (re_rank_with_reviews "crisp dosa" (flagged dosa_request [idli_place])
               [annotate idli_place
                         (compute_score (flagged dosa_request [idli_place]) idli_place)
                         "Good overall match based on your preferences"]).
Proof.
  split.
  - apply (proj1 scores_in_unit_interval).
  - apply Forall_forall. intros p' Hin v Hv.
    apply (proj2 scores_in_unit_interval plain_reason "crisp dosa" dosa_request
                 (flagged dosa_request [idli_place]) [idli_place]
                 [annotate idli_place
                           (compute_score (flagged dosa_request [idli_place]) idli_place)
                           "Good overall match based on your preferences"])
      with (p' := p').
    + reflexivity.
    + intros p w [<-|[]] Hw. discriminate Hw.
    + exact Hin.
    + exact Hv.
Defined.

(** ** Cuisine fallback flag *)

(** A vegetarian-only request for Kerala food. *)
Definition kerala_veg_request : UserPreferences :=
  {| a_cuisine := Some "kerala"; a_inferred_cuisine_from_dish := None; a_dish := SLNone;
     a_food_style := SLNone; a_avoid_food_style := SLNone; a_avoid_cuisine := SLNone;
     a_budget := None; a_mood := None; a_veg_only := true; a_max_distance_m := None;
     a_ranking_preferences := SLNone; a_raw_query := "kerala food";
     a_distance_preference := None; a_category_hint := None;
     a_fallback_type := None; a_dish_fallback := false |}.

(** C4, as stated, fails: the only place is dropped by the vegetarian filter,
    so the selected set is empty and holds no place with "kerala" in its
    category or cuisine, yet [_fallback_type] stays null. *)
Lemma empty_selection_no_fallback :
  PyStr.otruthy (user_cuisine kerala_veg_request) = true
  /\ selected kerala_veg_request [bare_place "rest_1" "Pure Veg"] = Some []
  /\ cuisine_found "kerala" [] = false
  /\ option_map (fun r => a_fallback_type (fst r))
                (rank_places plain_reason kerala_veg_request
                             [bare_place "rest_1" "Pure Veg"])
     = Some None.
Proof. repeat split. Qed.

(** No selected place has [token] in its lower-cased category or cuisine. *)
Definition cuisine_absent (token : string) (candidates : list Candidate) : Prop :=
  forall p, In p candidates ->
    PyStr.contains token (PyStr.lower (PyStr.or_empty (p_category p))) = false
    /\ PyStr.contains token (PyStr.lower (PyStr.or_empty (p_cuisine p))) = false.

Lemma cuisine_found_false (token : string) (candidates : list Candidate) :
  cuisine_found token candidates = false <-> cuisine_absent token candidates.
Proof.
  unfold cuisine_found, cuisine_absent. split.
  - intros H p Hp. apply orb_false_iff.
    destruct (_ || _) eqn:E; [|reflexivity].
    assert (T : existsb
                  (fun p => PyStr.contains token (PyStr.lower (PyStr.or_empty (p_category p)))
                            || PyStr.contains token (PyStr.lower (PyStr.or_empty (p_cuisine p))))
                  candidates = true)
      by (apply existsb_exists; exists p; auto).
    congruence.
  - intros H. destruct (existsb _ candidates) eqn:E; [|reflexivity].
    apply existsb_exists in E as [p [Hp Hhit]].
    destruct (H p Hp) as [H1 H2]. rewrite H1, H2 in Hhit. discriminate.
Qed.

(** The hard filter returns when every known distance is a number. *)
Lemma hard_filter_total (attrs : UserPreferences) (places : list Candidate) :
  (forall p, In p places -> p_distance_m p <> PyBad) ->
  exists kept, hard_filter attrs places = Some kept.
Proof.
  induction places as [|p places IH]; intros Hnum; simpl.
  - exists []. reflexivity.
  - destruct IH as [kept Hk]; [intros x Hx; apply Hnum; right; exact Hx|].
    rewrite Hk.
    destruct (a_veg_only attrs && negb (_is_veg_place p)); [eauto|].
    assert (Hp : p_distance_m p <> PyBad) by (apply Hnum; left; reflexivity).
    unfold too_far. destruct (a_max_distance_m attrs) as [m|]; [|eauto].
    destruct (p_distance_m p) as [|d|]; [eauto| |congruence].
    destruct (Rlt_dec m d); eauto.
Qed.

(** The scoring loop returns when the explanation builder does. *)
Lemma score_all_total
      (describe : UserPreferences -> Candidate -> contributions -> option string)
      (attrs : UserPreferences) (w : Weights) (candidates : list Candidate) :
  (forall a p c, exists reason, describe a p c = Some reason) ->
  exists ranked, score_all describe attrs w candidates = Some ranked.
Proof.
  intros Hd. induction candidates as [|c cs [ranked IH]]; simpl.
  - exists []. reflexivity.
  - destruct (Hd attrs c (contributions_of attrs w c)) as [reason ->].
    rewrite IH. eauto.
Qed.

(** [rank_places] returns when every known distance is a number and the
    explanation builder returns. *)
Lemma rank_places_total
      (describe : UserPreferences -> Candidate -> contributions -> option string)
      (attrs : UserPreferences) (places : list Candidate) :
  (forall a p c, exists reason, describe a p c = Some reason) ->
  (forall p, In p places -> p_distance_m p <> PyBad) ->
  exists attrs' ranked, rank_places describe attrs places = Some (attrs', ranked).
Proof.
  intros Hd Hnum. unfold rank_places, selected.
  destruct (hard_filter_total attrs places Hnum) as [kept ->].
  set (candidates := select_candidates attrs (grouping attrs kept)).
  destruct (score_all_total describe (flagged attrs candidates)
              (adjust_dynamic_weights (flagged attrs candidates) WEIGHTS)
              candidates Hd) as [ranked ->].
  eauto.
Qed.

(** C4 (amended): with every known distance a number and an explanation
    builder that returns, [rank_places] returns, and the [attrs] it leaves
    have [_fallback_type] set to "cuisine_family_fallback" if a cuisine (or
    dish-inferred cuisine) was requested, the selected candidate set is
    non-empty and none of its places has the lower-cased cuisine in its
    lower-cased category or cuisine text; in every other case it is null. *)
Theorem cuisine_fallback_flag
        (describe : UserPreferences -> Candidate -> contributions -> option string)
        (attrs : UserPreferences) (places : list Candidate) :
  (forall a p c, exists reason, describe a p c = Some reason) ->
  (forall p, In p places -> p_distance_m p <> PyBad) ->
  exists attrs' ranked candidates,
    rank_places describe attrs places = Some (attrs', ranked)
    /\ selected attrs places = Some candidates
    /\ (PyStr.otruthy (user_cuisine attrs) = true /\ candidates <> []
        /\ cuisine_absent (PyStr.lower (PyStr.or_empty (user_cuisine attrs))) candidates ->
        a_fallback_type attrs' = Some "cuisine_family_fallback")
    /\ (~ (PyStr.otruthy (user_cuisine attrs) = true /\ candidates <> []
           /\ cuisine_absent (PyStr.lower (PyStr.or_empty (user_cuisine attrs))) candidates) ->
        a_fallback_type attrs' = None).
Proof.
  intros Hd Hnum.
  destruct (rank_places_total describe attrs places Hd Hnum) as [attrs' [ranked Hr]].
  destruct (rank_places_flags describe _ _ _ _ Hr) as [candidates [Hs ->]].
  exists (flagged attrs candidates), ranked, candidates.
  split; [exact Hr|]. split; [exact Hs|].
  unfold flagged, cuisine_fallback; simpl. split.
  - intros [Hc [Hne Habs]].
    destruct candidates as [|c cs]; [congruence|].
    rewrite Hc. apply cuisine_found_false in Habs. rewrite Habs. reflexivity.
  - intros Hnot.
    destruct candidates as [|c cs]; [reflexivity|].
    destruct (PyStr.otruthy (user_cuisine attrs)) eqn:Hc; [|reflexivity].
    destruct (cuisine_found _ (c :: cs)) eqn:Hf; [reflexivity|].
    exfalso. apply Hnot. split; [reflexivity|]. split; [discriminate|].
    apply cuisine_found_false, Hf.
Qed.

(** A request for Kerala food with no other constraint. *)
Definition kerala_request : UserPreferences :=
  {| a_cuisine := Some "kerala"; a_inferred_cuisine_from_dish := None; a_dish := SLNone;
     a_food_style := SLNone; a_avoid_food_style := SLNone; a_avoid_cuisine := SLNone;
     a_budget := None; a_mood := None; a_veg_only := false; a_max_distance_m := None;
     a_ranking_preferences := SLNone; a_raw_query := "kerala food";
     a_distance_preference := None; a_category_hint := None;
     a_fallback_type := None; a_dish_fallback := false |}.

(** The amended C4 on a request for "kerala" answered by a Tamil place of the
    same cuisine family. *)
Lemma cuisine_fallback_flag_witness :
  exists attrs' ranked candidates,
    rank_places plain_reason kerala_request [bare_place "rest_3" "Tamil Mess"]
    = Some (attrs', ranked)
    /\ selected kerala_request [bare_place "rest_3" "Tamil Mess"] = Some candidates
    /\ (PyStr.otruthy (user_cuisine kerala_request) = true /\ candidates <> []
        /\ cuisine_absent (PyStr.lower (PyStr.or_empty (user_cuisine kerala_request)))
                          candidates ->
        a_fallback_type attrs' = Some "cuisine_family_fallback")
    /\ (~ (PyStr.otruthy (user_cuisine kerala_request) = true /\ candidates <> []
           /\ cuisine_absent (PyStr.lower (PyStr.or_empty (user_cuisine kerala_request)))
                             candidates) ->
        a_fallback_type attrs' = None).
Proof.
  apply (cuisine_fallback_flag plain_reason kerala_request
           [bare_place "rest_3" "Tamil Mess"]).
  - intros a p c. eexists. reflexivity.
  - intros p [<-|[]]. discriminate.
Defined.

(** Scenario C of the specification: "kerala" requested, the selected place
    is of the same family but does not name it. *)
Example kerala_family_fallback :
  a_fallback_type (flagged kerala_request [bare_place "rest_3" "Tamil Mess"])
  = Some "cuisine_family_fallback".
Proof. reflexivity. Qed.

(** A dish alone sets no cuisine: the relation is none and the boost is 0. *)
Example dish_without_cuisine_no_boost :
  classify_cuisine_relation
    {| a_cuisine := None; a_inferred_cuisine_from_dish := None; a_dish := SLStr "dosa";
       a_food_style := SLNone; a_avoid_food_style := SLNone; a_avoid_cuisine := SLNone;
       a_budget := None; a_mood := None; a_veg_only := false; a_max_distance_m := None;
       a_ranking_preferences := SLNone; a_raw_query := "dosa";
       a_distance_preference := None; a_category_hint := None;
       a_fallback_type := None; a_dish_fallback := false |}
    (bare_place "rest_1" "south indian")
  = NoRelation.
Proof. reflexivity. Qed.

(* ================================================================== *)
(** * Further properties of the scorers *)

(** ** Budget similarity *)

(** X1: for a fixed budget the budget score never rises with the price, and
    it stays between 0.1 and 1.0. *)
Theorem budget_similarity_monotone (b p1 p2 : R) :
  p1 <= p2 ->
  budget_similarity (Some b) (PyNum p2) <= budget_similarity (Some b) (PyNum p1)
  /\ 0.1 <= budget_similarity (Some b) (PyNum p2)
  /\ budget_similarity (Some b) (PyNum p1) <= 1.0.
Proof.
  intros H. unfold budget_similarity.
  destruct (Rle_dec p1 b), (Rle_dec p1 (1.3 * b)), (Rle_dec p1 (1.6 * b)),
           (Rle_dec p2 b), (Rle_dec p2 (1.3 * b)), (Rle_dec p2 (1.6 * b));
    repeat split; lra.
Qed.

Lemma budget_similarity_monotone_witness :
  budget_similarity (Some 300) (PyNum 450) <= budget_similarity (Some 300) (PyNum 350)
  /\ 0.1 <= budget_similarity (Some 300) (PyNum 450)
  /\ budget_similarity (Some 300) (PyNum 350) <= 1.0.
Proof. apply (budget_similarity_monotone 300 350 450). lra. Defined.

(** ** Ranges of the five weighted factors *)

Lemma INR_ratio_unit (a b : nat) : (a <= b)%nat -> 0 <= INR a / INR b <= 1.
Proof.
  intros Hab. destruct b as [|b].
  - assert (a = 0%nat) by lia. subst. simpl. unfold Rdiv. rewrite Rmult_0_l. lra.
  - assert (Hb : 0 < INR (S b)) by (apply lt_0_INR; lia).
    assert (Ha : 0 <= INR a) by apply pos_INR.
    assert (Hle : INR a <= INR (S b)) by (apply le_INR; exact Hab).
    split.
    + apply Rmult_le_pos; [exact Ha | left; apply Rinv_0_lt_compat; exact Hb].
    + apply (Rmult_le_reg_r (INR (S b))); [exact Hb|].
      unfold Rdiv. rewrite Rmult_assoc, Rinv_l by lra. lra.
Qed.

Lemma cuisine_match_score_range (attrs : UserPreferences) (place : Candidate) :
  0 <= cuisine_match_score attrs place <= 1.
Proof.
  unfold cuisine_match_score.
  destruct (negb _); [lra|]. destruct (classify_cuisine_relation attrs place); lra.
Qed.

Lemma style_score_range (attrs : UserPreferences) (place : Candidate) :
  0 <= style_score_fn attrs place <= 1.
Proof.
  unfold style_score_fn.
  destruct (as_list (a_food_style attrs)) as [|s desired]; [lra|].
  destruct (negb _); [lra|].
  apply INR_ratio_unit, filter_length_le.
Qed.

Lemma normalize_popularity_range (raw : pynum) : 0 <= normalize_popularity raw <= 1.
Proof.
  destruct raw as [|val|]; simpl; try lra.
  destruct (Rle_dec val 5);
    match goal with |- _ <= clamp01 ?x <= _ => exact (clamp01_bounds x) end.
Qed.

Lemma distance_score_range (dist_m : pynum) : 0 < distance_score dist_m <= 1.
Proof.
  destruct dist_m as [|d|]; simpl; try lra.
  destruct (Rle_dec d 0) as [|Hd]; [lra|].
  split; [apply exp_pos|].
  left. rewrite <- exp_0. apply exp_increasing. lra.
Qed.

Lemma budget_similarity_range (user_budget : option R) (place_price : pynum) :
  0.1 <= budget_similarity user_budget place_price <= 1.
Proof.
  unfold budget_similarity.
  destruct user_budget as [b|]; [|lra].
  destruct place_price as [|p|]; try lra.
  destruct (Rle_dec p b), (Rle_dec p (1.3 * b)), (Rle_dec p (1.6 * b)); lra.
Qed.


(** ** Popularity scale *)

(** X3: a rating of at most 5 is read on the 0-5 scale and a larger one on
    the 0-10 scale, the result clipped to [0,1]; so a rating just above 5
    scores about half of what the rating 5 scores. *)
Theorem normalize_popularity_scales (val : R) :
  (0 <= val <= 5 -> normalize_popularity (PyNum val) = val / 5)
  /\ (5 < val <= 10 -> normalize_popularity (PyNum val) = val / 10)
  /\ (val <= 0 -> normalize_popularity (PyNum val) = 0)
  /\ (10 <= val -> normalize_popularity (PyNum val) = 1).
Proof.
  unfold normalize_popularity, clamp01.
  repeat split; intros H;
    destruct (Rle_dec val 5); try lra;
    unfold Rmin;
    match goal with
    | |- context [Rle_dec ?x 1.0] => destruct (Rle_dec x 1.0)
    end;
    unfold Rmax;
    match goal with
    | |- context [Rle_dec 0.0 ?y] => destruct (Rle_dec 0.0 y)
    end; lra.
Qed.

Lemma normalize_popularity_scales_witness :
  normalize_popularity (PyNum 4) = 4 / 5 /\ normalize_popularity (PyNum 8) = 8 / 10.
Proof.
  split.
  - apply (proj1 (normalize_popularity_scales 4)). lra.
  - apply (proj1 (proj2 (normalize_popularity_scales 8))). lra.
Defined.

(** ** Penalty and boosts *)

Lemma fold_penalty (f : string -> bool) (l : list string) (a : R) :
  fold_left (fun score s => if f s then score - 0.4 else score) l a
  = a - 0.4 * INR (length (filter f l)).
Proof.
  revert a. induction l as [|s l IH]; intros a; simpl.
  - lra.
  - rewrite IH. destruct (f s); [|reflexivity].
    change (length (s :: filter f l)) with (S (length (filter f l))).
    rewrite S_INR. lra.
Qed.

(** The avoided styles found in the tags of a place. *)
Definition avoided_style_hits (attrs : UserPreferences) (place : Candidate) : list string :=
  filter (fun s => PyStr.contains (PyStr.lower s)
                                  (PyStr.lower (PyStr.or_empty (p_tags place))))
         (as_list (a_avoid_food_style attrs)).

(** The avoided cuisines found in the category of a place. *)
Definition avoided_cuisine_hits (attrs : UserPreferences) (place : Candidate) : list string :=
  filter (fun c => PyStr.contains (PyStr.lower c)
                                  (PyStr.lower (PyStr.or_empty (p_category place))))
         (as_list (a_avoid_cuisine attrs)).

(** X4: the avoid penalty is 0.4 for every avoided style found in the tags
    plus 0.4 for every avoided cuisine found in the category, counted with
    repetitions and never positive; it is not capped. *)
Theorem avoid_penalty_counts (attrs : UserPreferences) (place : Candidate) :
  avoid_penalty attrs place
  = - (0.4 * INR (length (avoided_style_hits attrs place)
                  + length (avoided_cuisine_hits attrs place)))
  /\ avoid_penalty attrs place <= 0.
Proof.
  assert (E : avoid_penalty attrs place
              = - (0.4 * INR (length (avoided_style_hits attrs place)
                              + length (avoided_cuisine_hits attrs place)))).
  { unfold avoid_penalty, avoided_style_hits, avoided_cuisine_hits.
    rewrite !fold_penalty, plus_INR. lra. }
  split; [exact E|]. rewrite E.
  pose proof (pos_INR (length (avoided_style_hits attrs place)
                       + length (avoided_cuisine_hits attrs place))). lra.
Qed.

Lemma dish_boost_unmatched (attrs : UserPreferences) (place : Candidate) :
  dish_hint_matches attrs place = false -> dish_boost attrs place = 0.0.
Proof.
  unfold dish_hint_matches, dish_boost.
  destruct (dish_tokens attrs) as [dishes|]; [|reflexivity].
  intros Hm.
  destruct (classify_cuisine_relation attrs place) eqn:Hrel; try reflexivity;
    rewrite fold_dish_step_level by (try discriminate; left; reflexivity);
    rewrite Hm; reflexivity.
Qed.

(** X5: the dish boost is the level of the cuisine relation (0.25, 0.15 or 0)
    when the hint of a requested dish occurs in the category and 0 otherwise;
    so it is positive exactly when a hint matched and the relation is not
    none, and a dish the hint table does not know never boosts. *)
Theorem dish_boost_value (attrs : UserPreferences) (place : Candidate) :
  dish_boost attrs place
  = (if dish_hint_matches attrs place
     then relation_level (classify_cuisine_relation attrs place) else 0.0)
  /\ (0 < dish_boost attrs place <->
      dish_hint_matches attrs place = true
      /\ classify_cuisine_relation attrs place <> NoRelation).
Proof.
  assert (E : dish_boost attrs place
              = if dish_hint_matches attrs place
                then relation_level (classify_cuisine_relation attrs place) else 0.0).
  { destruct (dish_hint_matches attrs place) eqn:Hm.
    - apply dish_boost_matched, Hm.
    - apply dish_boost_unmatched, Hm. }
  split; [exact E|]. rewrite E.
  destruct (dish_hint_matches attrs place);
    destruct (classify_cuisine_relation attrs place); simpl; split;
    try (intros H; lra);
    try (intros _; split; [reflexivity|discriminate]);
    try (intros [H1 H2]; try discriminate H1; try (exfalso; apply H2; reflexivity); lra).
Qed.

Lemma hint_hits_grows (cat tags : string) (cs : list string) (b : R) :
  b <= hint_hits cat tags b cs.
Proof.
  unfold hint_hits. revert b. induction cs as [|c cs IH]; intros b; simpl.
  - lra.
  - destruct (_ || _); [|apply IH].
    apply Rle_trans with (b + 0.08); [lra | apply IH].
Qed.

Lemma mood_boost_no_mood (attrs : UserPreferences) (place : Candidate) :
  PyStr.otruthy (a_mood attrs) = false -> mood_boost attrs place = 0.
Proof. intros H. unfold mood_boost. rewrite H. simpl. lra. Qed.

Lemma style_inference_no_style (attrs : UserPreferences) (place : Candidate) :
  as_list (a_food_style attrs) = [] -> _style_inference_boost attrs place = 0.
Proof. intros H. unfold _style_inference_boost. rewrite H. lra. Qed.

(** X6: the mood boost lies in [-0.25, 0.25] and is 0 without a mood; the
    style-inference boost lies in [0, 0.25] and is 0 without a style. *)
Theorem soft_boosts_bounded (attrs : UserPreferences) (place : Candidate) :
  -0.25 <= mood_boost attrs place <= 0.25
  /\ (PyStr.otruthy (a_mood attrs) = false -> mood_boost attrs place = 0)
  /\ 0 <= _style_inference_boost attrs place <= 0.25
  /\ (as_list (a_food_style attrs) = [] -> _style_inference_boost attrs place = 0).
Proof.
  split; [|split; [|split]].
  - unfold mood_boost. destruct (negb _); [lra|]. apply clamp_boost_bounds.
  - apply mood_boost_no_mood.
  - unfold _style_inference_boost.
    destruct (as_list (a_food_style attrs)) as [|s desired] eqn:E; [lra|].
    rewrite <- E. clear E.
    set (step := fun (boost : R) (s0 : string) => _).
    assert (G : forall l b, 0 <= b -> 0 <= fold_left step l b).
    { induction l as [|x l IH]; intros b Hb; simpl; [exact Hb|].
      apply IH. unfold step.
      destruct (lookup (PyStr.lower x) STYLE_HINTS) as [hint|]; [|exact Hb].
      eapply Rle_trans; [|apply hint_hits_grows].
      eapply Rle_trans; [exact Hb | apply hint_hits_grows]. }
    pose proof (G (as_list (a_food_style attrs)) 0.0 ltac:(lra)) as Hpos.
    pose proof (clamp_boost_bounds (fold_left step (as_list (a_food_style attrs)) 0.0)) as Hb.
    split; [|apply Hb].
    unfold clamp_boost, Rmax, Rmin in *.
    destruct (Rle_dec (fold_left step (as_list (a_food_style attrs)) 0.0) 0.25);
      destruct (Rle_dec (-0.25) _); lra.
  - apply style_inference_no_style.
Qed.

Lemma soft_boosts_bounded_witness :
  mood_boost no_signal (bare_place "rest_1" "cafe") = 0.
Proof.
  apply (proj1 (proj2 (soft_boosts_bounded no_signal (bare_place "rest_1" "cafe")))).
  reflexivity.
Defined.

(** ** Shape of the adjusted weights *)

Lemma normalize_weight_pos (k : factor) (w : Weights) :
  above_baseline w -> 0 < weight_of k (normalize w).
Proof.
  intros H. pose proof (above_baseline_sum w H) as Hs.
  rewrite weight_of_normalize by lra.
  apply Rdiv_lt_0_compat; [|lra].
  unfold above_baseline in H. destruct k; simpl; lra.
Qed.

Lemma adjusted_weights_pos_sum (attrs : UserPreferences) :
  (forall k, 0 < weight_of k (adjust_dynamic_weights attrs WEIGHTS))
  /\ wsum (adjust_dynamic_weights attrs WEIGHTS) <= 1.
Proof.
  unfold adjust_dynamic_weights.
  destruct (norm_prefs attrs) as [|p prefs].
  - destruct (wants_near attrs); [split; [intros k; destruct k|]; unfold wsum; simpl; lra|].
    destruct (wants_popular attrs); [split; [intros k; destruct k|]; unfold wsum; simpl; lra|].
    destruct (has_budget attrs); [split; [intros k; destruct k|]; unfold wsum; simpl; lra|].
    destruct (has_cuisine attrs); [split; [intros k; destruct k|]; unfold wsum; simpl; lra|].
    destruct (has_style attrs); split; try (intros k; destruct k); unfold wsum; simpl; lra.
  - pose proof (raw_pref_weights_above (p :: prefs)) as Ha. split.
    + intros k. apply normalize_weight_pos, Ha.
    + rewrite normalize_sum; [lra|]. pose proof (above_baseline_sum _ Ha). lra.
Qed.

(** X7: with the base table [WEIGHTS], every adjusted weight lies strictly
    between 0 and 1 and the five together do not exceed 1, whatever the
    request: no factor is ever switched off and none decides alone. *)
Theorem adjusted_weights_valid (attrs : UserPreferences) :
  (forall k, 0 < weight_of k (adjust_dynamic_weights attrs WEIGHTS) < 1)
  /\ wsum (adjust_dynamic_weights attrs WEIGHTS) <= 1.
Proof.
  destruct (adjusted_weights_pos_sum attrs) as [Hpos Hsum].
  split; [|exact Hsum]. intros k.
  pose proof (Hpos FCuisine). pose proof (Hpos FStyle). pose proof (Hpos FPopularity).
  pose proof (Hpos FDistance). pose proof (Hpos FBudget).
  unfold wsum in Hsum. destruct k; simpl in *; lra.
Qed.

(** The weighted part of the composed score, before boosts and penalty. *)
Definition weighted_base (attrs : UserPreferences) (place : Candidate) : R :=
  let w := adjust_dynamic_weights attrs WEIGHTS in
  cuisine_match w * cuisine_match_score attrs place
  + style_match w * style_score_fn attrs place
  + popularity w * normalize_popularity (p_popularity place)
  + distance w * distance_score (p_distance_m place)
  + budget w * budget_similarity (a_budget attrs) (p_price_level place).

Lemma compute_score_unfold (attrs : UserPreferences) (place : Candidate) :
  compute_score attrs place
  = clamp01 (weighted_base attrs place + dish_boost attrs place + mood_boost attrs place
             + _style_inference_boost attrs place + avoid_penalty attrs place).
Proof. reflexivity. Qed.

Lemma weighted_term (w f : R) : 0 < w -> 0 <= f <= 1 -> 0 <= w * f <= w.
Proof. intros Hw Hf. split; nra. Qed.

Lemma weighted_base_range (attrs : UserPreferences) (place : Candidate) :
  0 < weighted_base attrs place <= 1.
Proof.
  destruct (adjusted_weights_pos_sum attrs) as [Hpos Hsum].
  pose proof (cuisine_match_score_range attrs place) as Hc.
  pose proof (style_score_range attrs place) as Hs.
  pose proof (normalize_popularity_range (p_popularity place)) as Hp.
  pose proof (distance_score_range (p_distance_m place)) as Hd.
  pose proof (budget_similarity_range (a_budget attrs) (p_price_level place)) as Hb.
  unfold weighted_base, wsum in *.
  pose proof (weighted_term _ _ (Hpos FCuisine) Hc).
  pose proof (weighted_term _ _ (Hpos FStyle) Hs).
  pose proof (weighted_term _ _ (Hpos FPopularity) Hp).
  assert (0 < distance (adjust_dynamic_weights attrs WEIGHTS)
              * distance_score (p_distance_m place)
          <= distance (adjust_dynamic_weights attrs WEIGHTS)).
  { pose proof (Hpos FDistance) as Hw. simpl in Hw. split; nra. }
  assert (0 <= budget (adjust_dynamic_weights attrs WEIGHTS)
               * budget_similarity (a_budget attrs) (p_price_level place)
          <= budget (adjust_dynamic_weights attrs WEIGHTS)).
  { apply weighted_term; [apply (Hpos FBudget) | lra]. }
  simpl in *. lra.
Qed.

Lemma clamp01_id (x : R) : 0 <= x <= 1 -> clamp01 x = x.
Proof.
  intros H. unfold clamp01, Rmax, Rmin.
  destruct (Rle_dec x 1.0); [|lra]. destruct (Rle_dec 0.0 x); lra.
Qed.

(** A request without dish, mood, style or avoid lists. *)
Definition plain_request (attrs : UserPreferences) : bool :=
  match dish_tokens attrs with None => true | Some _ => false end
  && negb (PyStr.otruthy (a_mood attrs))
  && match as_list (a_food_style attrs) with [] => true | _ => false end
  && match as_list (a_avoid_food_style attrs) with [] => true | _ => false end
  && match as_list (a_avoid_cuisine attrs) with [] => true | _ => false end.

(** X8: the weighted part of the score is always in (0,1], so only boosts
    and the penalty can push the sum out of [0,1]; for a request without
    dish, mood, style and avoid lists the composed score is the weighted sum
    of the cuisine, popularity, distance and budget factors, and is positive. *)
Theorem compute_score_weighted_sum (attrs : UserPreferences) (place : Candidate) :
  0 < weighted_base attrs place <= 1
  /\ (plain_request attrs = true ->
      compute_score attrs place
      = cuisine_match (adjust_dynamic_weights attrs WEIGHTS) * cuisine_match_score attrs place
        + popularity (adjust_dynamic_weights attrs WEIGHTS)
          * normalize_popularity (p_popularity place)
        + distance (adjust_dynamic_weights attrs WEIGHTS) * distance_score (p_distance_m place)
        + budget (adjust_dynamic_weights attrs WEIGHTS)
          * budget_similarity (a_budget attrs) (p_price_level place)
      /\ 0 < compute_score attrs place).
Proof.
  pose proof (weighted_base_range attrs place) as Hb.
  split; [exact Hb|]. unfold plain_request. intros H.
  apply andb_true_iff in H as [H Hac]. apply andb_true_iff in H as [H Has].
  apply andb_true_iff in H as [H Hfs]. apply andb_true_iff in H as [Hd Hm].
  assert (Ed : dish_boost attrs place = 0).
  { unfold dish_boost. destruct (dish_tokens attrs); [discriminate|lra]. }
  assert (Em : mood_boost attrs place = 0).
  { apply mood_boost_no_mood. apply negb_true_iff, Hm. }
  assert (Efs : as_list (a_food_style attrs) = [])
    by (destruct (as_list (a_food_style attrs)); [reflexivity|discriminate]).
  assert (Es : _style_inference_boost attrs place = 0)
    by (apply style_inference_no_style, Efs).
  assert (Est : style_score_fn attrs place = 0)
    by (unfold style_score_fn; rewrite Efs; lra).
  assert (Ep : avoid_penalty attrs place = 0).
  { unfold avoid_penalty.
    destruct (as_list (a_avoid_food_style attrs)); [|discriminate].
    destruct (as_list (a_avoid_cuisine attrs)); [|discriminate]. simpl. lra. }
  rewrite compute_score_unfold, Ed, Em, Es, Ep.
  replace (weighted_base attrs place + 0 + 0 + 0 + 0) with (weighted_base attrs place) by lra.
  rewrite clamp01_id by lra.
  split; [|lra]. unfold weighted_base. rewrite Est. lra.
Qed.

Lemma compute_score_weighted_sum_witness :
  0 < compute_score kerala_request (bare_place "rest_3" "Tamil Mess").
Proof.
  apply (proj2 (compute_score_weighted_sum kerala_request (bare_place "rest_3" "Tamil Mess"))).
  reflexivity.
Defined.

(** ** Several ranking preferences *)

Definition factor_eqb (a b : factor) : bool :=
  match a, b with
  | FCuisine, FCuisine | FStyle, FStyle | FPopularity, FPopularity
  | FDistance, FDistance | FBudget, FBudget => true
  | _, _ => false
  end.

(** Whether token [p] names the key [k]. *)
Definition names_key (k : factor) (p : string) : bool :=
  match mapped_key p with
  | Some k' => factor_eqb k' k
  | None => false
  end.

(** How many tokens of [prefs] name the key [k]. *)
Definition hits (k : factor) (prefs : list string) : nat :=
  length (filter (names_key k) prefs).

Lemma bump_weight (k : factor) (w : Weights) (p : string) :
  weight_of k (bump w p) = weight_of k w + (if names_key k p then 0.4 else 0).
Proof.
  unfold bump, names_key, mapped_key.
  destruct (p =? "budget"), (p =? "distance"), ((p =? "popularity") || (p =? "rating")),
           (p =? "cuisine"), (p =? "style");
    destruct k; simpl; lra.
Qed.

Lemma fold_bump_weight (k : factor) (prefs : list string) (w : Weights) :
  weight_of k (fold_left bump prefs w) = weight_of k w + 0.4 * INR (hits k prefs).
Proof.
  unfold hits. revert w. induction prefs as [|p prefs IH]; intros w; simpl.
  - lra.
  - rewrite IH, bump_weight. destruct (names_key k p); [|lra].
    change (length (p :: filter (names_key k) prefs))
      with (S (length (filter (names_key k) prefs))).
    rewrite S_INR. lra.
Qed.

Lemma bump_comm (w : Weights) (p q : string) : bump (bump w p) q = bump (bump w q) p.
Proof.
  unfold bump.
  destruct (p =? "budget"), (p =? "distance"), ((p =? "popularity") || (p =? "rating")),
           (p =? "cuisine"), (p =? "style"),
           (q =? "budget"), (q =? "distance"), ((q =? "popularity") || (q =? "rating")),
           (q =? "cuisine"), (q =? "style"); reflexivity.
Qed.

Lemma fold_bump_perm (l1 l2 : list string) :
  Permutation l1 l2 -> forall w, fold_left bump l1 w = fold_left bump l2 w.
Proof.
  induction 1 as [|x l1 l2 _ IH|x y l|l1 l2 l3 _ IH1 _ IH2]; intros w; simpl.
  - reflexivity.
  - apply IH.
  - rewrite bump_comm. reflexivity.
  - rewrite IH1. apply IH2.
Qed.

Lemma raw_pref_weights_perm (l1 l2 : list string) :
  Permutation l1 l2 -> raw_pref_weights l1 = raw_pref_weights l2.
Proof.
  intros H. pose proof (Permutation_length H) as Hlen.
  destruct l1 as [|x [|y l1]].
  - apply Permutation_nil in H. subst. reflexivity.
  - apply Permutation_length_1_inv in H. subst. reflexivity.
  - destruct l2 as [|x' [|y' l2]]; try discriminate Hlen.
    unfold raw_pref_weights. apply fold_bump_perm, H.
Qed.

(** X9: the adjusted weights depend on the ranking preferences only: two
    requests whose (non-empty) normalised token lists are rearrangements of
    each other get the same weights, whatever their budget, cuisine, style,
    query text or base table. *)
Theorem ranking_preferences_decide (a1 a2 : UserPreferences) (b1 b2 : Weights) :
  norm_prefs a1 <> [] ->
  Permutation (norm_prefs a1) (norm_prefs a2) ->
  adjust_dynamic_weights a1 b1 = adjust_dynamic_weights a2 b2.
Proof.
  intros Hne Hperm. unfold adjust_dynamic_weights.
  pose proof (raw_pref_weights_perm _ _ Hperm) as E.
  pose proof (Permutation_length Hperm) as Hlen.
  destruct (norm_prefs a1) as [|p1 l1]; [congruence|].
  destruct (norm_prefs a2) as [|p2 l2]; [discriminate Hlen|].
  rewrite E. reflexivity.
Qed.

(** A request with a budget and a cuisine besides its ranking preferences. *)
Definition busy_request (rp : str_or_list) : UserPreferences :=
  {| a_cuisine := Some "kerala"; a_inferred_cuisine_from_dish := None; a_dish := SLNone;
     a_food_style := SLList ["spicy"]; a_avoid_food_style := SLNone;
     a_avoid_cuisine := SLNone; a_budget := Some 300; a_mood := None;
     a_veg_only := false; a_max_distance_m := None;
     a_ranking_preferences := rp; a_raw_query := "popular kerala food";
     a_distance_preference := Some "nearby"; a_category_hint := None;
     a_fallback_type := None; a_dish_fallback := false |}.

Lemma ranking_preferences_decide_witness :
  adjust_dynamic_weights (busy_request (SLList ["Budget"; "distance"])) WEIGHTS
  = adjust_dynamic_weights (with_ranking (SLList ["distance"; ""; "budget"]) no_signal)
                           baseline.
Proof.
  apply ranking_preferences_decide.
  - discriminate.
  - apply perm_swap.
Defined.

(** X10: with two or more tokens, the weight of a key is
    (0.02 + 0.4 n_k) / (0.1 + 0.4 n), where n_k counts the tokens naming the
    key (repetitions included) and n the recognised tokens; hence a key named
    more often weighs strictly more. *)
Theorem multi_preference_weights (attrs : UserPreferences) (base : Weights) (k k' : factor) :
  (2 <= length (norm_prefs attrs))%nat ->
  weight_of k (adjust_dynamic_weights attrs base)
  = (0.02 + 0.4 * INR (hits k (norm_prefs attrs)))
    / (0.1 + 0.4 * INR (hits FCuisine (norm_prefs attrs) + hits FStyle (norm_prefs attrs)
                        + hits FPopularity (norm_prefs attrs)
                        + hits FDistance (norm_prefs attrs)
                        + hits FBudget (norm_prefs attrs)))
  /\ ((hits k' (norm_prefs attrs) < hits k (norm_prefs attrs))%nat ->
      weight_of k' (adjust_dynamic_weights attrs base)
      < weight_of k (adjust_dynamic_weights attrs base)).
Proof.
  intros Hlen. unfold adjust_dynamic_weights.
  destruct (norm_prefs attrs) as [|p0 [|p1 prefs]] eqn:E; simpl in Hlen; try lia.
  set (l := p0 :: p1 :: prefs) in *.
  assert (Hraw : raw_pref_weights l = fold_left bump l baseline) by reflexivity.
  pose proof (raw_pref_weights_above l) as Ha.
  pose proof (above_baseline_sum _ Ha) as Hs.
  assert (Hw : forall j, weight_of j (raw_pref_weights l) = 0.02 + 0.4 * INR (hits j l)).
  { intros j. rewrite Hraw, fold_bump_weight. destruct j; cbn [weight_of baseline
      cuisine_match style_match popularity distance budget]; lra. }
  assert (Hsum : wsum (raw_pref_weights l)
                 = 0.1 + 0.4 * INR (hits FCuisine l + hits FStyle l + hits FPopularity l
                                    + hits FDistance l + hits FBudget l)).
  { pose proof (Hw FCuisine) as H1. pose proof (Hw FStyle) as H2.
    pose proof (Hw FPopularity) as H3. pose proof (Hw FDistance) as H4.
    pose proof (Hw FBudget) as H5. cbn [weight_of] in H1, H2, H3, H4, H5.
    unfold wsum. rewrite H1, H2, H3, H4, H5, !plus_INR. lra. }
  split.
  - rewrite weight_of_normalize by lra. rewrite Hw, Hsum. reflexivity.
  - intros Hlt. rewrite !weight_of_normalize by lra.
    apply div_lt_pos; [lra|]. rewrite !Hw.
    apply lt_INR in Hlt. lra.
Qed.

Lemma multi_preference_weights_witness :
  weight_of FBudget
    (adjust_dynamic_weights
       (with_ranking (SLList ["budget"; "budget"; "distance"]) no_signal) WEIGHTS)
  = (0.02 + 0.4 * INR 2) / (0.1 + 0.4 * INR 3).
Proof.
  refine (proj1 (multi_preference_weights
                   (with_ranking (SLList ["budget"; "budget"; "distance"]) no_signal)
                   WEIGHTS FBudget FDistance _)).
  simpl. lia.
Defined.

(** ** Cuisine relation *)

Lemma lower_truthy (s : string) : PyStr.truthy (PyStr.lower s) = PyStr.truthy s.
Proof. destruct s; reflexivity. Qed.

Lemma contains_in_empty (needle : string) :
  PyStr.truthy needle = true -> PyStr.contains needle "" = false.
Proof. destruct needle; [discriminate|reflexivity]. Qed.

(** The text [classify_cuisine_relation] compares with: the category, or
    the cuisine when there is no category. *)
Definition place_cuisine_text (place : Candidate) : string :=
  PyStr.lower (PyStr.or_empty (PyStr.por (p_category place) (p_cuisine place))).

(** X11: without a requested cuisine the relation is none and the cuisine
    score the neutral 0.5; a requested cuisine that occurs (case-folded) in
    the category, or in the cuisine of a place without category, gives a
    strong relation and the score 1.0; a place with neither text scores 0;
    and for a place with a category the cuisine field plays no part. *)
Theorem cuisine_relation_cases (attrs : UserPreferences) (place : Candidate) :
  (PyStr.otruthy (user_cuisine attrs) = false ->
   classify_cuisine_relation attrs place = NoRelation
   /\ cuisine_match_score attrs place = 0.5)
  /\ (PyStr.otruthy (user_cuisine attrs) = true ->
      PyStr.contains (PyStr.lower (PyStr.or_empty (user_cuisine attrs)))
                     (place_cuisine_text place) = true ->
      classify_cuisine_relation attrs place = Strong
      /\ cuisine_match_score attrs place = 1.0)
  /\ (PyStr.otruthy (user_cuisine attrs) = true ->
      PyStr.otruthy (p_category place) = false ->
      PyStr.otruthy (p_cuisine place) = false ->
      classify_cuisine_relation attrs place = NoRelation
      /\ cuisine_match_score attrs place = 0.0)
  /\ (forall place' : Candidate,
        PyStr.otruthy (p_category place) = true ->
        p_category place' = p_category place ->
        classify_cuisine_relation attrs place' = classify_cuisine_relation attrs place).
Proof.
  split; [|split; [|split]].
  - intros H. unfold cuisine_match_score, classify_cuisine_relation.
    rewrite H. split; reflexivity.
  - intros Hu Hin.
    assert (E : classify_cuisine_relation attrs place = Strong).
    { unfold classify_cuisine_relation. rewrite Hu. simpl negb. cbv iota.
      fold (place_cuisine_text place).
      destruct (PyStr.truthy (place_cuisine_text place)) eqn:Ht.
      - simpl. rewrite Hin. reflexivity.
      - exfalso. destruct (place_cuisine_text place); [|discriminate Ht].
        rewrite contains_in_empty in Hin; [discriminate|].
        rewrite lower_truthy. exact Hu. }
    split; [exact E|]. unfold cuisine_match_score. rewrite Hu, E. reflexivity.
  - intros Hu Hc Hk.
    assert (E : classify_cuisine_relation attrs place = NoRelation).
    { unfold classify_cuisine_relation, PyStr.por. rewrite Hu, Hc. simpl negb. cbv iota.
      unfold PyStr.otruthy in Hc, Hk.
      rewrite !lower_truthy, Hc, Hk. reflexivity. }
    split; [exact E|]. unfold cuisine_match_score. rewrite Hu, E. reflexivity.
  - intros place' Hc E. unfold classify_cuisine_relation, PyStr.por.
    rewrite E, Hc. reflexivity.
Qed.

Lemma cuisine_relation_cases_witness :
  classify_cuisine_relation kerala_request (bare_place "rest_9" "Kerala Kitchen") = Strong
  /\ cuisine_match_score kerala_request (bare_place "rest_9" "Kerala Kitchen") = 1.0.
Proof.
  apply (proj1 (proj2 (cuisine_relation_cases kerala_request
                         (bare_place "rest_9" "Kerala Kitchen"))));
    reflexivity.
Defined.

(* ================================================================== *)
(** * Further properties of the ranker *)

From Stdlib Require Import Sorted.

(** ** The descending stable sort *)

(** [a] may stand before [b] in a list sorted by descending [key]. *)
Definition desc_by {A : Type} (key : A -> R) (a b : A) : Prop := key b <= key a.

(** Whether the key of [a] is [v]. *)
Definition has_key {A : Type} (key : A -> R) (v : R) (a : A) : bool :=
  if Req_dec_T (key a) v then true else false.

Lemma insert_desc_sorted {A : Type} (key : A -> R) (x : A) (l : list A) :
  StronglySorted (desc_by key) l -> StronglySorted (desc_by key) (insert_desc key x l).
Proof.
  induction l as [|y l IH]; intros Hs; simpl.
  - constructor; constructor.
  - apply StronglySorted_inv in Hs as [Hl Hy].
    destruct (Rlt_dec (key x) (key y)) as [Hlt|Hge].
    + constructor; [apply IH, Hl|].
      apply (Permutation_Forall (Permutation_sym (insert_desc_perm key x l))).
      constructor; [unfold desc_by; lra | exact Hy].
    + constructor; [constructor; assumption|].
      constructor; [unfold desc_by; lra|].
      eapply Forall_impl; [|exact Hy]. unfold desc_by. intros z Hz. lra.
Qed.

Lemma sort_desc_sorted {A : Type} (key : A -> R) (l : list A) :
  StronglySorted (desc_by key) (sort_desc key l).
Proof.
  induction l as [|x l IH]; simpl; [constructor|].
  apply insert_desc_sorted, IH.
Qed.

(** An inserted element never passes an element with the same key. *)
Lemma insert_desc_stable {A : Type} (key : A -> R) (v : R) (x : A) (l : list A) :
  filter (has_key key v) (insert_desc key x l) = filter (has_key key v) (x :: l).
Proof.
  induction l as [|y l IH]; simpl; [reflexivity|].
  destruct (Rlt_dec (key x) (key y)) as [Hlt|Hge]; [|reflexivity].
  simpl. rewrite IH. simpl. unfold has_key.
  destruct (Req_dec_T (key x) v), (Req_dec_T (key y) v); try reflexivity. lra.
Qed.

Lemma sort_desc_stable {A : Type} (key : A -> R) (v : R) (l : list A) :
  filter (has_key key v) (sort_desc key l) = filter (has_key key v) l.
Proof.
  induction l as [|x l IH]; simpl; [reflexivity|].
  rewrite insert_desc_stable. simpl. rewrite IH. reflexivity.
Qed.

(** ** Filtering, grouping and selection as filters *)

(** The distance test of the hard filter on a distance that is a number or
    absent. *)
Definition beyond_max (attrs : UserPreferences) (p : Candidate) : bool :=
  match a_max_distance_m attrs, p_distance_m p with
  | Some m, PyNum d => if Rlt_dec m d then true else false
  | _, _ => false
  end.

(** A place the hard filter keeps. *)
Definition passes_hard_filter (attrs : UserPreferences) (p : Candidate) : bool :=
  negb (a_veg_only attrs && negb (_is_veg_place p)) && negb (beyond_max attrs p).

Lemma hard_filter_as_filter (attrs : UserPreferences) (places kept : list Candidate) :
  hard_filter attrs places = Some kept ->
  kept = filter (passes_hard_filter attrs) places.
Proof.
  revert kept. induction places as [|p places IH]; intros kept H; simpl in H.
  - injection H as <-. reflexivity.
  - simpl. unfold passes_hard_filter at 1.
    destruct (a_veg_only attrs && negb (_is_veg_place p)); simpl.
    + apply IH, H.
    + unfold too_far in H. unfold beyond_max.
      destruct (a_max_distance_m attrs) as [m|].
      * destruct (p_distance_m p) as [|d|]; try discriminate H;
          destruct (hard_filter attrs places) as [kept'|]; try discriminate H;
          try destruct (Rlt_dec m d); injection H as <-; simpl;
          rewrite (IH _ eq_refl); reflexivity.
      * destruct (hard_filter attrs places) as [kept'|]; [|discriminate H].
        injection H as <-.
        destruct (p_distance_m p); rewrite (IH _ eq_refl); reflexivity.
Qed.

(** The three bucket tests of the grouping loop. *)
Definition goes_strong (attrs : UserPreferences) (p : Candidate) : bool :=
  negb (avoided attrs p) && user_has_specific_preference attrs
  && relation_eqb (classify_cuisine_relation attrs p) Strong.

Definition goes_weak (attrs : UserPreferences) (p : Candidate) : bool :=
  negb (avoided attrs p) && user_has_specific_preference attrs
  && relation_eqb (classify_cuisine_relation attrs p) Weak.

Definition goes_neutral (attrs : UserPreferences) (p : Candidate) : bool :=
  negb (avoided attrs p)
  && (negb (user_has_specific_preference attrs)
      || relation_eqb (classify_cuisine_relation attrs p) NoRelation).

Lemma grouping_fold_as_filter (attrs : UserPreferences) (l : list Candidate) (g : groups) :
  fold_left (group_step attrs) l g
  = mkGroups (strong_matches g ++ filter (goes_strong attrs) l)
             (weak_matches g ++ filter (goes_weak attrs) l)
             (neutral g ++ filter (goes_neutral attrs) l).
Proof.
  revert g. induction l as [|p l IH]; intros g; simpl.
  - rewrite !app_nil_r. destruct g; reflexivity.
  - rewrite IH. unfold group_step, goes_strong, goes_weak, goes_neutral.
    destruct (avoided attrs p); simpl; [reflexivity|].
    destruct (user_has_specific_preference attrs); simpl;
      [destruct (classify_cuisine_relation attrs p)|]; simpl;
      rewrite <- ?app_assoc; reflexivity.
Qed.

Lemma grouping_as_filter (attrs : UserPreferences) (l : list Candidate) :
  grouping attrs l
  = mkGroups (filter (goes_strong attrs) l) (filter (goes_weak attrs) l)
             (filter (goes_neutral attrs) l).
Proof. unfold grouping. rewrite grouping_fold_as_filter. reflexivity. Qed.

(** How close a relation is. *)
Definition relation_rank (rel : relation) : nat :=
  match rel with Strong => 2 | Weak => 1 | NoRelation => 0 end.

(** A place of [kept] that no avoided cuisine rules out. *)
Definition eligible (attrs : UserPreferences) (kept : list Candidate) (c : Candidate) : Prop :=
  In c kept /\ avoided attrs c = false.

Lemma no_preference_no_relation (attrs : UserPreferences) (p : Candidate) :
  user_has_specific_preference attrs = false ->
  classify_cuisine_relation attrs p = NoRelation.
Proof.
  unfold user_has_specific_preference, classify_cuisine_relation, user_cuisine, PyStr.por.
  intros H. apply orb_false_iff in H as [H _]. apply orb_false_iff in H as [H1 H2].
  rewrite H1, H2. reflexivity.
Qed.

Lemma relation_eqb_eq (a b : relation) : relation_eqb a b = true <-> a = b.
Proof. destruct a, b; simpl; split; intros H; try reflexivity; discriminate. Qed.

(** Membership in the selected set: the eligible places whose relation is
    the closest one any eligible place has. *)
Lemma select_candidates_best (attrs : UserPreferences) (kept : list Candidate)
      (c : Candidate) :
  In c (select_candidates attrs (grouping attrs kept)) <->
  eligible attrs kept c
  /\ forall c', eligible attrs kept c' ->
       (relation_rank (classify_cuisine_relation attrs c')
        <= relation_rank (classify_cuisine_relation attrs c))%nat.
Proof.
  rewrite grouping_as_filter. unfold select_candidates, eligible. simpl.
  destruct (user_has_specific_preference attrs) eqn:Hpref.
  - destruct (filter (goes_strong attrs) kept) as [|s ss] eqn:Es.
    + destruct (filter (goes_weak attrs) kept) as [|w ws] eqn:Ew.
      * (* neither strong nor weak: every eligible place is unrelated *)
        assert (Hnone : forall x, In x kept -> avoided attrs x = false ->
                                  classify_cuisine_relation attrs x = NoRelation).
        { intros x Hx Ha.
          destruct (classify_cuisine_relation attrs x) eqn:Hr; [| |reflexivity]; exfalso.
          - assert (Hin : In x (filter (goes_strong attrs) kept)).
            { apply filter_In. split; [exact Hx|].
              unfold goes_strong. rewrite Ha, Hpref, Hr. reflexivity. }
            rewrite Es in Hin. contradiction.
          - assert (Hin : In x (filter (goes_weak attrs) kept)).
            { apply filter_In. split; [exact Hx|].
              unfold goes_weak. rewrite Ha, Hpref, Hr. reflexivity. }
            rewrite Ew in Hin. contradiction. }
        rewrite filter_In. unfold goes_neutral. rewrite Hpref. simpl. split.
        -- intros [Hc H]. apply andb_true_iff in H as [Ha _].
           apply negb_true_iff in Ha. split; [auto|].
           intros c' [Hc' Ha']. rewrite (Hnone c' Hc' Ha'). simpl. lia.
        -- intros [[Hc Ha] _]. split; [exact Hc|].
           rewrite Ha, (Hnone c Hc Ha). reflexivity.
      * (* no strong, some weak *)
        rewrite <- Ew, filter_In. unfold goes_weak. rewrite Hpref.
        assert (Hw : In w kept /\ avoided attrs w = false
                     /\ classify_cuisine_relation attrs w = Weak).
        { assert (Hin : In w (filter (goes_weak attrs) kept)) by (rewrite Ew; left; reflexivity).
          apply filter_In in Hin as [Hin H]. unfold goes_weak in H. rewrite Hpref in H.
          apply andb_true_iff in H as [H Hr]. apply andb_true_iff in H as [Ha _].
          apply negb_true_iff in Ha. apply relation_eqb_eq in Hr. auto. }
        assert (Hnostrong : forall x, In x kept -> avoided attrs x = false ->
                                      classify_cuisine_relation attrs x <> Strong).
        { intros x Hx Ha Hr.
          assert (Hin : In x (filter (goes_strong attrs) kept)).
          { apply filter_In. split; [exact Hx|].
            unfold goes_strong. rewrite Ha, Hpref, Hr. reflexivity. }
          rewrite Es in Hin. contradiction. }
        split.
        -- intros [Hc H]. apply andb_true_iff in H as [H Hr].
           apply andb_true_iff in H as [Ha _]. apply negb_true_iff in Ha.
           apply relation_eqb_eq in Hr. split; [auto|].
           intros c' [Hc' Ha']. rewrite Hr. pose proof (Hnostrong c' Hc' Ha').
           destruct (classify_cuisine_relation attrs c'); simpl; try lia. congruence.
        -- intros [[Hc Ha] Hbest]. split; [exact Hc|]. rewrite Ha. simpl.
           destruct Hw as [Hwk [Hwa Hwr]]. specialize (Hbest w (conj Hwk Hwa)).
           rewrite Hwr in Hbest. pose proof (Hnostrong c Hc Ha).
           destruct (classify_cuisine_relation attrs c); simpl in *;
             try reflexivity; try lia; congruence.
    + (* some strong *)
      rewrite <- Es, filter_In. unfold goes_strong. rewrite Hpref.
      assert (Hs : In s kept /\ avoided attrs s = false
                   /\ classify_cuisine_relation attrs s = Strong).
      { assert (Hin : In s (filter (goes_strong attrs) kept)) by (rewrite Es; left; reflexivity).
        apply filter_In in Hin as [Hin H]. unfold goes_strong in H. rewrite Hpref in H.
        apply andb_true_iff in H as [H Hr]. apply andb_true_iff in H as [Ha _].
        apply negb_true_iff in Ha. apply relation_eqb_eq in Hr. auto. }
      split.
      * intros [Hc H]. apply andb_true_iff in H as [H Hr].
        apply andb_true_iff in H as [Ha _]. apply negb_true_iff in Ha.
        apply relation_eqb_eq in Hr. split; [auto|].
        intros c' _. rewrite Hr. destruct (classify_cuisine_relation attrs c'); simpl; lia.
      * intros [[Hc Ha] Hbest]. split; [exact Hc|]. rewrite Ha. simpl.
        destruct Hs as [Hsk [Hsa Hsr]]. specialize (Hbest s (conj Hsk Hsa)).
        rewrite Hsr in Hbest.
        destruct (classify_cuisine_relation attrs c); simpl in *; try reflexivity; lia.
  - rewrite filter_In. unfold goes_neutral. rewrite Hpref. simpl.
    rewrite andb_true_r. split.
    + intros [Hc Ha]. apply negb_true_iff in Ha. split; [auto|].
      intros c' _. rewrite !no_preference_no_relation by exact Hpref. simpl. lia.
    + intros [[Hc Ha] _]. rewrite Ha. auto.
Qed.

(** ** What [rank_places] returns *)

(** [r] is the place [c] with its composed score and a reason attached. *)
Definition scored_from (attrs : UserPreferences) (c r : Candidate) : Prop :=
  exists reason, r = annotate c (compute_score attrs c) reason.

Lemma score_all_Forall2
      (describe : UserPreferences -> Candidate -> contributions -> option string)
      (attrs : UserPreferences) (w : Weights) (candidates scored : list Candidate) :
  score_all describe attrs w candidates = Some scored ->
  Forall2 (scored_from attrs) candidates scored.
Proof.
  revert scored. induction candidates as [|c cs IH]; intros scored H; simpl in H.
  - injection H as <-. constructor.
  - destruct (describe attrs c (contributions_of attrs w c)) as [reason|]; [|discriminate].
    destruct (score_all describe attrs w cs) as [scored'|]; [|discriminate].
    injection H as <-. constructor; [exists reason; reflexivity | apply IH; reflexivity].
Qed.

Lemma rank_places_structure
      (describe : UserPreferences -> Candidate -> contributions -> option string)
      (attrs attrs' : UserPreferences) (places ranked : list Candidate) :
  rank_places describe attrs places = Some (attrs', ranked) ->
  exists candidates scored,
    selected attrs places = Some candidates
    /\ attrs' = flagged attrs candidates
    /\ Forall2 (scored_from attrs') candidates scored
    /\ ranked = sort_desc score_key scored.
Proof.
  unfold rank_places.
  destruct (selected attrs places) as [candidates|] eqn:Hs; [|discriminate].
  destruct (score_all describe (flagged attrs candidates)
                      (adjust_dynamic_weights (flagged attrs candidates) WEIGHTS)
                      candidates) as [scored|] eqn:Hsc; [|discriminate].
  intros [= <- <-]. exists candidates, scored.
  repeat split; try reflexivity. eapply score_all_Forall2, Hsc.
Qed.

(** X12: the list [rank_places] returns holds exactly the selected places,
    each with its composed score and a reason attached, in non-increasing
    score order, places of equal score in the order of selection. *)
Theorem rank_places_sorted_stable
        (describe : UserPreferences -> Candidate -> contributions -> option string)
        (attrs attrs' : UserPreferences) (places ranked : list Candidate) :
  rank_places describe attrs places = Some (attrs', ranked) ->
  exists candidates scored,
    selected attrs places = Some candidates
    /\ Forall2 (scored_from attrs') candidates scored
    /\ Permutation ranked scored
    /\ StronglySorted (desc_by score_key) ranked
    /\ forall v, filter (has_key score_key v) ranked = filter (has_key score_key v) scored.
Proof.
  intros H.
  destruct (rank_places_structure describe _ _ _ _ H)
    as [candidates [scored [Hs [_ [Hf ->]]]]].
  exists candidates, scored.
  split; [exact Hs|]. split; [exact Hf|].
  split; [apply sort_desc_perm|].
  split; [apply sort_desc_sorted|].
  intros v. apply sort_desc_stable.
Qed.

(** Two unrelated places, the second with the same data as the first. *)
Definition twin_places : list Candidate :=
  [bare_place "rest_1" "cafe"; bare_place "rest_2" "cafe"].

Lemma rank_places_sorted_stable_witness :
  exists candidates scored,
    selected no_signal twin_places = Some candidates
    /\ Forall2 (scored_from (flagged no_signal twin_places)) candidates scored
    /\ Permutation
         (sort_desc score_key
            (map (fun c => annotate c (compute_score (flagged no_signal twin_places) c)
                                    "Good overall match based on your preferences")
                 twin_places))
         scored
    /\ StronglySorted (desc_by score_key)
         (sort_desc score_key
            (map (fun c => annotate c (compute_score (flagged no_signal twin_places) c)
                                    "Good overall match based on your preferences")
                 twin_places))
    /\ forall v,
         filter (has_key score_key v)
           (sort_desc score_key
              (map (fun c => annotate c (compute_score (flagged no_signal twin_places) c)
                                      "Good overall match based on your preferences")
                   twin_places))
         = filter (has_key score_key v) scored.
Proof.
  apply (rank_places_sorted_stable plain_reason no_signal (flagged no_signal twin_places)
           twin_places).
  reflexivity.
Defined.

Lemma filter_twice {A : Type} (f g : A -> bool) (l : list A) :
  filter f (filter g l) = filter (fun x => g x && f x) l.
Proof.
  induction l as [|x l IH]; simpl; [reflexivity|].
  destruct (g x); simpl; [destruct (f x)|]; rewrite IH; reflexivity.
Qed.

(** The selected set is a filter of the input. *)
Lemma selected_is_filter (attrs : UserPreferences) (places candidates : list Candidate) :
  selected attrs places = Some candidates ->
  exists keep, candidates = filter keep places.
Proof.
  unfold selected.
  destruct (hard_filter attrs places) as [kept|] eqn:Hf; [|discriminate].
  intros [= <-]. apply hard_filter_as_filter in Hf.
  rewrite grouping_as_filter. unfold select_candidates. simpl. rewrite Hf.
  destruct (user_has_specific_preference attrs);
    [destruct (filter (goes_strong attrs) _) eqn:Es;
     [destruct (filter (goes_weak attrs) _) eqn:Ew|]|];
    rewrite <- ?Es, <- ?Ew, filter_twice; eexists; reflexivity.
Qed.

Lemma selected_membership (attrs : UserPreferences) (places candidates : list Candidate)
      (c : Candidate) :
  selected attrs places = Some candidates ->
  In c candidates <->
  (In c places /\ passes_hard_filter attrs c = true /\ avoided attrs c = false)
  /\ forall c', In c' places -> passes_hard_filter attrs c' = true ->
                avoided attrs c' = false ->
       (relation_rank (classify_cuisine_relation attrs c')
        <= relation_rank (classify_cuisine_relation attrs c))%nat.
Proof.
  unfold selected.
  destruct (hard_filter attrs places) as [kept|] eqn:Hf; [|discriminate].
  intros [= <-]. apply hard_filter_as_filter in Hf.
  rewrite select_candidates_best. unfold eligible. subst kept.
  split.
  - intros [[Hc Ha] Hbest]. apply filter_In in Hc as [Hc Hp].
    split; [auto|]. intros c' Hc' Hp' Ha'. apply Hbest.
    split; [apply filter_In; auto | exact Ha'].
  - intros [[Hc [Hp Ha]] Hbest]. split.
    + split; [apply filter_In; auto | exact Ha].
    + intros c' [Hc' Ha']. apply filter_In in Hc' as [Hc' Hp']. apply Hbest; auto.
Qed.

(** X13: the selected candidate set is a filter of the input (input order
    kept, nothing repeated): it holds exactly the places that pass the
    vegetarian and distance filter and the avoid-cuisine filter and whose
    cuisine relation is the closest one any such place has. *)
Theorem selected_closest_relation (attrs : UserPreferences)
        (places candidates : list Candidate) :
  selected attrs places = Some candidates ->
  (exists keep, candidates = filter keep places)
  /\ (forall c, In c candidates <->
        (In c places /\ passes_hard_filter attrs c = true /\ avoided attrs c = false)
        /\ forall c', In c' places -> passes_hard_filter attrs c' = true ->
                      avoided attrs c' = false ->
             (relation_rank (classify_cuisine_relation attrs c')
              <= relation_rank (classify_cuisine_relation attrs c))%nat).
Proof.
  intros H. split.
  - eapply selected_is_filter, H.
  - intros c. apply selected_membership, H.
Qed.

Lemma selected_closest_relation_witness :
  (exists keep, [bare_place "rest_3" "Tamil Mess"]
                = filter keep [bare_place "rest_2" "Pizza Corner";
                               bare_place "rest_3" "Tamil Mess"])
  /\ (forall c, In c [bare_place "rest_3" "Tamil Mess"] <->
        (In c [bare_place "rest_2" "Pizza Corner"; bare_place "rest_3" "Tamil Mess"]
         /\ passes_hard_filter kerala_request c = true
         /\ avoided kerala_request c = false)
        /\ forall c',
             In c' [bare_place "rest_2" "Pizza Corner"; bare_place "rest_3" "Tamil Mess"] ->
             passes_hard_filter kerala_request c' = true ->
             avoided kerala_request c' = false ->
             (relation_rank (classify_cuisine_relation kerala_request c')
              <= relation_rank (classify_cuisine_relation kerala_request c))%nat).
Proof.
  apply (selected_closest_relation kerala_request
           [bare_place "rest_2" "Pizza Corner"; bare_place "rest_3" "Tamil Mess"]
           [bare_place "rest_3" "Tamil Mess"]).
  reflexivity.
Defined.

(** ** Hard constraints *)

Lemma scored_from_fields (attrs : UserPreferences) (c r : Candidate) :
  scored_from attrs c r ->
  _is_veg_place r = _is_veg_place c
  /\ p_distance_m r = p_distance_m c
  /\ p_category r = p_category c
  /\ pid_of r = pid_of c
  /\ p_score r = Some (compute_score attrs c).
Proof. intros [reason ->]. repeat split. Qed.

Lemma Forall2_In_r {A B : Type} (P : A -> B -> Prop) (l : list A) (l' : list B) (y : B) :
  Forall2 P l l' -> In y l' -> exists x, In x l /\ P x y.
Proof.
  induction 1 as [|a b l l' Hab _ IH]; intros Hy; [contradiction|].
  destruct Hy as [<-|Hy].
  - exists a. split; [left; reflexivity | exact Hab].
  - destruct (IH Hy) as [x [Hx Hp]]. exists x. split; [right; exact Hx | exact Hp].
Qed.

Lemma ranked_from_selected
      (describe : UserPreferences -> Candidate -> contributions -> option string)
      (attrs attrs' : UserPreferences) (places ranked : list Candidate) (r : Candidate) :
  rank_places describe attrs places = Some (attrs', ranked) -> In r ranked ->
  exists candidates c,
    selected attrs places = Some candidates /\ In c candidates /\ scored_from attrs' c r.
Proof.
  intros H Hr.
  destruct (rank_places_structure describe _ _ _ _ H)
    as [candidates [scored [Hs [_ [Hf ->]]]]].
  apply sort_desc_In in Hr.
  destruct (Forall2_In_r _ _ _ _ Hf Hr) as [c [Hc Hcr]].
  exists candidates, c. auto.
Qed.

(** Every returned place is an input place that passed both filters. *)
Lemma ranked_passed_filters
      (describe : UserPreferences -> Candidate -> contributions -> option string)
      (attrs attrs' : UserPreferences) (places ranked : list Candidate) (r : Candidate) :
  rank_places describe attrs places = Some (attrs', ranked) -> In r ranked ->
  exists c, scored_from attrs' c r /\ In c places
            /\ passes_hard_filter attrs c = true /\ avoided attrs c = false.
Proof.
  intros H Hr.
  destruct (ranked_from_selected describe _ _ _ _ r H Hr) as [candidates [c [Hs [Hc Hcr]]]].
  apply (selected_membership attrs places candidates c Hs) in Hc as [[Hin [Hp Ha]] _].
  exists c. auto.
Qed.

(** X14: no returned place breaks a hard constraint: with [veg_only] each
    one has "vegetarian" in its cuisine or category text, with a maximum
    distance none has a known distance beyond it, and none has an avoided
    cuisine in its category. *)
Theorem ranked_respects_constraints
        (describe : UserPreferences -> Candidate -> contributions -> option string)
        (attrs attrs' : UserPreferences) (places ranked : list Candidate) (r : Candidate) :
  rank_places describe attrs places = Some (attrs', ranked) -> In r ranked ->
  (a_veg_only attrs = true -> _is_veg_place r = true)
  /\ (forall m d, a_max_distance_m attrs = Some m -> p_distance_m r = PyNum d -> d <= m)
  /\ (forall ac, In ac (as_list (a_avoid_cuisine attrs)) ->
        PyStr.contains (PyStr.lower ac) (PyStr.lower (PyStr.or_empty (p_category r)))
        = false).
Proof.
  intros H Hr.
  destruct (ranked_from_selected describe _ _ _ _ r H Hr) as [candidates [c [Hs [Hc Hcr]]]].
  destruct (scored_from_fields _ _ _ Hcr) as [Ev [Ed [Ec _]]].
  apply (selected_membership attrs places candidates c Hs) in Hc
    as [[_ [Hp Ha]] _].
  unfold passes_hard_filter in Hp. apply andb_true_iff in Hp as [Hveg Hfar].
  apply negb_true_iff in Hveg, Hfar.
  split; [|split].
  - intros Hv. rewrite Hv in Hveg. simpl in Hveg. apply negb_false_iff in Hveg.
    rewrite Ev. exact Hveg.
  - intros m d Hm Hd. unfold beyond_max in Hfar. rewrite Hm, <- Ed, Hd in Hfar.
    destruct (Rlt_dec m d); [discriminate|lra].
  - intros ac Hac. rewrite Ec. unfold avoided in Ha.
    destruct (PyStr.contains (PyStr.lower ac) _) eqn:E; [|reflexivity].
    assert (T : existsb (fun ac0 => PyStr.contains (PyStr.lower ac0)
                                      (PyStr.lower (PyStr.or_empty (p_category c))))
                        (as_list (a_avoid_cuisine attrs)) = true)
      by (apply existsb_exists; exists ac; auto).
    congruence.
Qed.

(** A vegetarian-only request for places within 2 km. *)
Definition veg_nearby_request : UserPreferences :=
  {| a_cuisine := None; a_inferred_cuisine_from_dish := None; a_dish := SLNone;
     a_food_style := SLNone; a_avoid_food_style := SLNone;
     a_avoid_cuisine := SLList ["chinese"];
     a_budget := None; a_mood := None; a_veg_only := true;
     a_max_distance_m := Some 2000;
     a_ranking_preferences := SLNone; a_raw_query := "pure veg";
     a_distance_preference := None; a_category_hint := None;
     a_fallback_type := None; a_dish_fallback := false |}.

(** A place with a category and a distance. *)
Definition located_place (pid category : string) (d : R) : Candidate :=
  {| p_place_id := Some pid; p_name := None; p_category := Some category;
     p_cuisine := None; p_popularity := PyNone; p_distance_m := PyNum d;
     p_price_level := PyNone; p_tags := None; p_reviews_list := RvNone;
     p_reviews := RvNone; p_reviews_text := RvNone; p_score := None;
     p_reason := None; p_score_with_reviews := None |}.

Lemma ranked_respects_constraints_witness :
  (a_veg_only veg_nearby_request = true ->
   _is_veg_place
     (annotate (located_place "rest_4" "Vegetarian Thali" 0)
               (compute_score (flagged veg_nearby_request
                                       [located_place "rest_4" "Vegetarian Thali" 0])
                              (located_place "rest_4" "Vegetarian Thali" 0))
               "Good overall match based on your preferences") = true)
  /\ (forall m d, a_max_distance_m veg_nearby_request = Some m ->
        p_distance_m
          (annotate (located_place "rest_4" "Vegetarian Thali" 0)
                    (compute_score (flagged veg_nearby_request
                                            [located_place "rest_4" "Vegetarian Thali" 0])
                                   (located_place "rest_4" "Vegetarian Thali" 0))
                    "Good overall match based on your preferences") = PyNum d ->
        d <= m)
  /\ (forall ac, In ac (as_list (a_avoid_cuisine veg_nearby_request)) ->
        PyStr.contains (PyStr.lower ac)
          (PyStr.lower (PyStr.or_empty (p_category
             (annotate (located_place "rest_4" "Vegetarian Thali" 0)
                       (compute_score (flagged veg_nearby_request
                                               [located_place "rest_4" "Vegetarian Thali" 0])
                                      (located_place "rest_4" "Vegetarian Thali" 0))
                       "Good overall match based on your preferences"))))
        = false).
Proof.
  apply (ranked_respects_constraints plain_reason veg_nearby_request
           (flagged veg_nearby_request [located_place "rest_4" "Vegetarian Thali" 0])
           [located_place "rest_4" "Vegetarian Thali" 0]
           [annotate (located_place "rest_4" "Vegetarian Thali" 0)
                     (compute_score (flagged veg_nearby_request
                                             [located_place "rest_4" "Vegetarian Thali" 0])
                                    (located_place "rest_4" "Vegetarian Thali" 0))
                     "Good overall match based on your preferences"]).
  - unfold rank_places, selected. simpl hard_filter.
    unfold too_far. simpl.
    destruct (Rlt_dec 2000 0) as [Hlt|_]; [lra|]. reflexivity.
  - left. reflexivity.
Defined.

(** ** Dish fallback flag and the empty selection *)

Lemma existsb_false_iff {A : Type} (f : A -> bool) (l : list A) :
  existsb f l = false <-> forall x, In x l -> f x = false.
Proof.
  induction l as [|a l IH]; simpl.
  - split; [intros _ x []|reflexivity].
  - rewrite orb_false_iff, IH. split.
    + intros [Ha Hl] x [<-|Hx]; auto.
    + intros H. split; [apply H; left; reflexivity | intros x Hx; apply H; right; exact Hx].
Qed.

(** The text the dish fallback searches: name, category and tags, joined by
    spaces and lower-cased. *)
Definition dish_search_text (p : Candidate) : string :=
  PyStr.lower (PyStr.or_empty (p_name p) ++ " " ++ PyStr.or_empty (p_category p)
               ++ " " ++ PyStr.or_empty (p_tags p)).

(** No selected place mentions any of the dish tokens. *)
Definition dish_absent (tokens : list string) (candidates : list Candidate) : Prop :=
  forall c d, In c candidates -> In d tokens -> PyStr.contains d (dish_search_text c) = false.

Lemma dish_found_false (tokens : list string) (candidates : list Candidate) :
  dish_found tokens candidates = false <-> dish_absent tokens candidates.
Proof.
  unfold dish_found, dish_absent. rewrite existsb_false_iff. split.
  - intros H c d Hc Hd. specialize (H c Hc). cbv zeta in H.
    rewrite existsb_false_iff in H. apply (H d Hd).
  - intros H c Hc. cbv zeta. apply existsb_false_iff. intros d Hd. apply (H c d Hc Hd).
Qed.

(** X15: [_dish_fallback] is set exactly when a dish was requested, the
    selected set is non-empty and no selected place has any lower-cased dish
    token in its lower-cased name, category and tags. *)
Theorem dish_fallback_flag
        (describe : UserPreferences -> Candidate -> contributions -> option string)
        (attrs attrs' : UserPreferences) (places ranked : list Candidate) :
  rank_places describe attrs places = Some (attrs', ranked) ->
  exists candidates,
    selected attrs places = Some candidates
    /\ (a_dish_fallback attrs' = true <->
        exists tokens, dish_tokens attrs = Some tokens /\ candidates <> []
                       /\ dish_absent tokens candidates).
Proof.
  intros H.
  destruct (rank_places_structure describe _ _ _ _ H)
    as [candidates [scored [Hs [-> _]]]].
  exists candidates. split; [exact Hs|].
  unfold flagged. cbn [a_dish_fallback set_flags]. unfold dish_fallback, dish_tokens.
  destruct candidates as [|c cs].
  - split; [discriminate|]. intros [tokens [_ [Hne _]]]. congruence.
  - destruct (a_dish attrs) as [|s|[|d ds]].
    + split; [discriminate|]. intros [tokens [E _]]. discriminate E.
    + destruct (PyStr.truthy s); cbn [andb].
      * rewrite negb_true_iff, dish_found_false. split.
        -- intros Habs. exists [PyStr.lower s]. repeat split; [discriminate|exact Habs].
        -- intros [tokens [[= <-] [_ Habs]]]. exact Habs.
      * split; [discriminate|]. intros [tokens [E _]]. discriminate E.
    + split; [discriminate|]. intros [tokens [E _]]. discriminate E.
    + rewrite negb_true_iff, dish_found_false. split.
      * intros Habs. exists (map PyStr.lower (d :: ds)).
        repeat split; [discriminate|exact Habs].
      * intros [tokens [[= <-] [_ Habs]]]. exact Habs.
Qed.

Lemma dish_fallback_flag_witness :
  exists candidates,
    selected dosa_request [bare_place "rest_1" "South Indian"] = Some candidates
    /\ (a_dish_fallback (flagged dosa_request [bare_place "rest_1" "South Indian"]) = true <->
        exists tokens, dish_tokens dosa_request = Some tokens /\ candidates <> []
                       /\ dish_absent tokens candidates).
Proof.
  apply (dish_fallback_flag plain_reason dosa_request
           (flagged dosa_request [bare_place "rest_1" "South Indian"])
           [bare_place "rest_1" "South Indian"]
           [annotate (bare_place "rest_1" "South Indian")
                     (compute_score (flagged dosa_request [bare_place "rest_1" "South Indian"])
                                    (bare_place "rest_1" "South Indian"))
                     "Good overall match based on your preferences"]).
  reflexivity.
Defined.

(** When no place survives the filters (in particular on an empty input),
    [rank_places] returns the empty list without consulting the explanation
    builder, and leaves both fallback flags cleared. *)
Lemma rank_places_nothing_selected
      (describe : UserPreferences -> Candidate -> contributions -> option string)
      (attrs : UserPreferences) (places : list Candidate) :
  selected attrs places = Some [] ->
  rank_places describe attrs places = Some (set_flags attrs None false, []).
Proof. intros H. unfold rank_places. rewrite H. reflexivity. Qed.

Lemma scored_from_pids (attrs : UserPreferences) (candidates scored : list Candidate) :
  Forall2 (scored_from attrs) candidates scored ->
  map pid_of scored = map pid_of candidates.
Proof.
  induction 1 as [|c r cs rs Hcr _ IH]; simpl; [reflexivity|].
  destruct Hcr as [reason ->]. rewrite IH. reflexivity.
Qed.

Lemma NoDup_map_filter {A B : Type} (f : A -> B) (keep : A -> bool) (l : list A) :
  NoDup (map f l) -> NoDup (map f (filter keep l)).
Proof.
  induction l as [|x l IH]; simpl; intros H; [constructor|].
  apply NoDup_cons_iff in H as [Hx Hl].
  destruct (keep x); simpl; [|apply IH, Hl].
  constructor; [|apply IH, Hl].
  intros Hin. apply Hx. apply in_map_iff in Hin as [y [E Hy]].
  apply in_map_iff. exists y. split; [exact E|]. apply filter_In in Hy. tauto.
Qed.

(** X16: ranking neither drops nor repeats a selected place: the ids of the
    returned places are a rearrangement of the ids of the selected places,
    there are no more of them than input places, and distinct ids on input
    are distinct ids on output. *)
Theorem rank_places_keeps_ids
        (describe : UserPreferences -> Candidate -> contributions -> option string)
        (attrs attrs' : UserPreferences) (places ranked : list Candidate) :
  rank_places describe attrs places = Some (attrs', ranked) ->
  (exists candidates,
     selected attrs places = Some candidates
     /\ Permutation (map pid_of ranked) (map pid_of candidates))
  /\ (length ranked <= length places)%nat
  /\ (NoDup (map pid_of places) -> NoDup (map pid_of ranked)).
Proof.
  intros H.
  destruct (rank_places_structure describe _ _ _ _ H)
    as [candidates [scored [Hs [_ [Hf ->]]]]].
  assert (Hp : Permutation (map pid_of (sort_desc score_key scored)) (map pid_of candidates)).
  { rewrite <- (scored_from_pids _ _ _ Hf). apply Permutation_map, sort_desc_perm. }
  destruct (selected_is_filter attrs places candidates Hs) as [keep Hk].
  split; [exists candidates; auto|]. split.
  - rewrite <- (length_map pid_of), (Permutation_length Hp), length_map, Hk.
    apply filter_length_le.
  - intros Hnd. apply (Permutation_NoDup (Permutation_sym Hp)).
    rewrite Hk. apply NoDup_map_filter, Hnd.
Qed.

Lemma rank_places_keeps_ids_witness :
  (exists candidates,
     selected no_signal twin_places = Some candidates
     /\ Permutation
          (map pid_of
             (sort_desc score_key
                (map (fun c => annotate c (compute_score (flagged no_signal twin_places) c)
                                        "Good overall match based on your preferences")
                     twin_places)))
          (map pid_of candidates))
  /\ (length
        (sort_desc score_key
           (map (fun c => annotate c (compute_score (flagged no_signal twin_places) c)
                                   "Good overall match based on your preferences")
                twin_places))
      <= length twin_places)%nat
  /\ (NoDup (map pid_of twin_places) ->
      NoDup (map pid_of
               (sort_desc score_key
                  (map (fun c => annotate c (compute_score (flagged no_signal twin_places) c)
                                          "Good overall match based on your preferences")
                       twin_places)))).
Proof.
  apply (rank_places_keeps_ids plain_reason no_signal (flagged no_signal twin_places)
           twin_places).
  reflexivity.
Defined.

(* ================================================================== *)
(** * Further properties of the review re-ranker *)

(** ** Tokens *)

(** Every character of [s] satisfies [f]. *)
Fixpoint string_forall (f : ascii -> bool) (s : string) : bool :=
  match s with
  | EmptyString => true
  | String c s' => f c && string_forall f s'
  end.

Lemma string_forall_snoc (f : ascii -> bool) (s : string) (c : ascii) :
  string_forall f s = true -> f c = true ->
  string_forall f (s ++ String c EmptyString) = true.
Proof.
  induction s as [|a s IH]; simpl; intros Hs Hc.
  - rewrite Hc. reflexivity.
  - apply andb_true_iff in Hs as [Ha Hs]. rewrite Ha. simpl. apply IH; assumption.
Qed.

Lemma split_tokens_wellformed (text cur t : string) :
  string_forall is_token_char cur = true ->
  In t (split_tokens cur text) ->
  PyStr.truthy t = true /\ string_forall is_token_char t = true.
Proof.
  revert cur. induction text as [|c text IH]; intros cur Hcur Hin; simpl in Hin.
  - destruct (PyStr.truthy cur) eqn:Ht; [|contradiction].
    destruct Hin as [<-|[]]. auto.
  - destruct (is_token_char c) eqn:Hc.
    + apply (IH (cur ++ String c EmptyString)); [|exact Hin].
      apply string_forall_snoc; assumption.
    + destruct (PyStr.truthy cur) eqn:Ht.
      * destruct Hin as [<-|Hin]; [auto|]. apply (IH EmptyString); auto.
      * apply (IH EmptyString); auto.
Qed.

Lemma mem_In (s : string) (l : list string) : mem s l = true <-> In s l.
Proof.
  unfold mem. rewrite existsb_exists. split.
  - intros [x [Hx E]]. apply String.eqb_eq in E. subst. exact Hx.
  - intros H. exists s. split; [exact H | apply String.eqb_refl].
Qed.

(** X17: every token [_tokenize] returns is non-empty, consists of the
    characters a-z and 0-9 only, and is not a stop word. *)
Theorem tokenize_wellformed (text t : string) :
  In t (_tokenize text) ->
  PyStr.truthy t = true
  /\ string_forall is_token_char t = true
  /\ ~ In t _STOPWORDS.
Proof.
  unfold _tokenize. intros H. apply filter_In in H as [Hin Hstop].
  destruct (split_tokens_wellformed _ "" t eq_refl Hin) as [Ht Hc].
  split; [exact Ht|]. split; [exact Hc|].
  intros Hs. apply mem_In in Hs. rewrite Hs in Hstop. discriminate.
Qed.

Lemma tokenize_wellformed_witness :
  PyStr.truthy "biryani" = true
  /\ string_forall is_token_char "biryani" = true
  /\ ~ In "biryani" _STOPWORDS.
Proof.
  apply (tokenize_wellformed "I want some Spicy-Biryani, near me!" "biryani").
  right. left. reflexivity.
Defined.

(** ** Review match score *)

Lemma filter_all {A : Type} (f : A -> bool) (l : list A) :
  (forall x, In x l -> f x = true) -> filter f l = l.
Proof.
  induction l as [|x l IH]; simpl; intros H; [reflexivity|].
  rewrite (H x (or_introl eq_refl)), IH; [reflexivity|].
  intros y Hy. apply H. right. exact Hy.
Qed.

Lemma filter_none {A : Type} (f : A -> bool) (l : list A) :
  (forall x, In x l -> f x = false) -> filter f l = [].
Proof.
  induction l as [|x l IH]; simpl; intros H; [reflexivity|].
  rewrite (H x (or_introl eq_refl)). apply IH.
  intros y Hy. apply H. right. exact Hy.
Qed.

Lemma mem_to_set (t : string) (l : list string) : mem t (to_set l) = true <-> In t l.
Proof. unfold to_set. rewrite mem_In. apply nodup_In. Qed.

Lemma to_set_nil (l : list string) : to_set l = [] <-> l = [].
Proof.
  unfold to_set. split; intros H.
  - destruct l as [|x l]; [reflexivity|].
    assert (Hx : In x (nodup string_dec (x :: l))) by (apply nodup_In; left; reflexivity).
    rewrite H in Hx. contradiction.
  - rewrite H. reflexivity.
Qed.

(** X18: the review match score lies in [0.3, 1.0]; it is the neutral 0.5
    when the review text is empty, the query yields no term or the review no
    token; otherwise it is 1.0 when every query term occurs among the review
    tokens and 0.3 when none does. *)
Theorem review_match_score_cases (q : string) (attrs : UserPreferences) (t : string) :
  0.3 <= _review_match_score q attrs t <= 1.0
  /\ (PyStr.truthy t = false \/ _build_query_terms q attrs = [] \/ _tokenize t = [] ->
      _review_match_score q attrs t = 0.5)
  /\ (PyStr.truthy t = true -> _build_query_terms q attrs <> [] -> _tokenize t <> [] ->
      (forall term, In term (_build_query_terms q attrs) -> In term (_tokenize t)) ->
      _review_match_score q attrs t = 1.0)
  /\ (PyStr.truthy t = true -> _build_query_terms q attrs <> [] -> _tokenize t <> [] ->
      (forall term, In term (_build_query_terms q attrs) -> ~ In term (_tokenize t)) ->
      _review_match_score q attrs t = 0.3).
Proof.
  split; [apply review_match_score_bounds|].
  unfold _review_match_score. split; [|split].
  - intros [H|[H|H]].
    + rewrite H. reflexivity.
    + destruct (negb (PyStr.truthy t)); [reflexivity|]. rewrite H. reflexivity.
    + destruct (negb (PyStr.truthy t)); [reflexivity|].
      destruct (_build_query_terms q attrs); [reflexivity|].
      apply (proj2 (to_set_nil _)) in H. rewrite H. reflexivity.
  - intros Ht Hq Hr Hall. rewrite Ht. simpl negb. cbv iota.
    destruct (_build_query_terms q attrs) as [|q0 qs] eqn:Eq; [congruence|].
    destruct (to_set (_tokenize t)) as [|r0 rs] eqn:Er; [apply (proj1 (to_set_nil _)) in Er; congruence|].
    rewrite <- Er. rewrite filter_all by (intros x Hx; apply mem_to_set, Hall, Hx).
    assert (Hn : INR (length (q0 :: qs)) / INR (Nat.max (length (q0 :: qs)) 1) = 1).
    { replace (Nat.max (length (q0 :: qs)) 1) with (length (q0 :: qs)) by (simpl; lia).
      apply Rdiv_diag. apply not_0_INR. discriminate. }
    rewrite Hn, clamp01_id by lra. lra.
  - intros Ht Hq Hr Hnone. rewrite Ht. simpl negb. cbv iota.
    destruct (_build_query_terms q attrs) as [|q0 qs] eqn:Eq; [congruence|].
    destruct (to_set (_tokenize t)) as [|r0 rs] eqn:Er; [apply (proj1 (to_set_nil _)) in Er; congruence|].
    rewrite <- Er. rewrite filter_none.
    + simpl length at 1. unfold Rdiv. simpl INR at 1. rewrite Rmult_0_l, clamp01_id by lra. lra.
    + intros x Hx. destruct (mem x (to_set (_tokenize t))) eqn:E; [|reflexivity].
      apply mem_to_set in E. exfalso. exact (Hnone x Hx E).
Qed.

Lemma review_match_score_cases_witness :
  _review_match_score "crisp dosa" no_signal "Crisp dosa and great chutney." = 1.0.
Proof.
  apply (proj1 (proj2 (proj2 (review_match_score_cases
           "crisp dosa" no_signal "Crisp dosa and great chutney."))));
    try discriminate; try reflexivity.
  intros term [<-|[<-|[]]]; simpl; tauto.
Defined.

(** ** Review summary *)

Lemma length_lstrip_le (s : string) : (String.length (PyStr.lstrip s) <= String.length s)%nat.
Proof.
  induction s as [|c s IH]; simpl; [lia|].
  destruct (PyStr.is_space c); simpl; lia.
Qed.

Lemma length_rstrip_le (s : string) : (String.length (PyStr.rstrip s) <= String.length s)%nat.
Proof.
  induction s as [|c s IH]; simpl; [lia|].
  destruct (PyStr.rstrip s) as [|a r]; [destruct (PyStr.is_space c)|]; simpl in *; lia.
Qed.

Lemma length_strip_le (s : string) : (String.length (PyStr.strip s) <= String.length s)%nat.
Proof.
  unfold PyStr.strip.
  pose proof (length_rstrip_le (PyStr.lstrip s)). pose proof (length_lstrip_le s). lia.
Qed.

Lemma length_substring_le (m : nat) (s : string) :
  (String.length (String.substring 0 m s) <= m)%nat.
Proof.
  revert s. induction m as [|m IH]; intros s.
  - destruct s; simpl; lia.
  - destruct s as [|c s]; simpl; [lia|]. specialize (IH s). lia.
Qed.

Lemma length_append (a b : string) :
  String.length (a ++ b) = (String.length a + String.length b)%nat.
Proof. induction a as [|c a IH]; simpl; [reflexivity|]. rewrite IH. reflexivity. Qed.

Lemma first_sentence_length (text : string) (max_len : nat) (seps : list string) (s : string) :
  first_sentence text max_len seps = Some s -> (String.length s <= max_len)%nat.
Proof.
  induction seps as [|sep seps IH]; simpl; [discriminate|].
  destruct (String.index 0 sep text) as [idx|]; [|exact IH].
  destruct ((0 <? idx)%nat && (idx <? max_len)%nat) eqn:E; [|exact IH].
  intros [= <-]. apply andb_true_iff in E as [_ E]. apply Nat.ltb_lt in E.
  pose proof (length_strip_le (String.substring 0 (idx + 1) text)).
  pose proof (length_substring_le (idx + 1) text). lia.
Qed.

(** X19: the review summary is never longer than [max_len] characters plus
    the three dots of a hard cut (143 for the default 140), and it is empty
    for a review text that is empty or blank. *)
Theorem short_review_summary_length (reviews_text : string) (max_len : nat) :
  (String.length (_short_review_summary reviews_text max_len) <= max_len + 3)%nat
  /\ (PyStr.strip reviews_text = "" -> _short_review_summary reviews_text max_len = "").
Proof.
  unfold _short_review_summary. split.
  - destruct (negb (PyStr.truthy (PyStr.strip reviews_text))); [simpl; lia|].
    destruct (first_sentence _ max_len _) as [s|] eqn:E.
    + apply first_sentence_length in E. lia.
    + destruct (max_len <? String.length (PyStr.strip reviews_text))%nat eqn:L.
      * rewrite length_append. simpl.
        pose proof (length_rstrip_le (String.substring 0 max_len (PyStr.strip reviews_text))).
        pose proof (length_substring_le max_len (PyStr.strip reviews_text)). lia.
      * apply Nat.ltb_ge in L. lia.
  - intros ->. reflexivity.
Qed.

Lemma short_review_summary_length_witness :
  _short_review_summary "   " 140 = "".
Proof. apply (proj2 (short_review_summary_length "   " 140)). reflexivity. Defined.

(** ** What the re-ranker leaves alone *)

(** [p'] is [p] up to the reason and [score_with_reviews]. *)
Definition same_place (p p' : Candidate) : Prop :=
  p_place_id p' = p_place_id p /\ p_name p' = p_name p
  /\ p_category p' = p_category p /\ p_cuisine p' = p_cuisine p
  /\ p_popularity p' = p_popularity p /\ p_distance_m p' = p_distance_m p
  /\ p_price_level p' = p_price_level p /\ p_tags p' = p_tags p
  /\ p_reviews_list p' = p_reviews_list p /\ p_reviews p' = p_reviews p
  /\ p_reviews_text p' = p_reviews_text p /\ p_score p' = p_score p.

Lemma same_place_refl (p : Candidate) : same_place p p.
Proof. unfold same_place. repeat split. Qed.

Lemma rescore_same_place (bw : R) (rs : list (string * review_entry)) (p : Candidate) :
  same_place p (rescore bw rs p).
Proof. unfold rescore, same_place. destruct (lookup (pid_of p) rs); repeat split. Qed.

Lemma Forall2_map_r {A B : Type} (P : A -> B -> Prop) (f : A -> B) (l : list A) :
  (forall x, P x (f x)) -> Forall2 P l (map f l).
Proof. intros H. induction l; simpl; constructor; auto. Qed.

(** X20: the re-ranker neither drops, adds nor repeats a place and touches
    only the reason and [score_with_reviews]: its output is a rearrangement
    of the input list with each place equal to its original in every other
    field, the score included. *)
Theorem re_rank_keeps_places (q : string) (attrs : UserPreferences) (l : list Candidate) :
  exists l', Forall2 same_place l l' /\ Permutation (re_rank_with_reviews q attrs l) l'.
Proof.
  unfold re_rank_with_reviews.
  destruct (existsb has_review_text (firstn 15 l)) eqn:Htop.
  - rewrite (re_rank_active 15 0.25 q attrs l Htop).
    exists (map (rescore 0.25 (collect_reviews q attrs (firstn 15 l))) l). split.
    + apply Forall2_map_r. intros p. apply rescore_same_place.
    + apply sort_desc_perm.
  - rewrite (re_rank_quiet 15 0.25 q attrs l Htop). exists l. split.
    + rewrite <- (map_id l) at 2. apply Forall2_map_r. exact same_place_refl.
    + apply Permutation_refl.
Qed.

(** X21: when some place among the first 15 has review text, the output is
    in non-increasing order of [score_with_reviews], places with the same
    value in their input order. *)
Theorem re_rank_sorted_stable (q : string) (attrs : UserPreferences) (l : list Candidate) :
  existsb has_review_text (firstn 15 l) = true ->
  StronglySorted (desc_by review_key) (re_rank_with_reviews q attrs l)
  /\ (forall p', In p' (re_rank_with_reviews q attrs l) ->
        exists v, p_score_with_reviews p' = Some v /\ review_key p' = v)
  /\ (forall v,
        map pid_of (filter (has_key review_key v) (re_rank_with_reviews q attrs l))
        = map pid_of
            (filter (has_key review_key v)
                    (map (rescore 0.25 (collect_reviews q attrs (firstn 15 l))) l))).
Proof.
  intros Htop. unfold re_rank_with_reviews.
  rewrite (re_rank_active 15 0.25 q attrs l Htop).
  split; [apply sort_desc_sorted|]. split.
  - intros p' Hin. apply sort_desc_In, in_map_iff in Hin as [x [<- _]].
    destruct (rescore_attaches 0.25 (collect_reviews q attrs (firstn 15 l)) x) as [v Hv].
    exists v. split; [exact Hv|]. unfold review_key. rewrite Hv. reflexivity.
  - intros v. rewrite sort_desc_stable. reflexivity.
Qed.

Lemma re_rank_sorted_stable_witness :
  StronglySorted (desc_by review_key)
                 (re_rank_with_reviews "crisp dosa" dosa_request active_top).
Proof.
  apply (proj1 (re_rank_sorted_stable "crisp dosa" dosa_request active_top eq_refl)).
Defined.

(** ** The blend for a reviewed place *)

Lemma lookup_fold_present (q : string) (attrs : UserPreferences) (cs : list Candidate)
      (acc : list (string * review_entry)) (k : string) :
  (exists e, lookup k acc = Some e) ->
  exists e, lookup k (fold_left (collect_step q attrs) cs acc) = Some e.
Proof.
  revert acc. induction cs as [|c cs IH]; intros acc H; simpl; [exact H|].
  apply IH.
  destruct (collect_step_cases q attrs acc c) as [[_ E]|[_ E]]; rewrite E; [exact H|].
  simpl. destruct (k =? pid_of c); [eauto | exact H].
Qed.

Lemma lookup_fold_member (q : string) (attrs : UserPreferences) (cs : list Candidate)
      (acc : list (string * review_entry)) (c : Candidate) :
  In c cs -> has_review_text c = true ->
  exists e, lookup (pid_of c) (fold_left (collect_step q attrs) cs acc) = Some e.
Proof.
  revert acc. induction cs as [|x cs IH]; intros acc Hin Hrev; [contradiction|].
  simpl. destruct Hin as [->|Hin]; [|apply IH; assumption].
  apply lookup_fold_present.
  destruct (collect_step_cases q attrs acc c) as [[F _]|[_ E]]; [congruence|].
  rewrite E. simpl. rewrite String.eqb_refl. eauto.
Qed.

Lemma nth_error_firstn_In {A : Type} (k : nat) (l : list A) (i : nat) (x : A) :
  nth_error l i = Some x -> (i < k)%nat -> In x (firstn k l).
Proof.
  revert k i. induction l as [|y l IH]; intros k i H Hk.
  - destruct i; discriminate H.
  - destruct k as [|k]; [lia|]. destruct i as [|i]; simpl in *.
    + injection H as ->. left. reflexivity.
    + right. apply (IH k i); [exact H | lia].
Qed.

(** With distinct ids, a reviewed place among the first [k] finds its own
    entry in the review table. *)
Lemma own_entry (q : string) (attrs : UserPreferences) (k : nat) (l : list Candidate)
      (i : nat) (p : Candidate) :
  NoDup (map pid_of l) -> nth_error l i = Some p -> (i < k)%nat ->
  has_review_text p = true ->
  lookup (pid_of p) (collect_reviews q attrs (firstn k l)) = Some (entry_of q attrs p).
Proof.
  intros Hnd Hi Hk Hrev.
  assert (Hp : In p (firstn k l)) by (eapply nth_error_firstn_In; eauto).
  destruct (lookup_fold_member q attrs (firstn k l) [] p Hp Hrev) as [e He].
  unfold collect_reviews. rewrite He. f_equal.
  destruct (collect_reviews_entries q attrs _ _ _ He) as [c [Hc [Hpid [_ ->]]]].
  assert (c = p).
  { apply (pid_injective l); auto; eapply In_firstn; eauto. }
  subst c. reflexivity.
Qed.

(** X22: with distinct place ids, a place among the first 15 that has review
    text comes out with [score_with_reviews] = 0.75 score + 0.25 review match
    score, which is between 0.75 score + 0.075 and 0.75 score + 0.25, and with
    the review summary (when there is one) appended to its reason after
    "Reviews highlight: ". *)
Theorem reviewed_place_blend (q : string) (attrs : UserPreferences) (l : list Candidate)
        (i : nat) (p p' : Candidate) :
  NoDup (map pid_of l) -> nth_error l i = Some p -> (i < 15)%nat ->
  has_review_text p = true ->
  In p' (re_rank_with_reviews q attrs l) -> pid_of p' = pid_of p ->
  p_score_with_reviews p'
  = Some ((1.0 - 0.25) * base_score p
          + 0.25 * _review_match_score q attrs (_flatten_reviews p))
  /\ (forall v, p_score_with_reviews p' = Some v ->
        0.75 * base_score p + 0.075 <= v <= 0.75 * base_score p + 0.25)
  /\ (PyStr.truthy (_short_review_summary (_flatten_reviews p) 140) = true ->
      p_reason p'
      = Some (if PyStr.truthy (PyStr.or_empty (p_reason p))
              then PyStr.or_empty (p_reason p) ++ ". Reviews highlight: "
                   ++ _short_review_summary (_flatten_reviews p) 140
              else "Reviews highlight: "
                   ++ _short_review_summary (_flatten_reviews p) 140)).
Proof.
  intros Hnd Hi Hk Hrev Hin Hpid.
  assert (Hp : In p l) by (eapply nth_error_In, Hi).
  assert (Htop : existsb has_review_text (firstn 15 l) = true).
  { apply existsb_exists. exists p. split; [|exact Hrev].
    eapply nth_error_firstn_In; eauto. }
  unfold re_rank_with_reviews in Hin.
  rewrite (re_rank_active 15 0.25 q attrs l Htop) in Hin.
  apply sort_desc_In, in_map_iff in Hin as [x [<- Hx]].
  rewrite rescore_pid in Hpid.
  assert (x = p) by (apply (pid_injective l); auto). subst x.
  unfold rescore. rewrite (own_entry q attrs 15 l i p Hnd Hi Hk Hrev).
  cbn [entry_of review_match_score review_summary set_review_fields
       p_score_with_reviews p_reason].
  split; [reflexivity|]. split.
  - intros v [= <-].
    pose proof (review_match_score_bounds q attrs (_flatten_reviews p)). lra.
  - intros Hs. rewrite Hs.
    destruct (PyStr.truthy (PyStr.or_empty (p_reason p))); reflexivity.
Qed.

Lemma reviewed_place_blend_witness :
  Forall (fun p' =>
            pid_of p' = "rest_16" ->
            p_score_with_reviews p'
            = Some ((1.0 - 0.25) * 0.9
                    + 0.25 * _review_match_score "crisp dosa" dosa_request
                                                 "Soft idli. Friendly staff."))
         (re_rank_with_reviews "crisp dosa" dosa_request active_top).
Proof.
  apply Forall_forall. intros p' Hin Hpid.
  apply (reviewed_place_blend "crisp dosa" dosa_request active_top 0
           (ranked_place "rest_16" "south indian" ["Soft idli. Friendly staff."] 0.9) p').
  - exact active_top_ids_distinct.
  - reflexivity.
  - lia.
  - reflexivity.
  - exact Hin.
  - exact Hpid.
Defined.

(* ================================================================== *)
(** * Upstream of the ranker *)

(** ** recommendations.py: [_filter_pre_constraints] *)

(** [max_radius_m and dist is not None and float(dist) > max_radius_m]; a
    distance [float()] rejects is skipped by the [except] clause. *)
Definition radius_exceeded (max_radius_m : option R) (p : Candidate) : bool :=
  if num_truthy max_radius_m then
    match max_radius_m, p_distance_m p with
    | Some m, PyNum d => if Rlt_dec m d then true else false
    | _, _ => false
    end
  else false.

(** The vegetarian test of the pre-filter: "veg" or "vegetarian" in the
    category, or "pure veg" in the tags. *)
Definition looks_veg (p : Candidate) : bool :=
  let cat := PyStr.lower (PyStr.or_empty (p_category p)) in
  let tags := PyStr.lower (PyStr.or_empty (p_tags p)) in
  PyStr.contains "veg" cat || PyStr.contains "vegetarian" cat
  || PyStr.contains "pure veg" tags.

Fixpoint _filter_pre_constraints (attrs : UserPreferences) (places : list Candidate)
         (max_radius_m : option R) (veg_only : option bool) : list Candidate :=
  match places with
  | [] => []
  | p :: rest =>
      let avoid := map PyStr.lower (as_list (a_avoid_cuisine attrs)) in
      let filtered := _filter_pre_constraints attrs rest max_radius_m veg_only in
      if radius_exceeded max_radius_m p then filtered
      else
        let cat := PyStr.lower (PyStr.or_empty (p_category p)) in
        if existsb (fun a => PyStr.contains a cat) avoid then filtered
        else
          match veg_only with
          | Some true => if negb (looks_veg p) then filtered else p :: filtered
          | _ => p :: filtered
          end
  end.

Lemma existsb_map {A B : Type} (f : B -> bool) (g : A -> B) (l : list A) :
  existsb f (map g l) = existsb (fun x => f (g x)) l.
Proof. induction l as [|x l IH]; simpl; [reflexivity|]. rewrite IH. reflexivity. Qed.

(** X23: the pre-filter returns a sub-list of its input in which no place
    has an avoided cuisine in its category (so the avoid step of
    [rank_places] drops none of them), none has a known distance beyond a
    non-zero radius, and with [veg_only] each one looks vegetarian. *)
Theorem filter_pre_constraints_sound (attrs : UserPreferences) (places : list Candidate)
        (max_radius_m : option R) (veg_only : option bool) :
  (exists keep, _filter_pre_constraints attrs places max_radius_m veg_only
                = filter keep places)
  /\ (forall p, In p (_filter_pre_constraints attrs places max_radius_m veg_only) ->
        avoided attrs p = false
        /\ (forall m d, max_radius_m = Some m -> m <> 0 -> p_distance_m p = PyNum d -> d <= m)
        /\ (veg_only = Some true -> looks_veg p = true)).
Proof.
  set (keep := fun p =>
         negb (radius_exceeded max_radius_m p)
         && negb (avoided attrs p)
         && match veg_only with Some true => looks_veg p | _ => true end).
  assert (E : _filter_pre_constraints attrs places max_radius_m veg_only = filter keep places).
  { induction places as [|p places IH]; [reflexivity|].
    simpl _filter_pre_constraints. rewrite IH. simpl filter.
    assert (Hk : keep p = negb (radius_exceeded max_radius_m p)
                          && negb (avoided attrs p)
                          && match veg_only with Some true => looks_veg p | _ => true end)
      by reflexivity.
    rewrite Hk. unfold avoided. rewrite existsb_map. cbv beta.
    destruct (radius_exceeded max_radius_m p); simpl; [reflexivity|].
    destruct (existsb _ (as_list (a_avoid_cuisine attrs))); simpl; [reflexivity|].
    destruct veg_only as [[|]|]; try reflexivity.
    destruct (looks_veg p); reflexivity. }
  split; [exists keep; exact E|].
  intros p Hp. rewrite E in Hp. apply filter_In in Hp as [_ Hk]. unfold keep in Hk.
  apply andb_true_iff in Hk as [Hk Hv]. apply andb_true_iff in Hk as [Hr Ha].
  apply negb_true_iff in Hr, Ha.
  split; [exact Ha|]. split.
  - intros m d Hm Hnz Hd. unfold radius_exceeded, num_truthy in Hr. rewrite Hm, Hd in Hr.
    destruct (Req_dec_T m 0); [contradiction|].
    destruct (Rlt_dec m d); [discriminate|lra].
  - intros ->. exact Hv.
Qed.

(** ** nlp_service.py *)

Definition veg_patterns : list string :=
  [ "veg only"; "only veg"; "pure veg"; "pure-veg"; "pure vegetarian";
    "vegetarian only"; "only vegetarian"; "strictly veg"; "strict veg";
    "veg restaurant"; "veg hotel"; "veg hotels"; "veg food"; "vegetarian" ].

Definition _auto_detect_veg_only (user_query : string) : bool :=
  let q := PyStr.lower user_query in
  existsb (fun pat => PyStr.contains pat q) veg_patterns.

(** [extract_attributes] after the parser call: [parsed] is what
    [parse_query_with_gemini] returned.  The key [explicit_location_text]
    it also writes is read by none of the functions modelled here and has no
    field in [UserPreferences]. *)
Definition extract_attributes (parsed : UserPreferences) (user_query : string)
           (veg_only : option bool) (user_budget : option R) (max_distance_km : option R)
  : UserPreferences :=
  let auto_veg := _auto_detect_veg_only user_query in
  let current_flag := a_veg_only parsed in
  let current_flag :=
    match veg_only with
    | Some v => current_flag || v
    | None => current_flag
    end in
  let current_flag := if auto_veg then true else current_flag in
  {| a_cuisine := a_cuisine parsed;
     a_inferred_cuisine_from_dish := a_inferred_cuisine_from_dish parsed;
     a_dish := a_dish parsed;
     a_food_style := a_food_style parsed;
     a_avoid_food_style := a_avoid_food_style parsed;
     a_avoid_cuisine := a_avoid_cuisine parsed;
     a_budget := match user_budget with Some b => Some b | None => a_budget parsed end;
     a_mood := a_mood parsed;
     a_veg_only := current_flag;
     a_max_distance_m :=
       match max_distance_km with
       | Some km => Some (km * 1000)
       | None => a_max_distance_m parsed
       end;
     a_ranking_preferences :=
       if sl_truthy (a_ranking_preferences parsed) then a_ranking_preferences parsed
       else SLList [];
     a_raw_query := user_query;
     a_distance_preference := a_distance_preference parsed;
     a_category_hint := a_category_hint parsed;
     a_fallback_type := a_fallback_type parsed;
     a_dish_fallback := a_dish_fallback parsed |}.

(** X24: a vegetarian wish binds from end to end: when the parser, the UI
    flag or the wording of the query (for instance the word "vegetarian")
    asks for it, every place [rank_places] returns for the extracted
    attributes has "vegetarian" in its cuisine or category, and a UI flag set
    to false does not undo what the query says; a maximal distance in km
    given by the UI bounds every known distance, in metres. *)
Theorem vegetarian_wish_binds
        (describe : UserPreferences -> Candidate -> contributions -> option string)
        (parsed attrs' : UserPreferences) (user_query : string) (veg_only : option bool)
        (user_budget max_distance_km : option R) (places ranked : list Candidate)
        (r : Candidate) :
  rank_places describe
              (extract_attributes parsed user_query veg_only user_budget max_distance_km)
              places
  = Some (attrs', ranked) ->
  In r ranked ->
  (a_veg_only parsed = true \/ veg_only = Some true
   \/ PyStr.contains "vegetarian" (PyStr.lower user_query) = true
   \/ _auto_detect_veg_only user_query = true ->
   _is_veg_place r = true)
  /\ (forall km d, max_distance_km = Some km -> p_distance_m r = PyNum d -> d <= km * 1000).
Proof.
  intros H Hr.
  destruct (ranked_passed_filters describe _ _ _ _ r H Hr) as [c [Hcr [_ [Hp _]]]].
  destruct (scored_from_fields _ _ _ Hcr) as [Ev [Ed _]].
  unfold passes_hard_filter in Hp. apply andb_true_iff in Hp as [Hveg Hfar].
  apply negb_true_iff in Hveg, Hfar. split.
  - intros Hwish.
    assert (Hflag : a_veg_only (extract_attributes parsed user_query veg_only user_budget
                                                   max_distance_km) = true).
    { assert (Hv : PyStr.contains "vegetarian" (PyStr.lower user_query) = true ->
                   _auto_detect_veg_only user_query = true).
      { intros Hc. unfold _auto_detect_veg_only. apply existsb_exists.
        exists "vegetarian". split; [|exact Hc]. unfold veg_patterns. simpl. tauto. }
      cbn [extract_attributes a_veg_only].
      destruct (_auto_detect_veg_only user_query); [reflexivity|].
      destruct Hwish as [Hw|[Hw|[Hw|Hw]]].
      - rewrite Hw. destruct veg_only; reflexivity.
      - rewrite Hw. apply orb_true_r.
      - discriminate (Hv Hw).
      - discriminate Hw. }
    rewrite Hflag in Hveg. simpl in Hveg. apply negb_false_iff in Hveg.
    rewrite Ev. exact Hveg.
  - intros km d Hkm Hd. unfold beyond_max in Hfar.
    cbn [extract_attributes a_max_distance_m] in Hfar. rewrite Hkm, <- Ed, Hd in Hfar.
    destruct (Rlt_dec (km * 1000) d); [discriminate|lra].
Qed.

Lemma vegetarian_wish_binds_witness :
  (a_veg_only no_signal = true \/ Some false = Some true
   \/ PyStr.contains "vegetarian" (PyStr.lower "Vegetarian thali please") = true
   \/ _auto_detect_veg_only "Vegetarian thali please" = true ->
   _is_veg_place
     (annotate (bare_place "rest_4" "Vegetarian Thali")
        (compute_score
           (flagged (extract_attributes no_signal "Vegetarian thali please"
                                        (Some false) None None)
                    [bare_place "rest_4" "Vegetarian Thali"])
           (bare_place "rest_4" "Vegetarian Thali"))
        "Good overall match based on your preferences") = true)
  /\ (forall km d, @None R = Some km ->
        p_distance_m
          (annotate (bare_place "rest_4" "Vegetarian Thali")
             (compute_score
                (flagged (extract_attributes no_signal "Vegetarian thali please"
                                             (Some false) None None)
                         [bare_place "rest_4" "Vegetarian Thali"])
                (bare_place "rest_4" "Vegetarian Thali"))
             "Good overall match based on your preferences") = PyNum d ->
        d <= km * 1000).
Proof.
  apply (vegetarian_wish_binds plain_reason no_signal
           (flagged (extract_attributes no_signal "Vegetarian thali please"
                                        (Some false) None None)
                    [bare_place "rest_4" "Vegetarian Thali"])
           "Vegetarian thali please" (Some false) None None
           [bare_place "rest_2" "Biryani House"; bare_place "rest_4" "Vegetarian Thali"]
           [annotate (bare_place "rest_4" "Vegetarian Thali")
              (compute_score
                 (flagged (extract_attributes no_signal "Vegetarian thali please"
                                              (Some false) None None)
                          [bare_place "rest_4" "Vegetarian Thali"])
                 (bare_place "rest_4" "Vegetarian Thali"))
              "Good overall match based on your preferences"]).
  - reflexivity.
  - left. reflexivity.
Defined.

(** ** gemini_client.py: the ranking preferences [_normalize_attrs] keeps *)

(** [negated(term)]: the lower-cased query says the term does not matter. *)
Definition negated (raw_q term : string) : bool :=
  PyStr.contains (term ++ " doesn’t matter") raw_q
  || PyStr.contains (term ++ " doesn't matter") raw_q
  || PyStr.contains (term ++ " does not matter") raw_q
  || PyStr.contains ("i don’t care about " ++ term) raw_q
  || PyStr.contains ("i don't care about " ++ term) raw_q.

(** One iteration of the loop that fills [cleaned]. *)
Definition clean_step (raw_q : string) (cleaned : list string) (p : string) : list string :=
  if (p =? "distance") && negb (negated raw_q "distance") then (cleaned ++ [p])%list
  else if (p =? "popularity") && negb (negated raw_q "popularity") then (cleaned ++ [p])%list
  else if p =? "budget" then (cleaned ++ [p])%list
  else if (p =? "rating") && negb (negated raw_q "rating") then (cleaned ++ ["popularity"])%list
  else cleaned.

(** The value [_normalize_attrs] stores under [ranking_preferences], from
    the raw query and the raw list of preferences. *)
Definition cleaned_ranking_preferences (raw_query : string) (prefs : list string)
  : list string :=
  let prefs := map (fun p => PyStr.strip (PyStr.lower p)) prefs in
  let raw_q := PyStr.lower raw_query in
  fold_left (clean_step raw_q) prefs [].

(** The three tokens the parser lets through. *)
Definition parser_token (t : string) : Prop :=
  t = "distance" \/ t = "popularity" \/ t = "budget".

Lemma clean_fold_tokens (raw_q : string) (prefs acc : list string) :
  Forall parser_token acc ->
  Forall parser_token (fold_left (clean_step raw_q) prefs acc).
Proof.
  revert acc. induction prefs as [|p prefs IH]; intros acc H; simpl; [exact H|].
  apply IH. unfold clean_step.
  destruct (p =? "distance") eqn:E1; simpl.
  - apply String.eqb_eq in E1. subst p.
    destruct (negated raw_q "distance"); simpl; [exact H|].
    apply Forall_app. split; [exact H|]. constructor; [left; reflexivity|constructor].
  - destruct (p =? "popularity") eqn:E2; simpl.
    + apply String.eqb_eq in E2. subst p.
      destruct (negated raw_q "popularity"); simpl; [exact H|].
      apply Forall_app. split; [exact H|].
      constructor; [right; left; reflexivity|constructor].
    + destruct (p =? "budget") eqn:E3.
      * apply String.eqb_eq in E3. subst p.
        apply Forall_app. split; [exact H|].
        constructor; [right; right; reflexivity|constructor].
      * destruct ((p =? "rating") && negb (negated raw_q "rating")); [|exact H].
        apply Forall_app. split; [exact H|].
        constructor; [right; left; reflexivity|constructor].
Qed.

Lemma parser_tokens_normal (l : list string) :
  Forall parser_token l -> filter PyStr.truthy (map PyStr.lower l) = l.
Proof.
  induction 1 as [|t l Ht _ IH]; simpl; [reflexivity|].
  rewrite IH. destruct Ht as [-> | [-> | ->]]; reflexivity.
Qed.

Lemma parser_tokens_no_hits (l : list string) :
  Forall parser_token l -> hits FCuisine l = 0%nat /\ hits FStyle l = 0%nat.
Proof.
  unfold hits. induction 1 as [|t l Ht _ IH]; simpl; [auto|].
  destruct IH as [IH1 IH2]. destruct Ht as [-> | [-> | ->]]; simpl; auto.
Qed.

Lemma div_le_pos (a b t : R) : 0 < t -> a <= b -> a / t <= b / t.
Proof.
  intros Ht Hab. unfold Rdiv.
  apply Rmult_le_compat_r; [left; apply Rinv_0_lt_compat; exact Ht | exact Hab].
Qed.

(** X25: the parser passes on only the tokens "distance", "popularity" and
    "budget" ("rating" becomes "popularity", "cuisine" and "style" are
    dropped); so for attributes carrying such a list, when it is not empty,
    the adjusted weights of cuisine match and style match are equal and no
    other weight is smaller. *)
Theorem parsed_preferences_never_favour_cuisine
        (raw_query : string) (prefs : list string) (attrs : UserPreferences)
        (base : Weights) (k : factor) :
  Forall parser_token (cleaned_ranking_preferences raw_query prefs)
  /\ (a_ranking_preferences attrs = SLList (cleaned_ranking_preferences raw_query prefs) ->
      cleaned_ranking_preferences raw_query prefs <> [] ->
      weight_of FCuisine (adjust_dynamic_weights attrs base)
      = weight_of FStyle (adjust_dynamic_weights attrs base)
      /\ weight_of FCuisine (adjust_dynamic_weights attrs base)
         <= weight_of k (adjust_dynamic_weights attrs base)).
Proof.
  assert (Htok : Forall parser_token (cleaned_ranking_preferences raw_query prefs))
    by (apply clean_fold_tokens; constructor).
  split; [exact Htok|]. intros Hrp Hne.
  set (l := cleaned_ranking_preferences raw_query prefs) in *.
  assert (Hnorm : norm_prefs attrs = l).
  { unfold norm_prefs. rewrite Hrp. simpl as_list. apply parser_tokens_normal, Htok. }
  pose proof (raw_pref_weights_above l) as Ha.
  pose proof (above_baseline_sum _ Ha) as Hs.
  assert (Hadj : adjust_dynamic_weights attrs base = normalize (raw_pref_weights l)).
  { unfold adjust_dynamic_weights. rewrite Hnorm. destruct l; [congruence|reflexivity]. }
  rewrite Hadj, !weight_of_normalize by lra.
  assert (Hraw : weight_of FCuisine (raw_pref_weights l) = 0.02
                 /\ weight_of FStyle (raw_pref_weights l) = 0.02).
  { destruct l as [|p0 [|p1 rest]]; [congruence| |].
    - apply Forall_inv in Htok. destruct Htok as [-> | [-> | ->]]; split; reflexivity.
    - destruct (parser_tokens_no_hits _ Htok) as [H1 H2].
      change (raw_pref_weights (p0 :: p1 :: rest))
        with (fold_left bump (p0 :: p1 :: rest) baseline).
      rewrite !fold_bump_weight, H1, H2. simpl. split; lra. }
  destruct Hraw as [Hc Hst]. split.
  - rewrite Hc, Hst. reflexivity.
  - apply div_le_pos; [lra|]. rewrite Hc.
    unfold above_baseline in Ha. destruct k; simpl; lra.
Qed.

Lemma parsed_preferences_never_favour_cuisine_witness :
  weight_of FCuisine
    (adjust_dynamic_weights
       (with_ranking (SLList (cleaned_ranking_preferences
                                "cheap food, distance doesn't matter"
                                ["Cuisine"; " Rating "; "distance"; "budget"]))
                     no_signal) WEIGHTS)
  <= weight_of FBudget
       (adjust_dynamic_weights
          (with_ranking (SLList (cleaned_ranking_preferences
                                   "cheap food, distance doesn't matter"
                                   ["Cuisine"; " Rating "; "distance"; "budget"]))
                        no_signal) WEIGHTS).
Proof.
  apply (proj2 (parsed_preferences_never_favour_cuisine
                  "cheap food, distance doesn't matter"
                  ["Cuisine"; " Rating "; "distance"; "budget"]
                  (with_ranking (SLList (cleaned_ranking_preferences
                                           "cheap food, distance doesn't matter"
                                           ["Cuisine"; " Rating "; "distance"; "budget"]))
                                no_signal)
                  WEIGHTS FBudget)).
  - reflexivity.
  - discriminate.
Defined.

(** The cleaned list of the sample above. *)
Example cleaned_sample :
  cleaned_ranking_preferences "cheap food, distance doesn't matter"
                              ["Cuisine"; " Rating "; "distance"; "budget"]
  = ["popularity"; "budget"].
Proof. reflexivity. Qed.
